(** * CourtListener MCP bridge

    A shallow embedding of the request layer, the paginated search and the
    tools of [server.py] and of the tool-schema conversion and dispatch
    loop of [client.py], with the properties their specification states
    and others read off the code.

    Python values are modelled as they are at run time: decoded JSON as a
    dynamically typed value, dictionaries as insertion-ordered association
    lists, exceptions as an explicit outcome, and every interaction with the
    outside (HTTP, sleeping, the model, the tool session, the console) as an
    event appended to a trace. *)

From Stdlib Require Import ZArith List String Ascii Bool Lia DecimalString.
Import ListNotations.
Local Open Scope string_scope.
Local Open Scope list_scope.
Local Open Scope Z_scope.
Set Warnings "-register-all".

(** Concatenation of Python strings ([+] and f-string juxtaposition). *)
Infix "+++" := String.append (right associativity, at level 60).

(* ================================================================== *)
(** ** Python values and built-ins *)
(* ================================================================== *)

Module Py.

(** Exceptions that can reach the modelled code.  [Timeout] stands for
    [requests.Timeout] and its subclasses, [RequestException] for every
    other subclass of [requests.RequestException] (connection errors, the
    [HTTPError] of [raise_for_status], the [JSONDecodeError] of
    [Response.json]); both carry [str(e)].  [OpenAIError] is the error of
    the OpenAI client library. *)
Inductive exn : Type :=
| Timeout (msg : string)
| RequestException (msg : string)
| TypeError
| AttributeError
| KeyError
| IndexError
| ValueError
| JSONDecodeError
| RecursionError
| OpenAIError.

(** What evaluating a piece of Python gives: a value, a raised exception,
    or [Diverge] when a fuel-bounded loop runs out of fuel. *)
Inductive outcome (A : Type) : Type :=
| Val (a : A)
| Exc (e : exn)
| Diverge.
Arguments Val {A} a.
Arguments Exc {A} e.
Arguments Diverge {A}.

(** What a call into a library or a remote party comes back with. *)
Inductive reply (A : Type) : Type :=
| Gives (a : A)
| Fails (e : exn).
Arguments Gives {A} a.
Arguments Fails {A} e.

Definition of_reply {A} (r : reply A) : outcome A :=
  match r with
  | Gives a => Val a
  | Fails e => Exc e
  end.

(** Sequencing of pure steps that may raise. *)
Definition and_then {A B} (o : outcome A) (k : A -> outcome B) : outcome B :=
  match o with
  | Val a => k a
  | Exc e => Exc e
  | Diverge => Diverge
  end.

Notation "'let?' x := o 'in' k" := (and_then o (fun x => k))
  (at level 10, x name, o at level 100, k at level 200).

(** Decoded JSON, as [json.loads] and [Response.json] build it: [None],
    [bool], [int], [str], [list], and [dict] in insertion order.  Numbers
    are integers; no field read by this code is a float. *)
Inductive json : Type :=
| JNull
| JBool (b : bool)
| JInt (n : Z)
| JStr (s : string)
| JList (items : list json)
| JDict (fields : list (string * json)).

(** *** Dictionaries: insertion-ordered, keys unique *)

Definition dict (A : Type) : Type := list (string * A).

Fixpoint dict_get {A} (k : string) (d : dict A) : option A :=
  match d with
  | [] => None
  | (k', v) :: d' => if String.eqb k' k then Some v else dict_get k d'
  end.

Definition dict_has {A} (k : string) (d : dict A) : bool :=
  match dict_get k d with Some _ => true | None => false end.

(** [d[k] = v]: the value is replaced where the key already is, a new key
    goes last. *)
Fixpoint dict_set {A} (k : string) (v : A) (d : dict A) : dict A :=
  match d with
  | [] => [(k, v)]
  | (k', v') :: d' =>
      if String.eqb k' k then (k', v) :: d' else (k', v') :: dict_set k v d'
  end.

(** [del d[k]], used where the key is known to be present. *)
Fixpoint dict_del {A} (k : string) (d : dict A) : dict A :=
  match d with
  | [] => []
  | (k', v') :: d' =>
      if String.eqb k' k then d' else (k', v') :: dict_del k d'
  end.

(** *** Strings *)

Definition nl : string := String (ascii_of_nat 10) EmptyString.

(** [str(n)] for an [int]. *)
Definition str_of_int (n : Z) : string := NilZero.string_of_int (Z.to_int n).

Fixpoint starts_with (p s : string) : bool :=
  match p, s with
  | EmptyString, _ => true
  | String _ _, EmptyString => false
  | String a p', String b s' => Ascii.eqb a b && starts_with p' s'
  end.

Fixpoint drop (n : nat) (s : string) : string :=
  match n, s with
  | O, _ => s
  | S _, EmptyString => EmptyString
  | S n', String _ s' => drop n' s'
  end.

(** The text before and after the leftmost occurrence of [sep] in [s]. *)
Fixpoint find (sep s : string) : option (string * string) :=
  if starts_with sep s then Some (EmptyString, drop (String.length sep) s)
  else match s with
       | EmptyString => None
       | String c s' =>
           match find sep s' with
           | Some (b, a) => Some (String c b, a)
           | None => None
           end
       end.

(** [sub in s] for two strings. *)
Definition contains (sub s : string) : bool :=
  match find sub s with Some _ => true | None => false end.

(** [s.split(sep)] for a non-empty [sep]: cut at the leftmost occurrence,
    go on in the rest.  The rest is shorter than [s], so [length s] steps
    are enough. *)
Fixpoint split_fuel (fuel : nat) (sep s : string) : list string :=
  match find sep s with
  | None => [s]
  | Some (b, a) =>
      b :: match fuel with
           | O => [a]
           | S fuel' => split_fuel fuel' sep a
           end
  end.

(** The text of [s] before the leftmost [sep], all of [s] when there is
    none: the first piece of [s.split(sep)]. *)
Definition before (sep s : string) : string :=
  match find sep s with
  | Some (b, _) => b
  | None => s
  end.

Definition str_split (sep s : string) : outcome (list string) :=
  match sep with
  | EmptyString => Exc ValueError
  | _ => Val (split_fuel (String.length s) sep s)
  end.

(** [l[i]] on a list, for [i >= 0]. *)
Definition list_index {A} (l : list A) (i : nat) : outcome A :=
  match nth_error l i with
  | Some x => Val x
  | None => Exc IndexError
  end.

(** [int(s)] on ASCII text: surrounding whitespace, an optional sign,
    decimal digits, single underscores between digits; [ValueError]
    otherwise.  [py_int] below says on which strings this is all there is
    to [int]. *)
Definition is_space (c : ascii) : bool :=
  let n := nat_of_ascii c in
  (Nat.eqb n 32 || (Nat.leb 9 n && Nat.leb n 13))%bool.

Fixpoint lstrip (s : string) : string :=
  match s with
  | EmptyString => EmptyString
  | String c s' => if is_space c then lstrip s' else s
  end.

Fixpoint rstrip (s : string) : string :=
  match s with
  | EmptyString => EmptyString
  | String c s' =>
      match rstrip s' with
      | EmptyString => if is_space c then EmptyString else String c EmptyString
      | r => String c r
      end
  end.

Definition digit_val (c : ascii) : option Z :=
  let n := nat_of_ascii c in
  if (Nat.leb 48 n && Nat.leb n 57)%bool then Some (Z.of_nat (n - 48)) else None.

Fixpoint digits (acc : Z) (after_digit : bool) (s : string) : option Z :=
  match s with
  | EmptyString => if after_digit then Some acc else None
  | String c s' =>
      if Ascii.eqb c "_"%char
      then (if after_digit then digits acc false s' else None)
      else match digit_val c with
           | Some d => digits (10 * acc + d) true s'
           | None => None
           end
  end.

Definition int_of_str (s : string) : outcome Z :=
  let t := rstrip (lstrip s) in
  let r := match t with
           | String "+"%char u => digits 0 false u
           | String "-"%char u => option_map Z.opp (digits 0 false u)
           | _ => digits 0 false t
           end in
  match r with Some z => Val z | None => Exc ValueError end.

(** Text of 7-bit characters only. *)
Fixpoint is_ascii (s : string) : bool :=
  match s with
  | EmptyString => true
  | String c s' => (Nat.ltb (nat_of_ascii c) 128 && is_ascii s')%bool
  end.

(** The strings every interpreter reads alike: ASCII text of at most 640
    characters.  Beyond ASCII, [int] also takes the decimal digits and the
    spaces of the interpreter's Unicode tables; and from 3.11 on it raises
    [ValueError] for more digits than a limit that is 4300 unless the
    interpreter is set up otherwise, and that cannot be set below 640. *)
Definition plain_number_text (s : string) : bool :=
  (is_ascii s && Nat.leb (String.length s) 640)%bool.

(** [int(s)] for a string: computed on the plain strings; on the others
    [beyond s] is what the interpreter at hand gives, a number, or [None]
    when it raises [ValueError] (a string makes [int] raise nothing
    else). *)
Definition py_int (beyond : string -> option Z) (s : string) : outcome Z :=
  if plain_number_text s then int_of_str s
  else match beyond s with
       | Some n => Val n
       | None => Exc ValueError
       end.

(** *** Dynamic operations on decoded values *)

(** Truth value of a decoded value ([bool(v)]). *)
Definition truthy (v : json) : bool :=
  match v with
  | JNull => false
  | JBool b => b
  | JInt n => negb (n =? 0)
  | JStr s => negb (String.eqb s EmptyString)
  | JList l => match l with [] => false | _ => true end
  | JDict d => match d with [] => false | _ => true end
  end.

Definition is_str (x : string) (v : json) : bool :=
  match v with JStr s => String.eqb s x | _ => false end.

(** The field [k] of a decoded object, when the value is an object and has
    it. *)
Definition field (k : string) (v : json) : option json :=
  match v with
  | JDict d => dict_get k d
  | _ => None
  end.

(** [x in c] for a string [x]: key of a dict, element of a list, substring
    of a string; other values are not containers. *)
Definition py_in (x : string) (c : json) : outcome bool :=
  match c with
  | JDict d => Val (dict_has x d)
  | JList l => Val (existsb (is_str x) l)
  | JStr s => Val (contains x s)
  | _ => Exc TypeError
  end.

(** [c[k]] for a string key [k]. *)
Definition py_getitem (c : json) (k : string) : outcome json :=
  match c with
  | JDict d => match dict_get k d with Some v => Val v | None => Exc KeyError end
  | _ => Exc TypeError
  end.

(** [c.get(k, default)]: only dicts have the method. *)
Definition py_get (c : json) (k : string) (default : json) : outcome json :=
  match c with
  | JDict d => Val (match dict_get k d with Some v => v | None => default end)
  | _ => Exc AttributeError
  end.

(** The elements [list.extend(v)] appends: the items of a list, the keys
    of a dict, the characters of a string. *)
Definition py_iter (v : json) : outcome (list json) :=
  match v with
  | JList l => Val l
  | JDict d => Val (map (fun kv => JStr (fst kv)) d)
  | JStr s => Val (map (fun c => JStr (String c EmptyString)) (list_ascii_of_string s))
  | _ => Exc TypeError
  end.

(** [v.split(sep)]: only strings have the method. *)
Definition py_split (v : json) (sep : string) : outcome (list string) :=
  match v with
  | JStr s => str_split sep s
  | _ => Exc AttributeError
  end.

(** *** Computations with effects

    A computation reads the history of events, extends it, and ends in a
    value or an exception. *)

Definition M (E A : Type) : Type := list E -> outcome A * list E.

Definition ret {E A} (a : A) : M E A := fun tr => (Val a, tr).
Definition raise {E A} (e : exn) : M E A := fun tr => (Exc e, tr).
Definition diverge {E A} : M E A := fun tr => (Diverge, tr).
Definition emit {E} (e : E) : M E unit := fun tr => (Val tt, tr ++ [e]).
Definition lift {E A} (o : outcome A) : M E A := fun tr => (o, tr).

Definition bind {E A B} (m : M E A) (k : A -> M E B) : M E B := fun tr =>
  match m tr with
  | (Val a, tr') => k a tr'
  | (Exc e, tr') => (Exc e, tr')
  | (Diverge, tr') => (Diverge, tr')
  end.

Notation "x <- m ;; k" := (bind m (fun x => k))
  (at level 100, m at next level, right associativity).
Notation "m ;;; k" := (bind m (fun _ => k))
  (at level 100, right associativity).

(** [try: body except ...]: [handler] gives the clause that catches an
    exception, if any does. *)
Definition try_except {E A} (body : M E A) (handler : exn -> option (M E A))
    : M E A :=
  fun tr =>
    match body tr with
    | (Exc e, tr') =>
        match handler e with
        | Some h => h tr'
        | None => (Exc e, tr')
        end
    | r => r
    end.

End Py.


(* ================================================================== *)
(** ** server.py: the request layer *)
(* ================================================================== *)

Module Server.
Import Py.

Definition COURTLISTENER_BASE_URL : string :=
  "https://www.courtlistener.com/api/rest/v4".

(** What the code reads of a [requests.Response]: the status, the two texts
    [raise_for_status] puts in its message, and the body as
    [Response.json] sees it: JSON that decodes to [v]; text that is not
    JSON, with the message of the decoder; or JSON on which the decoder
    raises something else than its [JSONDecodeError], as [ValueError] for
    an integer literal with more digits than the interpreter converts and
    [RecursionError] for nesting too deep. *)
Inductive body : Type :=
| Json (v : json)
| NotJson (msg : string)
| DecoderRaises (e : exn).

Record response : Type := mkResponse {
  status_code : Z;
  reason : string;
  url : string;
  content : body
}.

(** Interactions with the outside, in the order they happen.  [ApiCall]
    marks an entry into [make_api_request]; the other two are the calls of
    [requests.get] and [time.sleep]. *)
Inductive event : Type :=
| ApiCall (endpoint : string) (params : dict string) (retries : Z)
| HttpGet (target : string) (headers : dict string) (params : dict string)
          (timeout : Z)
| Sleep (seconds : Z).

Definition trace : Type := list event.

Definition is_sleep (e : event) : option Z :=
  match e with Sleep d => Some d | _ => None end.

Definition is_get (e : event) : bool :=
  match e with HttpGet _ _ _ _ => true | _ => false end.

Definition is_call (e : event) : bool :=
  match e with ApiCall _ _ _ => true | _ => false end.

(** The delays slept, oldest first. *)
Fixpoint sleeps_of (tr : trace) : list Z :=
  match tr with
  | [] => []
  | e :: tr' =>
      match is_sleep e with
      | Some d => d :: sleeps_of tr'
      | None => sleeps_of tr'
      end
  end.

Definition gets_of (tr : trace) : nat := List.length (filter is_get tr).
Definition calls_of (tr : trace) : nat := List.length (filter is_call tr).

(** How one pass through a loop body ends: the function returns, or the
    loop goes on with the next pass. *)
Inductive flow (A : Type) : Type :=
| Return (v : A)
| Next.
Arguments Return {A} v.
Arguments Next {A}.

(** [range(n)]. *)
Definition range (n : Z) : list Z := map Z.of_nat (seq 0 (Z.to_nat n)).

Definition error_dict (msg : string) : json := JDict [("error", JStr msg)].

Definition rate_limit_message : string :=
  "Rate limit exceeded. Free accounts have 5,000 queries/hour. Please wait before making more requests.".
Definition auth_message : string :=
  "Authentication failed. Check your COURTLISTENER_API_TOKEN environment variable.".
Definition not_found_message : string :=
  "Not found or invalid cursor. Try removing pagination parameters.".

Definition timeout_message (retries : Z) : string :=
  "Request timed out after " +++ str_of_int retries
  +++ " attempts. CourtListener API may be slow or unavailable.".
Definition failed_message (retries : Z) (e : string) : string :=
  "API request failed after " +++ str_of_int retries +++ " attempts: " +++ e.

(** [Response.raise_for_status]: an [HTTPError] for 4xx and 5xx. *)
Definition raise_for_status (r : response) : outcome unit :=
  if (400 <=? status_code r) && (status_code r <? 500) then
    Exc (RequestException (str_of_int (status_code r) +++ " Client Error: "
                           +++ reason r +++ " for url: " +++ url r))
  else if (500 <=? status_code r) && (status_code r <? 600) then
    Exc (RequestException (str_of_int (status_code r) +++ " Server Error: "
                           +++ reason r +++ " for url: " +++ url r))
  else Val tt.

(** [Response.json]: the decoded body, or the [JSONDecodeError] of
    [requests] (a [RequestException] since requests 2.27), which wraps that
    of the decoder and nothing else: any other exception of the decoder
    goes through as it is. *)
Definition response_json (r : response) : outcome json :=
  match content r with
  | Json v => Val v
  | NotJson msg => Exc (RequestException msg)
  | DecoderRaises e => Exc e
  end.

(** The exceptions the two [except] clauses catch. *)
Definition retryable (e : exn) : bool :=
  match e with
  | Timeout _ | RequestException _ => true
  | _ => false
  end.

(** The message of the error returned when the last attempt ended in [e]. *)
Definition exhausted_message (retries : Z) (e : exn) : string :=
  match e with
  | Timeout _ => timeout_message retries
  | RequestException msg => failed_message retries msg
  | _ => EmptyString
  end.

(** The message returned for a status that is answered without a retry. *)
Definition terminal_message (status : Z) : option string :=
  if status =? 429 then Some rate_limit_message
  else if status =? 401 then Some auth_message
  else if status =? 404 then Some not_found_message
  else None.

(** The exception in which the [try] block of a pass ends, given what the
    transport came back with; [None] when the block returns. *)
Definition try_failure (o : reply response) : option exn :=
  match o with
  | Fails e => Some e
  | Gives r =>
      match terminal_message (status_code r) with
      | Some _ => None
      | None =>
          match raise_for_status r with
          | Exc e => Some e
          | _ => match response_json r with
                 | Exc e => Some e
                 | _ => None
                 end
          end
      end
  end.

(** The events of passes that fail and sleep, one per listed attempt, and
    of a last pass that fails. *)
Definition failed_passes (target : string) (headers params : dict string)
    (attempts : list Z) : trace :=
  flat_map (fun i => [HttpGet target headers params 60; Sleep (2 ^ i)]) attempts
  ++ [HttpGet target headers params 60].


Section Environment.

(** The environment variable [COURTLISTENER_API_TOKEN], when set. *)
Variable environ_token : option string.

(** The network: what [requests.get] does with a request, given all that
    has happened so far. *)
Variable http : trace -> string -> dict string -> dict string -> reply response.

Definition get_api_token : option string :=
  match environ_token with
  | Some token => if String.eqb token "" then None else Some token
  | None => None
  end.

Definition requests_get (target : string) (headers params : dict string)
    (timeout : Z) : M event response := fun tr =>
  (of_reply (http tr target headers params),
   tr ++ [HttpGet target headers params timeout]).

Definition request_headers : dict string :=
  let headers := [("Accept", "application/json");
                  ("Content-Type", "application/json")] in
  match get_api_token with
  | Some token => dict_set "Authorization" ("Token " +++ token) headers
  | None => headers
  end.

Definition api_url (endpoint : string) : string :=
  COURTLISTENER_BASE_URL +++ "/" +++ endpoint +++ "/".

(** The body of [for attempt in range(retries)]. *)
Definition attempt_once (target : string) (headers params : dict string)
    (retries attempt : Z) : M event (flow json) :=
  try_except
    (response <- requests_get target headers params 60 ;;
     if status_code response =? 429 then
       ret (Return (error_dict rate_limit_message))
     else if status_code response =? 401 then
       ret (Return (error_dict auth_message))
     else if status_code response =? 404 then
       ret (Return (error_dict not_found_message))
     else
       (lift (raise_for_status response) ;;;
        v <- lift (response_json response) ;;
        ret (Return v)))
    (fun e =>
       match e with
       | Timeout _ =>
           Some (if attempt <? retries - 1
                 then (emit (Sleep (2 ^ attempt)) ;;; ret Next)
                 else ret (Return (error_dict (timeout_message retries))))
       | RequestException msg =>
           Some (if attempt <? retries - 1
                 then (emit (Sleep (2 ^ attempt)) ;;; ret Next)
                 else ret (Return (error_dict (failed_message retries msg))))
       | _ => None
       end).

Fixpoint for_attempts (target : string) (headers params : dict string)
    (retries : Z) (attempts : list Z) : M event json :=
  match attempts with
  | [] => ret (error_dict "Maximum retries exceeded")
  | attempt :: rest =>
      fl <- attempt_once target headers params retries attempt ;;
      match fl with
      | Return v => ret v
      | Next => for_attempts target headers params retries rest
      end
  end.

Definition make_api_request (endpoint : string) (params : dict string)
    (retries : Z) : M event json :=
  emit (ApiCall endpoint params retries) ;;;
  for_attempts (api_url endpoint) request_headers params retries (range retries).


(** *** The paginated search *)

(** Python's [repr] of a decoded list or dict, which [str] uses inside an
    f-string; a built-in, left open. *)
Variable py_repr : json -> string.

(** [str(v)] of a decoded value, as an f-string interpolates it. *)
Definition py_str (v : json) : string :=
  match v with
  | JNull => "None"
  | JBool true => "True"
  | JBool false => "False"
  | JInt n => str_of_int n
  | JStr s => s
  | JList _ | JDict _ => py_repr v
  end.

(** The local variables the [while] loop updates. *)
Record page_state : Type := mkState {
  params : dict string;
  all_results : list json;
  current_cursor : string;
  pages_fetched : Z
}.

(** How one pass through the [while] body ends. *)
Inductive step : Type :=
| StepReturn (v : json)
| StepBreak (st : page_state)
| StepAgain (st : page_state).

(** How the loop ends: the function has returned, or control reaches the
    code after the loop. *)
Inductive loop_exit : Type :=
| Returned (v : json)
| LoopDone (st : page_state).

(** [next_url.split('cursor=')[1].split('&')[0]]. *)
Definition cursor_of_next (next_url : json) : outcome string :=
  let? parts := py_split next_url "cursor=" in
  let? tail := list_index parts 1 in
  let? pieces := str_split "&" tail in
  list_index pieces 0.

(** The cursor as the specification words it: the text between the
    leftmost [cursor=] and the next [&], or the end of the string. *)
Definition cursor_by_the_words (next_url : string) : option string :=
  match find "cursor=" next_url with
  | Some (_, after) => Some (before "&" after)
  | None => None
  end.

(** The parameters of the pass: the held cursor goes in, or a stale one
    goes out. *)
Definition cursor_params (st : page_state) : dict string :=
  if negb (String.eqb (current_cursor st) "")
  then dict_set "cursor" (current_cursor st) (params st)
  else if dict_has "cursor" (params st)
       then dict_del "cursor" (params st)
       else params st.

(** The pass after the request: what is made of [result]. *)
Definition digest_page (st1 : page_state) (result : json) : outcome step :=
  let? has_error := py_in "error" result in
  if has_error : bool then
    let? v := py_getitem result "error" in
    Val (StepReturn v)
  else
    let? has_results := py_in "results" result in
    let? no_results :=
      (if has_results : bool
       then (let? r := py_getitem result "results" in Val (negb (truthy r)))
       else Val true) in
    if no_results : bool then Val (StepBreak st1)
    else
      let? r := py_getitem result "results" in
      let? items := py_iter r in
      let st2 := mkState (params st1) (all_results st1 ++ items)
                         (current_cursor st1) (pages_fetched st1 + 1) in
      let? next_url := py_get result "next" JNull in
      if negb (truthy next_url) then Val (StepBreak st2)
      else
        let? has_cursor := py_in "cursor=" next_url in
        if has_cursor : bool then
          let? c := cursor_of_next next_url in
          Val (StepAgain (mkState (params st2) (all_results st2) c
                                  (pages_fetched st2)))
        else Val (StepBreak st2).

(** The state with which the request of a pass is made. *)
Definition enter_page (st : page_state) : page_state :=
  mkState (cursor_params st) (all_results st) (current_cursor st)
          (pages_fetched st).

Definition page_body (search_type : string) (st : page_state) : M event step :=
  let st1 := enter_page st in
  result <- make_api_request search_type (params st1) 3 ;;
  lift (digest_page st1 result).

(** [while pages_fetched < max_pages_int: ...]; [fuel] bounds the number of
    passes. *)
Fixpoint page_loop (fuel : nat) (search_type : string) (max_pages_int : Z)
    (st : page_state) : M event loop_exit :=
  if pages_fetched st <? max_pages_int then
    match fuel with
    | O => diverge
    | S fuel' =>
        s <- page_body search_type st ;;
        match s with
        | StepReturn v => ret (Returned v)
        | StepBreak st' => ret (LoopDone st')
        | StepAgain st' => page_loop fuel' search_type max_pages_int st'
        end
    end
  else ret (LoopDone st).

(** [turns search_type max st tr st' tr']: from the head of the loop in
    state [st] with history [tr], passes that each go on to another one
    lead to the head of the loop in state [st'] with history [tr']. *)
Inductive turns (search_type : string) (max_pages_int : Z)
    : page_state -> trace -> page_state -> trace -> Prop :=
| turns_here st tr : turns search_type max_pages_int st tr st tr
| turns_on st tr result tr1 st1 st' tr' :
    pages_fetched st < max_pages_int ->
    make_api_request search_type (cursor_params st) 3 tr = (Val result, tr1) ->
    digest_page (enter_page st) result = Val (StepAgain st1) ->
    turns search_type max_pages_int st1 tr1 st' tr' ->
    turns search_type max_pages_int st tr st' tr'.

(** The first line of an entry, by search type. *)
Definition item_heading (search_type : string) (i : Z) (item : json)
    (output : string) : outcome string :=
  if String.eqb search_type "opinions" then
    let? cluster := py_get item "cluster" (JDict []) in
    let? name := py_get cluster "case_name" (JStr "Unknown Case") in
    Val (output +++ str_of_int i +++ ". " +++ py_str name +++ nl)
  else if String.eqb search_type "dockets" then
    let? name := py_get item "case_name" (JStr "Unknown Case") in
    Val (output +++ str_of_int i +++ ". " +++ py_str name +++ nl)
  else if String.eqb search_type "courts" then
    let? name := py_get item "full_name" (JStr "Unknown Court") in
    Val (output +++ str_of_int i +++ ". " +++ py_str name +++ nl)
  else if String.eqb search_type "people" then
    let? name := py_get item "name_full" (JStr "Unknown Person") in
    Val (output +++ str_of_int i +++ ". " +++ py_str name +++ nl)
  else Val output.

(** [for i, item in enumerate(all_results, 1): ...]. *)
Fixpoint render_items (search_type : string) (i : Z) (items : list json)
    (output : string) : outcome string :=
  match items with
  | [] => Val output
  | item :: rest =>
      let? output1 := item_heading search_type i item output in
      let? link := py_get item "absolute_url" JNull in
      let? output2 :=
        (if truthy link then
           let? u := py_getitem item "absolute_url" in
           Val (output1 +++ "   URL: https://www.courtlistener.com"
                        +++ py_str u +++ nl)
         else Val output1) in
      render_items search_type (i + 1) rest (output2 +++ nl)
  end.

(** Result items the rendering can read: objects, whose [cluster], when
    the search is for opinions and the field is there, is an object. *)
Definition item_ok (search_type : string) (item : json) : bool :=
  match item with
  | JDict f =>
      if String.eqb search_type "opinions" then
        match dict_get "cluster" f with
        | None | Some (JDict _) => true
        | Some _ => false
        end
      else true
  | _ => false
  end.

(** Bodies of the shape the API documents: an object whose [results], when
    present, is a list of readable items and whose [next], when present, is
    null or a string. *)
Definition body_ok (search_type : string) (v : json) : bool :=
  match v with
  | JDict d =>
      match dict_get "results" d with
      | None => true
      | Some (JList items) => forallb (item_ok search_type) items
      | Some _ => false
      end
      && match dict_get "next" d with
         | None | Some JNull | Some (JStr _) => true
         | Some _ => false
         end
  | _ => false
  end.



Definition search_types : list string :=
  ["opinions"; "dockets"; "courts"; "people"].

(** What [int] makes of the strings beyond the plain ones. *)
Variable int_beyond : string -> option Z.

(** [min(int(max_pages), 10)], or 3 when [int] raises [ValueError]. *)
Definition page_ceiling (max_pages : string) : outcome Z :=
  match py_int int_beyond max_pages with
  | Val n => Val (Z.min n 10)
  | Exc ValueError => Val 3
  | Exc e => Exc e
  | Diverge => Diverge
  end.

(** The query parameters before the loop. *)
Definition initial_params (search_type query cursor : string) : dict string :=
  let params0 : dict string := [] in
  let params1 :=
    if negb (String.eqb query "") then
      if String.eqb search_type "opinions" then dict_set "q" query params0
      else if String.eqb search_type "dockets"
           then dict_set "case_name__icontains" query params0
      else if String.eqb search_type "courts"
           then dict_set "full_name__icontains" query params0
      else if String.eqb search_type "people"
           then dict_set "name_full__icontains" query params0
      else params0
    else params0 in
  if negb (String.eqb cursor "") then dict_set "cursor" cursor params1
  else params1.

Definition found_header (n : nat) (search_type : string) (pages : Z) : string :=
  "Found " +++ str_of_int (Z.of_nat n) +++ " " +++ search_type +++ " across "
  +++ str_of_int pages +++ " pages:" +++ nl +++ nl.

(** The code after the loop: an early return stands, an empty harvest is
    reported, anything else is listed. *)
Definition finish (search_type : string) (ex : loop_exit) : outcome json :=
  match ex with
  | Returned v => Val v
  | LoopDone st =>
      match all_results st with
      | [] => Val (JStr ("No " +++ search_type +++ " found"))
      | _ =>
          let? output := render_items search_type 1 (all_results st)
                           (found_header (List.length (all_results st))
                                         search_type (pages_fetched st)) in
          Val (JStr output)
      end
  end.

Definition search_with_pagination (search_type query cursor max_pages : string)
    : M event json :=
  if negb (existsb (String.eqb search_type) search_types) then
    ret (JStr "Error: search_type must be one of: opinions, dockets, courts, people")
  else
    max_pages_int <- lift (page_ceiling max_pages) ;;
    let st0 := mkState (initial_params search_type query cursor) [] cursor 0 in
    ex <- page_loop (Z.to_nat max_pages_int) search_type max_pages_int st0 ;;
    lift (finish search_type ex).

End Environment.

(** *** Transports and pages for the examples *)

Definition blank_repr (v : json) : string := EmptyString.

(** An interpreter whose [int] reads the plain strings only. *)
Definition plain_only (s : string) : option Z := None.

Definition always_timeout : trace -> string -> dict string -> dict string
                            -> reply response :=
  fun _ _ _ _ => Fails (Timeout "Read timed out.").

Definition ok_response (v : json) : response := mkResponse 200 "OK" "" (Json v).

Definition status_response (status : Z) : response :=
  mkResponse status "" "" (NotJson "Expecting value: line 1 column 1 (char 0)").


Definition answers (r : response) : trace -> string -> dict string -> dict string
                                    -> reply response :=
  fun _ _ _ _ => Gives r.

Definition court (court_name : string) : json :=
  JDict [("full_name", JStr court_name)].

Definition court_page (court_name : string) (next : json) : response :=
  ok_response (JDict [("count", JInt 3); ("next", next);
                      ("results", JList [court court_name])]).

(** A source of three pages of one court each, linked by cursors. *)
Definition three_pages : trace -> string -> dict string -> dict string
                         -> reply response :=
  fun _ _ _ p =>
    match dict_get "cursor" p with
    | None =>
        Gives (court_page "First Court"
                 (JStr "https://www.courtlistener.com/api/rest/v4/courts/?cursor=cD0y&format=json"))
    | Some c =>
        if String.eqb c "cD0y"
        then Gives (court_page "Second Court"
                      (JStr "https://www.courtlistener.com/api/rest/v4/courts/?cursor=cD0z"))
        else Gives (court_page "Third Court" JNull)
    end.

(** A source of two pages of one court each; the [next] of the second is
    the empty string. *)
Definition last_next_empty : trace -> string -> dict string -> dict string
                             -> reply response :=
  fun _ _ _ p =>
    match dict_get "cursor" p with
    | None =>
        Gives (court_page "First Court"
                 (JStr "https://www.courtlistener.com/api/rest/v4/courts/?cursor=cD0y"))
    | Some _ => Gives (court_page "Second Court" (JStr ""))
    end.

Definition start_state : page_state := mkState [] [] "" 0.

End Server.

(* ================================================================== *)
(** ** client.py: schema conversion and the dispatch loop *)
(* ================================================================== *)

Module Client.
Import Py.

(** A tool as the session lists it: an object whose attributes may be
    missing ([None] here), each holding any value. *)
Record tool_object : Type := mkTool {
  name : option json;
  description : option json;
  inputSchema : option json
}.

(** What reaches [convert_to_llm_tool]: Python's [None], or an object. *)
Definition tool : Type := option tool_object.

(** The JSON-encoded argument string of a requested call, by what
    [json.loads] makes of it. *)
Inductive argument_string : Type :=
| Encodes (v : json)
| Malformed.

Definition json_loads (a : argument_string) : outcome json :=
  match a with
  | Encodes v => Val v
  | Malformed => Exc JSONDecodeError
  end.

(** An entry of [response_message.tool_calls]. *)
Record tool_call : Type := mkCall {
  function_name : string;
  function_arguments : argument_string
}.

(** Console lines, one constructor per [print] of the program. *)
Inductive line : Type :=
| CallingLlm
| ToolCallLine (c : tool_call)
| InvalidToolWarning (t : tool)
| ListingResources
| ResourceLine (r : json)
| ListingTools
| ToolNameLine (n : json)
| ToolPropertiesLine (p : json)
| ValidFunctionsCount (n : nat)
| NoValidTools
| ToolsResult (content : json).

Inductive event : Type :=
| Printed (l : line)
| Initialize
| ListResources
| ListTools
| LlmRequest (system_message prompt : string) (functions : list json)
| CallTool (tool_name : json) (arguments : json).

Definition trace : Type := list event.

(** The functions submitted to the model, request by request. *)
Definition submitted (tr : trace) : list (list json) :=
  flat_map (fun e => match e with LlmRequest _ _ fs => [fs] | _ => [] end) tr.

(** The tool invocations made, oldest first. *)
Definition invoked (tr : trace) : list (json * json) :=
  flat_map (fun e => match e with CallTool n a => [(n, a)] | _ => [] end) tr.

Definition system_message : string :=
  "You are a helpful legal assistant that can call tools to perform tasks.".

Definition the_prompt : string :=
  "I want to get some real cases of starting businesses with F-1 visa in the US. Can you help me with that? Please also give me the summary based on the opnion ID".

(** [getattr(obj, attr)] on an attribute that may be missing. *)
Definition attribute (a : option json) : outcome json :=
  match a with
  | Some v => Val v
  | None => Exc AttributeError
  end.

Definition is_print (e : event) : bool :=
  match e with Printed _ => true | _ => false end.

(** The tools [convert_to_llm_tool] turns down. *)
Definition rejected (t : tool) : bool :=
  match t with
  | Some (mkTool (Some _) (Some _) _) => false
  | _ => true
  end.

(** The schema built from a name, a description and properties. *)
Definition tool_schema (tool_name tool_description properties : json) : json :=
  JDict [("type", JStr "function");
         ("function",
          JDict [("name", tool_name);
                 ("description", tool_description);
                 ("parameters",
                  JDict [("type", JStr "object");
                         ("properties", properties)])])].

(** The console lines of the listing, before the tools are gone through. *)
Definition preamble (resources : list json) : trace :=
  [Initialize; ListResources; Printed ListingResources]
  ++ map (fun r => Printed (ResourceLine r)) resources
  ++ [ListTools; Printed ListingTools].

Section Environment.

(** The environment variable [OPENAI_API_KEY], when set. *)
Variable environ_openai_key : option string.

(** The model: the [tool_calls] of the first choice's message ([None] or a
    list), given the history and the request. *)
Variable llm : trace -> string -> list json -> reply (option (list tool_call)).

(** The MCP session: what it lists, and the content [call_tool] returns. *)
Variable resources : list json.
Variable tools : list tool.
Variable call_tool : trace -> json -> json -> reply json.

(** [for tool_call in response_message.tool_calls: ...]. *)
Fixpoint parse_calls (calls : list tool_call) (functions_to_call : list json)
    : M event (list json) :=
  match calls with
  | [] => ret functions_to_call
  | c :: rest =>
      emit (Printed (ToolCallLine c)) ;;;
      let name := function_name c in
      args <- lift (json_loads (function_arguments c)) ;;
      parse_calls rest
        (functions_to_call ++ [JDict [("name", JStr name); ("args", args)]])
  end.

(** [OpenAI(api_key=os.getenv("OPENAI_API_KEY"))]: given no key, the
    constructor looks the same variable up itself and raises [OpenAIError]
    when it is not set; any string, empty or not, is taken as a key. *)
Definition openai_client : outcome unit :=
  match environ_openai_key with
  | Some _ => Val tt
  | None => Exc OpenAIError
  end.

Definition call_llm (prompt : string) (functions : list json)
    : M event (list json) :=
  lift openai_client ;;;
  emit (Printed CallingLlm) ;;;
  tool_calls <- (fun tr => (of_reply (llm tr prompt functions),
                            tr ++ [LlmRequest system_message prompt functions])) ;;
  match tool_calls with
  | Some (c :: rest) => parse_calls (c :: rest) []
  | _ => ret []
  end.

(** The [properties] of the schema: those of [inputSchema] when it has
    them, the empty dict otherwise. *)
Definition schema_properties (t : tool_object) : outcome json :=
  match inputSchema t with
  | Some schema =>
      if truthy schema then
        let? has := py_in "properties" schema in
        if has : bool then py_getitem schema "properties" else Val (JDict [])
      else Val (JDict [])
  | None => Val (JDict [])
  end.

Definition convert_to_llm_tool (t : tool) : M event json :=
  match t with
  | Some (mkTool (Some tool_name) (Some tool_description) _ as obj) =>
      properties <- lift (schema_properties obj) ;;
      ret (tool_schema tool_name tool_description properties)
  | _ =>
      emit (Printed (InvalidToolWarning t)) ;;;
      ret JNull
  end.

(** [tool.name], as the loop prints it. *)
Definition printed_name (t : tool) : outcome json :=
  match t with
  | Some obj => attribute (name obj)
  | None => Exc AttributeError
  end.

(** [getattr(tool, 'inputSchema', {}).get('properties', {})]. *)
Definition printed_properties (t : tool) : outcome json :=
  match t with
  | Some obj =>
      py_get (match inputSchema obj with
              | Some schema => schema
              | None => JDict []
              end) "properties" (JDict [])
  | None => Exc AttributeError
  end.

(** [for tool in tools.tools: ...]. *)
Fixpoint collect_functions (ts : list tool) (functions : list json)
    : M event (list json) :=
  match ts with
  | [] => ret functions
  | t :: rest =>
      n <- lift (printed_name t) ;;
      emit (Printed (ToolNameLine n)) ;;;
      p <- lift (printed_properties t) ;;
      emit (Printed (ToolPropertiesLine p)) ;;;
      converted_tool <- convert_to_llm_tool t ;;
      collect_functions rest
        (if truthy converted_tool then functions ++ [converted_tool]
         else functions)
  end.

(** [for f in functions_to_call: ...]. *)
Fixpoint dispatch (functions_to_call : list json) : M event unit :=
  match functions_to_call with
  | [] => ret tt
  | f :: rest =>
      n <- lift (py_getitem f "name") ;;
      a <- lift (py_getitem f "args") ;;
      result <- (fun tr => (of_reply (call_tool tr n a), tr ++ [CallTool n a])) ;;
      emit (Printed (ToolsResult result)) ;;;
      dispatch rest
  end.

Fixpoint print_resources (rs : list json) : M event unit :=
  match rs with
  | [] => ret tt
  | r :: rest => emit (Printed (ResourceLine r)) ;;; print_resources rest
  end.

Definition run : M event unit :=
  emit Initialize ;;;
  emit ListResources ;;;
  emit (Printed ListingResources) ;;;
  print_resources resources ;;;
  emit ListTools ;;;
  emit (Printed ListingTools) ;;;
  functions <- collect_functions tools [] ;;
  emit (Printed (ValidFunctionsCount (List.length functions))) ;;;
  match functions with
  | [] => emit (Printed NoValidTools) ;;; ret tt
  | _ =>
      functions_to_call <- call_llm the_prompt functions ;;
      dispatch functions_to_call
  end.

End Environment.

(** The value [convert_to_llm_tool] returns. *)
Definition converted (t : tool) : outcome json :=
  match t with
  | Some (mkTool (Some n) (Some d) _ as obj) =>
      let? properties := schema_properties obj in
      Val (tool_schema n d properties)
  | _ => Val JNull
  end.

(** What a tool adds to the list of functions. *)
Definition contribution (t : tool) : list json :=
  match converted t with
  | Val v => if truthy v then [v] else []
  | _ => []
  end.

(** The lines printed for a tool, by how far its turn gets. *)
Definition tool_lines (t : tool) : trace :=
  match printed_name t with
  | Val n =>
      Printed (ToolNameLine n) ::
      match printed_properties t with
      | Val p =>
          Printed (ToolPropertiesLine p) ::
          (if rejected t then [Printed (InvalidToolWarning t)] else [])
      | _ => []
      end
  | _ => []
  end.

(** A response of the model in which some argument string is not JSON. *)
Definition has_malformed (calls : list tool_call) : Prop :=
  Exists (fun c => function_arguments c = Malformed) calls.

(** *** Models, tools and sessions for the examples *)

Definition search_tool : tool :=
  Some (mkTool (Some (JStr "search_cases"))
               (Some (JStr "Search cases using the unified search API (v4)."))
               (Some (JDict [("type", JStr "object");
                             ("properties", JDict [("query", JDict [("type", JStr "string")])])]))).

(** A tool whose name is the empty string. *)
Definition nameless_tool : tool :=
  Some (mkTool (Some (JStr "")) (Some (JStr "Look up a citation.")) None).

(** A tool whose [inputSchema] holds [None] under [properties]. *)
Definition null_properties_tool : tool :=
  Some (mkTool (Some (JStr "get_greeting"))
               (Some (JStr "Greet the user."))
               (Some (JDict [("type", JStr "object"); ("properties", JNull)]))).

(** A tool without a [description] attribute. *)
Definition undescribed_tool : tool :=
  Some (mkTool (Some (JStr "lookup_citation")) None None).

(** A model that asks for two calls, the first with arguments that are not
    JSON. *)
Definition first_call_broken : trace -> string -> list json
                               -> reply (option (list tool_call)) :=
  fun _ _ _ =>
    Gives (Some [mkCall "search_cases" Malformed;
                 mkCall "search_cases" (Encodes (JDict [("query", JStr "F-1 visa")]))]).

(** A key for the examples. *)
Definition some_key : option string := Some "sk-example".

Definition silent_model : trace -> string -> list json
                          -> reply (option (list tool_call)) :=
  fun _ _ _ => Gives None.

Definition echo_session : trace -> json -> json -> reply json :=
  fun _ _ args => Gives args.

End Client.

(** ** More built-ins: the text operations of the tools *)

Module PyText.
Import Py.

(** The double quote. *)
Definition dq : string := String (ascii_of_nat 34) EmptyString.

(** [s * n]. *)
Fixpoint str_repeat (s : string) (n : nat) : string :=
  match n with
  | O => EmptyString
  | S n' => s +++ str_repeat s n'
  end.

(** [sep.join(l)] for a list of strings. *)
Fixpoint str_join (sep : string) (l : list string) : string :=
  match l with
  | [] => EmptyString
  | [x] => x
  | x :: rest => x +++ sep +++ str_join sep rest
  end.

Fixpoint all_str (l : list json) : option (list string) :=
  match l with
  | [] => Some []
  | JStr s :: rest =>
      match all_str rest with
      | Some ss => Some (s :: ss)
      | None => None
      end
  | _ => None
  end.

(** [sep.join(l)] for a list of decoded values: [TypeError] when one of
    them is not a string. *)
Definition py_join (sep : string) (l : list json) : outcome string :=
  match all_str l with
  | Some ss => Val (str_join sep ss)
  | None => Exc TypeError
  end.

(** [s.replace(old, new)] for a non-empty [old]: the occurrences are
    replaced from the left, without overlap.  What follows an occurrence
    is shorter than [s], so [length s] steps are enough. *)
Fixpoint replace_fuel (fuel : nat) (old new s : string) : string :=
  match find old s with
  | None => s
  | Some (b, a) =>
      b +++ new +++ match fuel with
                    | O => a
                    | S fuel' => replace_fuel fuel' old new a
                    end
  end.

Definition str_replace (old new s : string) : string :=
  replace_fuel (String.length s) old new s.

(** Whether a character occurs in a text, and whether two texts have a
    character in common. *)
Fixpoint has_char (c : ascii) (s : string) : bool :=
  match s with
  | EmptyString => false
  | String d s' => (Ascii.eqb c d || has_char c s')%bool
  end.

Fixpoint shares_char (a b : string) : bool :=
  match a with
  | EmptyString => false
  | String c a' => (has_char c b || shares_char a' b)%bool
  end.

(** [v.replace(old, new)]: only strings have the method. *)
Definition py_replace (v : json) (old new : string) : outcome string :=
  match v with
  | JStr s => Val (str_replace old new s)
  | _ => Exc AttributeError
  end.

(** Text is held as its UTF-8 bytes; a character starts at every byte
    that is not a continuation byte (10xxxxxx). *)
Definition is_continuation (c : ascii) : bool :=
  let n := nat_of_ascii c in (Nat.leb 128 n && Nat.ltb n 192)%bool.

(** [len(s)]: the number of characters. *)
Fixpoint char_count (s : string) : nat :=
  match s with
  | EmptyString => O
  | String c s' => if is_continuation c then char_count s' else S (char_count s')
  end.

(** The first [n] characters of [s]. *)
Fixpoint take_chars (n : nat) (s : string) : string :=
  match s with
  | EmptyString => EmptyString
  | String c s' =>
      if is_continuation c then String c (take_chars n s')
      else match n with
           | O => EmptyString
           | S n' => String c (take_chars n' s')
           end
  end.

(** [len(v)]. *)
Definition py_len (v : json) : outcome Z :=
  match v with
  | JStr s => Val (Z.of_nat (char_count s))
  | JList l => Val (Z.of_nat (List.length l))
  | JDict d => Val (Z.of_nat (List.length d))
  | _ => Exc TypeError
  end.

(** Where the slice [[:n]] of a sequence of [size] elements stops: a
    negative [n] counts from the end. *)
Definition slice_stop (n size : Z) : nat :=
  Z.to_nat (if n <? 0 then Z.max (size + n) 0 else Z.min n size).

(** [v[:n]] on a string or a list.  A dict cannot be sliced ([TypeError]
    up to Python 3.11, [KeyError] from 3.12 on; [TypeError] here), the
    other values are not subscriptable. *)
Definition py_slice_to (v : json) (n : Z) : outcome json :=
  match v with
  | JStr s => Val (JStr (take_chars (slice_stop n (Z.of_nat (char_count s))) s))
  | JList l => Val (JList (firstn (slice_stop n (Z.of_nat (List.length l))) l))
  | _ => Exc TypeError
  end.

(** [v[0]]. *)
Definition py_first (v : json) : outcome json :=
  match v with
  | JList (x :: _) => Val x
  | JList [] => Exc IndexError
  | JStr EmptyString => Exc IndexError
  | JStr s => Val (JStr (take_chars 1 s))
  | JDict _ => Exc KeyError
  | _ => Exc TypeError
  end.

(** [a or b], both operands already evaluated and the second free of
    effects. *)
Definition py_or (a b : json) : json := if truthy a then a else b.

(** [v + s] for a string [s]: concatenation needs two strings. *)
Definition py_add_str (v : json) (s : string) : outcome json :=
  match v with
  | JStr t => Val (JStr (t +++ s))
  | _ => Exc TypeError
  end.

(** [s.isdigit()] on ASCII text: not empty, decimal digits only.  (Python
    also takes the digits beyond ASCII, such as a superscript two, for
    digits.) *)
Definition is_digit (c : ascii) : bool :=
  let n := nat_of_ascii c in (Nat.leb 48 n && Nat.leb n 57)%bool.

Fixpoint all_digits (s : string) : bool :=
  match s with
  | EmptyString => true
  | String c s' => (is_digit c && all_digits s')%bool
  end.

Definition str_isdigit (s : string) : bool :=
  match s with
  | EmptyString => false
  | _ => all_digits s
  end.

(** [s.lower()] on the letters A to Z.  No character beyond ASCII has a
    lower case made of the letters y, e, s, so comparing the result with
    [yes] is exact on all text. *)
Definition lower_char (c : ascii) : ascii :=
  let n := nat_of_ascii c in
  if (Nat.leb 65 n && Nat.leb n 90)%bool then ascii_of_nat (n + 32) else c.

Fixpoint str_lower (s : string) : string :=
  match s with
  | EmptyString => EmptyString
  | String c s' => String (lower_char c) (str_lower s')
  end.

(** [f"{n:,}"]: the decimal digits in groups of three, from the right. *)
Fixpoint group3 (rev_digits : list ascii) : list ascii :=
  match rev_digits with
  | a :: b :: c :: rest =>
      match rest with
      | [] => rev_digits
      | _ :: _ => a :: b :: c :: ","%char :: group3 rest
      end
  | _ => rev_digits
  end.

Definition with_commas (digits : string) : string :=
  string_of_list_ascii (rev (group3 (rev (list_ascii_of_string digits)))).

Definition thousands (n : Z) : string :=
  if n <? 0 then "-" +++ with_commas (str_of_int (- n))
  else with_commas (str_of_int n).

(** [v == n] for an integer [n]: [True] and [False] count as 1 and 0. *)
Definition py_eq_int (v : json) (n : Z) : bool :=
  match v with
  | JInt m => m =? n
  | JBool b => (if b then 1 else 0) =? n
  | _ => false
  end.

(** [type(v).__name__]. *)
Definition type_name (v : json) : string :=
  match v with
  | JNull => "NoneType"
  | JBool _ => "bool"
  | JInt _ => "int"
  | JStr _ => "str"
  | JList _ => "list"
  | JDict _ => "dict"
  end.

(** [[f(x) for x in l]]: the first exception ends the comprehension. *)
Fixpoint each {A B} (f : A -> outcome B) (l : list A) : outcome (list B) :=
  match l with
  | [] => Val []
  | x :: rest =>
      let? y := f x in
      let? ys := each f rest in
      Val (y :: ys)
  end.

End PyText.

(* ================================================================== *)
(** ** server.py: more about the request layer and the paginated search *)
(* ================================================================== *)

Module ServerMore.
Import Py Server.

(** The text of the [HTTPError] that [raise_for_status] raises for a
    response, when it raises one. *)
Definition http_error_text (r : response) : option string :=
  match raise_for_status r with
  | Exc (RequestException msg) => Some msg
  | _ => None
  end.

(** The sum of the delays of a schedule. *)
Definition total (delays : list Z) : Z := fold_right Z.add 0 delays.

(** The calls of the request function recorded in a trace, oldest first. *)
Definition api_calls (tr : trace) : list (string * dict string * Z) :=
  flat_map (fun e => match e with
                     | ApiCall endpoint params retries => [(endpoint, params, retries)]
                     | _ => []
                     end) tr.

(** The requests recorded in a trace, oldest first. *)
Definition http_gets (tr : trace) : list event := filter is_get tr.

(** The parameter under which a search type sends the query. *)
Definition query_key (search_type : string) : string :=
  if String.eqb search_type "opinions" then "q"
  else if String.eqb search_type "dockets" then "case_name__icontains"
  else if String.eqb search_type "courts" then "full_name__icontains"
  else "name_full__icontains".

Definition keys {A} (d : dict A) : list string := map fst d.

(** A filter as the tools send it: under its key when it is not empty,
    not at all when it is. *)
Definition optional (kv : string * string) : dict string :=
  if String.eqb (snd kv) "" then [] else [kv].

(** No parameter is sent with an empty value. *)
Definition no_empty_value (d : dict string) : Prop :=
  forall k v, In (k, v) d -> v <> EmptyString.

(** A transport that fails [k] times, then answers [r]: it counts the
    requests made so far. *)
Definition fails_then (k : nat) (r : response)
    : trace -> string -> dict string -> dict string -> reply response :=
  fun h _ _ _ =>
    if Nat.ltb (gets_of h) k then Fails (Timeout "Read timed out.") else Gives r.

Definition forbidden : response :=
  mkResponse 403 "Forbidden" "https://www.courtlistener.com/api/rest/v4/search/"
             (Json (JDict [("detail", JStr "You do not have permission.")])).


(** A search for courts over the source of three pages, two pages at
    most. *)
Definition two_court_pages : outcome json * trace :=
  search_with_pagination None three_pages blank_repr plain_only "courts" "" "" "2" [].

End ServerMore.

(** ** The tools of the server *)

Module Tools.
Import Py PyText Server.

(** What the [try] block of [lookup_citation] leaves: the text the
    function returns at once, or the decoded body to report on. *)
Inductive fetched : Type :=
| Answer (text : json)
| Body (result : json).

Definition citation_url (citation : string) : string :=
  "https://www.courtlistener.com/api/rest/v3/citations/" +++ citation +++ "/".

Definition citation_rate_message : string :=
  "Rate limit exceeded for citation lookup (60 citations/minute). Please wait before trying again.".

Definition more_results_message : string :=
  "More results available. Use cursor pagination for additional pages.".

(** The parameters of [search_cases]: the two fixed ones, the query put
    together from its parts, and the filters that are not empty. *)
Definition search_cases_params (query case_name court date_filed_after
    date_filed_before cited_gt judge highlight : string) : dict string :=
  let params : dict string := [("type", "o"); ("format", "json")] in
  let query_parts : list string := [] in
  let query_parts :=
    if negb (String.eqb query "") then query_parts ++ [query] else query_parts in
  let query_parts :=
    if negb (String.eqb case_name "")
    then query_parts ++ ["caseName:" +++ dq +++ case_name +++ dq]
    else query_parts in
  let params :=
    match query_parts with
    | [] => params
    | _ => dict_set "q" (str_join " AND " query_parts) params
    end in
  let params :=
    if negb (String.eqb court "") then dict_set "court" court params else params in
  let params :=
    if negb (String.eqb date_filed_after "")
    then dict_set "filed_after" date_filed_after params else params in
  let params :=
    if negb (String.eqb date_filed_before "")
    then dict_set "filed_before" date_filed_before params else params in
  let params :=
    if negb (String.eqb cited_gt "") then dict_set "cited_gt" cited_gt params
    else params in
  let params :=
    if negb (String.eqb judge "") then dict_set "judge" judge params else params in
  if negb (String.eqb highlight "") then dict_set "highlight" highlight params
  else params.

(** [min(int(limit), len(result['results']))], or the length alone when
    [int] raises [ValueError]. *)
Definition shown (int_beyond : string -> option Z) (limit : string)
    (result : json) : outcome Z :=
  match py_int int_beyond limit with
  | Val n =>
      let? results := py_getitem result "results" in
      let? size := py_len results in
      Val (Z.min n size)
  | Exc ValueError =>
      let? results := py_getitem result "results" in
      py_len results
  | Exc e => Exc e
  | Diverge => Diverge
  end.

Section Environment.
Variable environ_token : option string.
Variable http : trace -> string -> dict string -> dict string -> reply response.
Variable py_repr : json -> string.
Variable int_beyond : string -> option Z.

(** *** [lookup_citation] *)

Definition cite_of (cite : json) : outcome json := py_get cite "cite" (JStr "N/A").

(** The body of [for i, cluster in enumerate(clusters, 1)]. *)
Definition cluster_entry (i : Z) (cluster : json) (output : string)
    : outcome string :=
  let? docket := py_get cluster "docket" (JDict []) in
  let? court := py_get docket "court" (JDict []) in
  let output := output +++ "Match " +++ str_of_int i +++ ":" +++ nl in
  let? case_name := py_get cluster "case_name" (JStr "Unknown") in
  let output := output +++ "  Case: " +++ py_str py_repr case_name +++ nl in
  let? full_name := py_get court "full_name" (JStr "Unknown") in
  let output := output +++ "  Court: " +++ py_str py_repr full_name +++ nl in
  let? date_filed := py_get cluster "date_filed" (JStr "Unknown") in
  let output := output +++ "  Date: " +++ py_str py_repr date_filed +++ nl in
  let? citation_count := py_get cluster "citation_count" (JInt 0) in
  let output := output +++ "  Citations: " +++ py_str py_repr citation_count +++ nl in
  let? docket_number := py_get docket "docket_number" (JStr "N/A") in
  let output := output +++ "  Docket: " +++ py_str py_repr docket_number +++ nl in
  let? citations := py_get cluster "citations" JNull in
  let? output :=
    (if truthy citations then
       let? listed := py_getitem cluster "citations" in
       let? items := py_iter listed in
       let? cites := each cite_of items in
       let? joined := py_join ", " cites in
       Val (output +++ "  All Citations: " +++ joined +++ nl)
     else Val output) in
  let? link := py_get cluster "absolute_url" JNull in
  let? output :=
    (if truthy link then
       let? u := py_getitem cluster "absolute_url" in
       Val (output +++ "  URL: https://www.courtlistener.com" +++ py_str py_repr u
                   +++ nl)
     else Val output) in
  Val (output +++ nl).

Fixpoint cluster_entries (i : Z) (clusters : list json) (output : string)
    : outcome string :=
  match clusters with
  | [] => Val output
  | cluster :: rest =>
      let? output := cluster_entry i cluster output in
      cluster_entries (i + 1) rest output
  end.

(** The code after the [try] block, on the decoded body. *)
Definition citation_report (citation : string) (result : json) : outcome json :=
  let? status := py_get result "status" JNull in
  if py_eq_int status 404 then
    let? error_message := py_get result "error_message" (JStr "Unknown error") in
    Val (JStr ("Citation '" +++ citation +++ "' not found: "
               +++ py_str py_repr error_message))
  else
    let? clusters := py_get result "clusters" (JList []) in
    if negb (truthy clusters) then
      Val (JStr ("No cases found for citation: " +++ citation))
    else
      let output := "CITATION LOOKUP: " +++ citation +++ nl +++ nl in
      let? items := py_iter clusters in
      let? output := cluster_entries 1 items output in
      Val (JStr output).

Definition lookup_citation (citation : string) : M event json :=
  let url := citation_url citation in
  let token := get_api_token environ_token in
  let headers : dict string := [("Accept", "application/json");
                                ("Content-Type", "application/json")] in
  let headers :=
    match token with
    | Some token => dict_set "Authorization" ("Token " +++ token) headers
    | None => headers
    end in
  got <- try_except
           (response <- requests_get http url headers [] 30 ;;
            if status_code response =? 429 then
              ret (Answer (JStr citation_rate_message))
            else if status_code response =? 404 then
              ret (Answer (JStr ("Citation '" +++ citation
                                 +++ "' not found in the database.")))
            else
              (lift (raise_for_status response) ;;;
               result <- lift (response_json response) ;;
               ret (Body result)))
           (fun e =>
              match e with
              | Timeout msg | RequestException msg =>
                  Some (ret (Answer (JStr ("Citation lookup failed: " +++ msg))))
              | _ => None
              end) ;;
  match got with
  | Answer text => ret text
  | Body result => lift (citation_report citation result)
  end.

(** *** [search_cases] *)

(** The body of [for i, case in enumerate(..., 1)]. *)
Definition case_entry (i : Z) (case : json) (output : string) : outcome string :=
  let? case_name := py_get case "caseName" (JStr "Unknown Case") in
  let output := output +++ str_of_int i +++ ". " +++ py_str py_repr case_name +++ nl in
  let? court := py_get case "court" (JStr "Unknown Court") in
  let output := output +++ "   Court: " +++ py_str py_repr court +++ nl in
  let? date_filed := py_get case "dateFiled" (JStr "Unknown Date") in
  let output := output +++ "   Date: " +++ py_str py_repr date_filed +++ nl in
  let? docket_number := py_get case "docketNumber" (JStr "N/A") in
  let output := output +++ "   Docket: " +++ py_str py_repr docket_number +++ nl in
  let? cite_count := py_get case "citeCount" (JInt 0) in
  let output := output +++ "   Citations: " +++ py_str py_repr cite_count +++ nl in
  let? status := py_get case "status" JNull in
  let? output :=
    (if truthy status then
       let? s := py_getitem case "status" in
       Val (output +++ "   Status: " +++ py_str py_repr s +++ nl)
     else Val output) in
  let? link := py_get case "absolute_url" JNull in
  let? output :=
    (if truthy link then
       let? u := py_getitem case "absolute_url" in
       Val (output +++ "   URL: https://www.courtlistener.com" +++ py_str py_repr u
                   +++ nl)
     else Val output) in
  let? marked := py_get case "snippet" JNull in
  let? output :=
    (if truthy marked then
       let? raw := py_getitem case "snippet" in
       let? opened := py_replace raw "<mark>" "**" in
       let snippet := str_replace "</mark>" "**" opened in
       Val (output +++ "   Snippet: " +++ snippet +++ nl)
     else Val output) in
  Val (output +++ nl).

Fixpoint case_entries (i : Z) (cases : list json) (output : string)
    : outcome string :=
  match cases with
  | [] => Val output
  | case :: rest =>
      let? output := case_entry i case output in
      case_entries (i + 1) rest output
  end.

(** The code after the request, on its result. *)
Definition search_cases_report (limit : string) (result : json) : outcome json :=
  let? has_error := py_in "error" result in
  if has_error : bool then py_getitem result "error"
  else
    let? has_results := py_in "results" result in
    if negb has_results then Val (JStr "No results found")
    else
      let? max_results := shown int_beyond limit result in
      let? count := py_get result "count" (JInt 0) in
      let output := "Found " +++ py_str py_repr count +++ " cases (showing "
                    +++ str_of_int max_results +++ "):" +++ nl +++ nl in
      let? results := py_getitem result "results" in
      let? page := py_slice_to results max_results in
      let? cases := py_iter page in
      let? output := case_entries 1 cases output in
      let? next := py_get result "next" JNull in
      Val (JStr (if truthy next then output +++ more_results_message +++ nl
                 else output)).

Definition search_cases (query case_name court date_filed_after date_filed_before
    cited_gt judge highlight limit : string) : M event json :=
  let params := search_cases_params query case_name court date_filed_after
                                    date_filed_before cited_gt judge highlight in
  result <- make_api_request environ_token http "search" params 3 ;;
  lift (search_cases_report limit result).

End Environment.

(** *** [get_case_summary] and the tools built on it *)

Definition opinion_fields : string :=
  "id,cluster,author_str,type,download_url,absolute_url,plain_text,html,date_created".

(** What the first part of [get_case_summary] leaves: the text returned at
    once, or the opinion to fetch. *)
Inductive resolution : Type :=
| Report (text : string)
| Opinion (opinion_id : string).

(** [text.split("/opinion/")[1].split("/")[0]]. *)
Definition id_of_url (text : json) : outcome string :=
  let? parts := py_split text "/opinion/" in
  let? tail := list_index parts 1 in
  let? pieces := str_split "/" tail in
  list_index pieces 0.

(** [str(e)] for the [AttributeError] that [v.get] raises on a value
    that is not a dict. *)
Definition no_get_text (v : json) : string :=
  "'" +++ type_name v +++ "' object has no attribute 'get'".

(** The [try] block that reads the case information.  Only the two [get]
    on [result] are unguarded, so the block raises on a [result] that is
    not a dict and on nothing else. *)
Definition case_information (py_repr : json -> string) (result : json)
    : outcome (json * json * json * json) :=
  let? cluster := py_get result "cluster" (JDict []) in
  let? info :=
    match cluster with
    | JDict _ =>
        let? case_name := py_get cluster "case_name" (JStr "Unknown Case") in
        let? date_filed := py_get cluster "date_filed" (JStr "Unknown Date") in
        let? docket := py_get cluster "docket" (JDict []) in
        match docket with
        | JDict _ =>
            let? court := py_get docket "court" (JDict []) in
            let? court_name :=
              match court with
              | JDict _ => py_get court "full_name" (JStr "Unknown Court")
              | _ => Val (JStr (py_str py_repr court))
              end in
            Val (case_name, date_filed, court_name)
        | _ => Val (case_name, date_filed, JStr "Unknown Court")
        end
    | _ => Val (JStr "Unknown Case", JStr "Unknown Date", JStr "Unknown Court")
    end in
  let? author := py_get result "author_str" (JStr "Unknown Author") in
  let '(case_name, date_filed, court_name) := info in
  Val (case_name, date_filed, court_name, author).

(** The [try] block that limits the text. *)
Definition limit_text (int_beyond : string -> option Z)
    (max_text_length : string) (opinion_text : json) : outcome json :=
  match py_int int_beyond max_text_length with
  | Val max_length =>
      let? size := py_len opinion_text in
      if max_length <? size then
        let? head := py_slice_to opinion_text max_length in
        py_add_str head "\n\n[TEXT TRUNCATED FOR ANALYSIS]"
      else Val opinion_text
  | Exc ValueError => py_slice_to opinion_text 10000
  | Exc e => Exc e
  | Diverge => Diverge
  end.

Definition overview_structure : string :=
  nl +++
  "1. CASE OVERVIEW (2-3 sentences)" +++ nl +++
  "2. KEY FACTS (bullet points)" +++ nl +++
  "3. LEGAL ISSUE(S) (what questions did the court address?)" +++ nl +++
  "4. HOLDING (the court's decision)" +++ nl +++
  "5. REASONING (why the court decided this way)" +++ nl +++
  "6. SIGNIFICANCE (impact and importance)" +++ nl.

Definition legal_analysis_structure : string :=
  nl +++
  "1. PROCEDURAL POSTURE (how the case got to this court)" +++ nl +++
  "2. LEGAL STANDARDS APPLIED (tests, precedents cited)" +++ nl +++
  "3. MAJORITY OPINION ANALYSIS" +++ nl +++
  "4. CONCURRING/DISSENTING OPINIONS (if any)" +++ nl +++
  "5. PRECEDENTIAL VALUE (how this affects future cases)" +++ nl +++
  "6. CRITICAL ANALYSIS (strengths/weaknesses of reasoning)" +++ nl.

Definition key_holdings_structure : string :=
  nl +++
  "1. PRIMARY HOLDING (main legal rule established)" +++ nl +++
  "2. SECONDARY HOLDINGS (other legal principles)" +++ nl +++
  "3. RATIO DECIDENDI (essential reasoning)" +++ nl +++
  "4. OBITER DICTA (non-binding observations)" +++ nl +++
  "5. PRACTICAL IMPLICATIONS (how this applies in practice)" +++ nl.

Definition default_structure : string :=
  nl +++
  "1. CASE SUMMARY" +++ nl +++
  "2. KEY LEGAL POINTS" +++ nl +++
  "3. COURT'S REASONING" +++ nl +++
  "4. IMPACT AND SIGNIFICANCE" +++ nl.

Definition structure_of (summary_type : string) : string :=
  if String.eqb summary_type "overview" then overview_structure
  else if String.eqb summary_type "legal_analysis" then legal_analysis_structure
  else if String.eqb summary_type "key_holdings" then key_holdings_structure
  else default_structure.

Section Summaries.
Variable environ_token : option string.
Variable http : trace -> string -> dict string -> dict string -> reply response.
Variable py_repr : json -> string.
Variable int_beyond : string -> option Z.

(** [str.title], a built-in, left open. *)
Variable title : string -> string.

Definition analysis_text (case_name court_name date_filed author : json)
    (summary_type : string) (size : Z) (opinion_id structure : string)
    (opinion_text : json) : string :=
  "CASE SUMMARY ANALYSIS" +++ nl +++
  str_repeat "=" 60 +++ nl +++
  nl +++
  "ðŸ“‹ Case: " +++ py_str py_repr case_name +++ nl +++
  "ðŸ›ï¸ Court: " +++ py_str py_repr court_name +++ nl +++
  "ðŸ“… Date: " +++ py_str py_repr date_filed +++ nl +++
  "âœï¸ Author: " +++ py_str py_repr author +++ nl +++
  "ðŸ“Š Analysis Type: " +++ title summary_type +++ nl +++
  "ðŸ“„ Text Length: " +++ thousands size +++ " characters" +++ nl +++
  "ðŸ†” Opinion ID: " +++ opinion_id +++ nl +++
  nl +++
  "ðŸ”— Full Case: https://www.courtlistener.com/opinion/" +++ opinion_id +++ "/" +++ nl +++
  nl +++
  str_repeat "=" 60 +++ nl +++
  nl +++
  "ANALYSIS REQUEST:" +++ nl +++
  "Please analyze the following case and provide a " +++ summary_type +++ " summary using this structure:" +++ nl +++
  structure +++ nl +++
  nl +++
  "FULL CASE TEXT:" +++ nl +++
  str_repeat "-" 40 +++ nl +++
  py_str py_repr opinion_text +++ nl +++
  str_repeat "-" 40 +++ nl +++
  nl +++
  "Please provide a comprehensive " +++ summary_type +++ " analysis following the structure above." +++ nl.

(** The search by name and what it makes of the first result. *)
Definition resolve_by_name (case_identifier : string) : M event resolution :=
  search_result <- make_api_request environ_token http "search"
                     [("type", "o");
                      ("q", dq +++ case_identifier +++ dq);
                      ("fields", "id,absolute_url")] 3 ;;
  lift
    (let? has_error := py_in "error" search_result in
     if has_error : bool then
       let? e := py_getitem search_result "error" in
       Val (Report ("Error searching for case: " +++ py_str py_repr e))
     else
       let? results := py_get search_result "results" (JList []) in
       if negb (truthy results) then
         Val (Report ("No cases found for: " +++ case_identifier))
       else
         let? first_result := py_first results in
         let? absolute_url := py_get first_result "absolute_url" (JStr "") in
         let? has_opinion := py_in "/opinion/" absolute_url in
         if has_opinion : bool then
           match id_of_url absolute_url with
           | Val opinion_id => Val (Opinion opinion_id)
           | Exc IndexError =>
               Val (Report "Error: Could not extract opinion ID from search result")
           | Exc e => Exc e
           | Diverge => Diverge
           end
         else Val (Report "Error: No opinion URL found in search results")).

(** The first part of [get_case_summary]: from the identifier to the
    opinion. *)
Definition resolve (case_identifier : string) : M event resolution :=
  if str_isdigit case_identifier then ret (Opinion case_identifier)
  else if contains "opinion/" case_identifier then
    lift (match id_of_url (JStr case_identifier) with
          | Val opinion_id => Val (Opinion opinion_id)
          | Exc IndexError =>
              Val (Report ("Error: Could not extract opinion ID from URL: "
                           +++ case_identifier))
          | Exc e => Exc e
          | Diverge => Diverge
          end)
  else resolve_by_name case_identifier.

(** The code after the opinion is fetched, on the result. *)
Definition summary_report (summary_type max_text_length opinion_id : string)
    (result : json) : outcome string :=
  let? has_error := py_in "error" result in
  if has_error : bool then
    let? e := py_getitem result "error" in
    Val ("Error fetching opinion " +++ opinion_id +++ ": " +++ py_str py_repr e)
  else
    match case_information py_repr result with
    | Val (case_name, date_filed, court_name, author) =>
        let? plain_text := py_get result "plain_text" (JStr "") in
        let? opinion_text :=
          (if truthy plain_text then Val plain_text
           else py_get result "html" (JStr "")) in
        if negb (truthy opinion_text) then
          Val ("Error: No text available for " +++ py_str py_repr case_name
               +++ " (Opinion ID: " +++ opinion_id
               +++ "). This case may only have a PDF version.")
        else
          let? opinion_text := limit_text int_beyond max_text_length opinion_text in
          let structure := structure_of summary_type in
          let? size := py_len opinion_text in
          Val (analysis_text case_name court_name date_filed author summary_type
                             size opinion_id structure opinion_text)
    | Exc _ => Val ("Error parsing case information: " +++ no_get_text result)
    | Diverge => Diverge
    end.

Definition get_case_summary (case_identifier summary_type max_text_length : string)
    : M event string :=
  r <- resolve case_identifier ;;
  match r with
  | Report text => ret text
  | Opinion opinion_id =>
      if String.eqb opinion_id "" then
        ret ("Error: Could not determine opinion ID from '" +++ case_identifier
             +++ "'")
      else
        result <- make_api_request environ_token http ("opinions/" +++ opinion_id)
                    [("fields", opinion_fields)] 3 ;;
        lift (summary_report summary_type max_text_length opinion_id result)
  end.

(** *** [compare_cases] *)

Definition comparison_prompt (comparison_focus case1_summary case2_summary : string)
    : string :=
  nl +++
  "COMPARATIVE CASE ANALYSIS" +++ nl +++
  str_repeat "=" 60 +++ nl +++
  nl +++
  "ðŸ” Comparison Focus: " +++ title comparison_focus +++ nl +++
  nl +++
  "CASE 1:" +++ nl +++
  case1_summary +++ nl +++
  nl +++
  str_repeat "=" 60 +++ nl +++
  nl +++
  "CASE 2:" +++ nl +++
  case2_summary +++ nl +++
  nl +++
  str_repeat "=" 60 +++ nl +++
  nl +++
  "COMPARATIVE ANALYSIS REQUEST:" +++ nl +++
  "Please compare these two cases focusing on " +++ comparison_focus +++ ". Structure your analysis as:" +++ nl +++
  nl +++
  "1. SIMILARITIES (how are these cases alike?)" +++ nl +++
  "2. DIFFERENCES (key distinctions between the cases)" +++ nl +++
  "3. CONFLICTING/CONSISTENT HOLDINGS (do they agree or disagree?)" +++ nl +++
  "4. PRECEDENTIAL RELATIONSHIP (does one cite the other? hierarchy?)" +++ nl +++
  "5. PRACTICAL IMPLICATIONS (how do these cases work together in practice?)" +++ nl +++
  "6. SYNTHESIS (what can we learn from comparing these cases?)" +++ nl +++
  nl +++
  "Focus particularly on " +++ comparison_focus +++ " in your analysis." +++ nl.

Definition compare_cases (case1_identifier case2_identifier comparison_focus : string)
    : M event string :=
  case1_summary <- get_case_summary case1_identifier "overview" "8000" ;;
  case2_summary <- get_case_summary case2_identifier "overview" "8000" ;;
  if contains "Error:" case1_summary then ret ("Case 1 Error: " +++ case1_summary)
  else if contains "Error:" case2_summary then
    ret ("Case 2 Error: " +++ case2_summary)
  else ret (comparison_prompt comparison_focus case1_summary case2_summary).

(** *** [analyze_case_impact] *)

Definition impact_prompt (analysis_depth case_summary : string) : string :=
  nl +++
  "CASE IMPACT ANALYSIS" +++ nl +++
  str_repeat "=" 50 +++ nl +++
  nl +++
  "ðŸ“Š Analysis Depth: " +++ title analysis_depth +++ nl +++
  nl +++
  case_summary +++ nl +++
  nl +++
  str_repeat "=" 50 +++ nl +++
  nl +++
  "IMPACT ANALYSIS REQUEST:" +++ nl +++
  "Based on the case information above, please provide a " +++ analysis_depth +++ " analysis of this case's impact and significance:" +++ nl +++
  nl +++
  "1. IMMEDIATE IMPACT" +++ nl +++
  "   - Direct effects on the parties" +++ nl +++
  "   - Immediate legal consequences" +++ nl +++
  nl +++
  "2. PRECEDENTIAL IMPACT  " +++ nl +++
  "   - What legal principles does this establish?" +++ nl +++
  "   - How does this change existing law?" +++ nl +++
  "   - What future cases will cite this?" +++ nl +++
  nl +++
  "3. BROADER LEGAL IMPACT" +++ nl +++
  "   - Effects on the area of law" +++ nl +++
  "   - Impact on legal practice" +++ nl +++
  "   - Changes to legal standards or tests" +++ nl +++
  nl +++
  "4. SOCIETAL/POLICY IMPACT" +++ nl +++
  "   - Real-world consequences" +++ nl +++
  "   - Effects on different groups/interests" +++ nl +++
  "   - Policy implications" +++ nl +++
  nl +++
  "5. HISTORICAL SIGNIFICANCE" +++ nl +++
  "   - Place in legal history" +++ nl +++
  "   - Relationship to major legal developments" +++ nl +++
  "   - Long-term consequences" +++ nl +++
  nl +++
  "6. CRITICISMS AND CONTROVERSIES" +++ nl +++
  "   - Academic criticism" +++ nl +++
  "   - Practical problems" +++ nl +++
  "   - Ongoing debates" +++ nl +++
  nl +++
  "Please provide specific examples and explain the reasoning behind your impact assessment." +++ nl.

Definition analyze_case_impact (case_identifier analysis_depth : string)
    : M event string :=
  case_summary <- get_case_summary case_identifier "legal_analysis" "12000" ;;
  if contains "Error:" case_summary then ret case_summary
  else ret (impact_prompt analysis_depth case_summary).

(** *** [extract_case_citations] *)

Definition citation_prompt (case_name : json) (citation_type : string)
    (opinion_text : json) : string :=
  nl +++
  "CITATION ANALYSIS REQUEST" +++ nl +++
  str_repeat "=" 50 +++ nl +++
  nl +++
  "ðŸ“‹ Case: " +++ py_str py_repr case_name +++ nl +++
  "ðŸ” Citation Type: " +++ title citation_type +++ nl +++
  nl +++
  "CASE TEXT FOR CITATION ANALYSIS:" +++ nl +++
  str_repeat "-" 40 +++ nl +++
  py_str py_repr opinion_text +++ nl +++
  str_repeat "-" 40 +++ nl +++
  nl +++
  "CITATION ANALYSIS REQUEST:" +++ nl +++
  "Please analyze the citations in this case and provide:" +++ nl +++
  nl +++
  "1. CASE CITATIONS (other court cases cited)" +++ nl +++
  "   - Supreme Court cases" +++ nl +++
  "   - Circuit court cases" +++ nl +++
  "   - State court cases" +++ nl +++
  "   - How each case is used (supporting, distinguishing, etc.)" +++ nl +++
  nl +++
  "2. STATUTORY CITATIONS (laws and regulations cited)" +++ nl +++
  "   - Federal statutes" +++ nl +++
  "   - State statutes  " +++ nl +++
  "   - Constitutional provisions" +++ nl +++
  "   - Regulations" +++ nl +++
  nl +++
  "3. SECONDARY SOURCES (if any)" +++ nl +++
  "   - Law review articles" +++ nl +++
  "   - Treatises" +++ nl +++
  "   - Other scholarly sources" +++ nl +++
  nl +++
  "4. CITATION PATTERNS" +++ nl +++
  "   - Most frequently cited authorities" +++ nl +++
  "   - How citations support the court's reasoning" +++ nl +++
  "   - Any notable omissions" +++ nl +++
  nl +++
  "Focus on " +++ citation_type +++ " citations and explain how they contribute to the court's analysis." +++ nl.

(** The opinion of the identifier: [None] unless it is a number or holds
    [/opinion/]. *)
Definition citation_opinion_id (case_identifier : string) : outcome (option string) :=
  if str_isdigit case_identifier then Val (Some case_identifier)
  else if contains "opinion/" case_identifier then
    let? parts := str_split "/opinion/" case_identifier in
    if (1 <? List.length parts)%nat then
      let? tail := list_index parts 1 in
      let? pieces := str_split "/" tail in
      let? opinion_id := list_index pieces 0 in
      Val (Some opinion_id)
    else Val None
  else Val None.

(** The code after the opinion is fetched, on the result. *)
Definition citations_report (citation_type : string) (result : json) : outcome json :=
  let? has_error := py_in "error" result in
  if has_error : bool then py_getitem result "error"
  else
    let? cluster := py_get result "cluster" (JDict []) in
    let? case_name := py_get cluster "case_name" (JStr "Unknown Case") in
    let? plain_text := py_get result "plain_text" (JStr "") in
    let? opinion_text :=
      (if truthy plain_text then Val plain_text
       else py_get result "html" (JStr "")) in
    if negb (truthy opinion_text) then
      Val (JStr ("Error: No text available for citation analysis in "
                 +++ py_str py_repr case_name))
    else
      let? size := py_len opinion_text in
      let? opinion_text :=
        (if 15000 <? size then
           let? head := py_slice_to opinion_text 15000 in
           py_add_str head "... [TEXT TRUNCATED FOR CITATION ANALYSIS]"
         else Val opinion_text) in
      Val (JStr (citation_prompt case_name citation_type opinion_text)).

Definition extract_case_citations (case_identifier citation_type : string)
    : M event json :=
  found <- lift (citation_opinion_id case_identifier) ;;
  if match found with
     | Some opinion_id => String.eqb opinion_id ""
     | None => true
     end
  then ret (JStr ("Error: Could not determine opinion ID from '" +++ case_identifier
                  +++ "'"))
  else
    let opinion_id := match found with Some opinion_id => opinion_id | None => "" end in
    result <- make_api_request environ_token http ("opinions/" +++ opinion_id)
                [("fields", "id,cluster,plain_text,html")] 3 ;;
    lift (citations_report citation_type result).

End Summaries.

(** *** [get_opinion_by_id] *)

Section Listings.
Variable environ_token : option string.
Variable http : trace -> string -> dict string -> dict string -> reply response.
Variable py_repr : json -> string.
Variable int_beyond : string -> option Z.

(** The fields asked for: the text only when [include_text] is [yes] in
    any case of letters. *)
Definition opinion_detail_fields (include_text : string) : string :=
  if String.eqb (str_lower include_text) "yes"
  then "id,cluster,author_str,type,download_url,absolute_url,plain_text"
  else "id,cluster,author_str,type,download_url,absolute_url".

(** The code after the request, on its result. *)
Definition opinion_report (opinion_id include_text : string) (result : json)
    : outcome json :=
  let? has_error := py_in "error" result in
  if has_error : bool then py_getitem result "error"
  else
    let? cluster := py_get result "cluster" (JDict []) in
    let output := "OPINION DETAILS (ID: " +++ opinion_id +++ ")" +++ nl in
    let? case_name := py_get cluster "case_name" (JStr "Unknown") in
    let output := output +++ "Case: " +++ py_str py_repr case_name +++ nl in
    let? date_filed := py_get cluster "date_filed" (JStr "Unknown") in
    let output := output +++ "Date Filed: " +++ py_str py_repr date_filed +++ nl in
    let? author := py_get result "author_str" (JStr "Unknown") in
    let output := output +++ "Author: " +++ py_str py_repr author +++ nl in
    let? kind := py_get result "type" (JStr "Unknown") in
    let output := output +++ "Type: " +++ py_str py_repr kind +++ nl in
    let? citation_count := py_get cluster "citation_count" (JInt 0) in
    let output := output +++ "Citations: " +++ py_str py_repr citation_count +++ nl in
    let? status := py_get cluster "precedential_status" (JStr "Unknown") in
    let output :=
      output +++ "Precedential Status: " +++ py_str py_repr status +++ nl in
    let? download := py_get result "download_url" JNull in
    let? output :=
      (if truthy download then
         let? u := py_getitem result "download_url" in
         Val (output +++ "PDF Download: " +++ py_str py_repr u +++ nl)
       else Val output) in
    let? output :=
      (if String.eqb (str_lower include_text) "yes" then
         let? plain_text := py_get result "plain_text" JNull in
         if truthy plain_text then
           let? whole := py_getitem result "plain_text" in
           let? text := py_slice_to whole 2000 in
           Val (output +++ nl +++ "Opinion Text (first 2000 chars):" +++ nl
                       +++ py_str py_repr text +++ "..." +++ nl)
         else Val output
       else Val output) in
    let? link := py_get result "absolute_url" (JStr "") in
    Val (JStr (output +++ "Full URL: https://www.courtlistener.com"
                      +++ py_str py_repr link +++ nl)).

Definition get_opinion_by_id (opinion_id include_text : string) : M event json :=
  let fields := opinion_detail_fields include_text in
  let params : dict string := [("fields", fields)] in
  result <- make_api_request environ_token http ("opinions/" +++ opinion_id)
              params 3 ;;
  lift (opinion_report opinion_id include_text result).

(** *** [search_dockets] *)

Definition search_dockets_params (case_name docket_number court date_filed_after
    date_filed_before nature_of_suit : string) : dict string :=
  let params : dict string :=
    [("fields",
      "id,case_name,docket_number,court,date_filed,nature_of_suit,absolute_url")] in
  let params :=
    if negb (String.eqb case_name "")
    then dict_set "case_name__icontains" case_name params else params in
  let params :=
    if negb (String.eqb docket_number "")
    then dict_set "docket_number__icontains" docket_number params else params in
  let params :=
    if negb (String.eqb court "") then dict_set "court" court params else params in
  let params :=
    if negb (String.eqb date_filed_after "")
    then dict_set "date_filed__gte" date_filed_after params else params in
  let params :=
    if negb (String.eqb date_filed_before "")
    then dict_set "date_filed__lte" date_filed_before params else params in
  if negb (String.eqb nature_of_suit "")
  then dict_set "nature_of_suit__icontains" nature_of_suit params else params.

(** The body of [for i, docket in enumerate(..., 1)]. *)
Definition docket_entry (i : Z) (docket : json) (output : string) : outcome string :=
  let? court_info := py_get docket "court" (JDict []) in
  let? case_name := py_get docket "case_name" (JStr "Unknown Case") in
  let output := output +++ str_of_int i +++ ". " +++ py_str py_repr case_name +++ nl in
  let? docket_number := py_get docket "docket_number" (JStr "N/A") in
  let output := output +++ "   Docket: " +++ py_str py_repr docket_number +++ nl in
  let? court_shown :=
    match court_info with
    | JDict _ => py_get court_info "full_name" (JStr "Unknown")
    | _ => Val court_info
    end in
  let output := output +++ "   Court: " +++ py_str py_repr court_shown +++ nl in
  let? date_filed := py_get docket "date_filed" (JStr "Unknown") in
  let output := output +++ "   Date Filed: " +++ py_str py_repr date_filed +++ nl in
  let? nature := py_get docket "nature_of_suit" (JStr "N/A") in
  let output := output +++ "   Nature of Suit: " +++ py_str py_repr nature +++ nl in
  let? link := py_get docket "absolute_url" (JStr "") in
  Val (output +++ "   URL: https://www.courtlistener.com" +++ py_str py_repr link
              +++ nl +++ nl).

Fixpoint docket_entries (i : Z) (dockets : list json) (output : string)
    : outcome string :=
  match dockets with
  | [] => Val output
  | docket :: rest =>
      let? output := docket_entry i docket output in
      docket_entries (i + 1) rest output
  end.

Definition search_dockets_report (limit : string) (result : json) : outcome json :=
  let? has_error := py_in "error" result in
  if has_error : bool then py_getitem result "error"
  else
    let? has_results := py_in "results" result in
    if negb has_results then Val (JStr "No dockets found")
    else
      let? max_results := shown int_beyond limit result in
      let? count := py_get result "count" (JInt 0) in
      let output := "Found " +++ py_str py_repr count +++ " dockets (showing "
                    +++ str_of_int max_results +++ "):" +++ nl +++ nl in
      let? results := py_getitem result "results" in
      let? page := py_slice_to results max_results in
      let? dockets := py_iter page in
      let? output := docket_entries 1 dockets output in
      Val (JStr output).

Definition search_dockets (case_name docket_number court date_filed_after
    date_filed_before nature_of_suit limit : string) : M event json :=
  let params := search_dockets_params case_name docket_number court
                  date_filed_after date_filed_before nature_of_suit in
  result <- make_api_request environ_token http "dockets" params 3 ;;
  lift (search_dockets_report limit result).

(** *** [search_courts] *)

Definition search_courts_params (name jurisdiction : string) : dict string :=
  let params : dict string :=
    [("fields",
      "id,full_name,short_name,jurisdiction,start_date,end_date,absolute_url")] in
  let params :=
    if negb (String.eqb name "") then dict_set "full_name__icontains" name params
    else params in
  if negb (String.eqb jurisdiction "")
  then dict_set "jurisdiction" jurisdiction params else params.

(** The body of [for i, court in enumerate(result['results'], 1)]. *)
Definition court_entry (i : Z) (court : json) (output : string) : outcome string :=
  let? full_name := py_get court "full_name" (JStr "Unknown Court") in
  let output := output +++ str_of_int i +++ ". " +++ py_str py_repr full_name +++ nl in
  let? short_name := py_get court "short_name" (JStr "N/A") in
  let output := output +++ "   Short Name: " +++ py_str py_repr short_name +++ nl in
  let? court_id := py_get court "id" (JStr "N/A") in
  let output := output +++ "   ID: " +++ py_str py_repr court_id +++ nl in
  let? jurisdiction := py_get court "jurisdiction" (JStr "N/A") in
  let output :=
    output +++ "   Jurisdiction: " +++ py_str py_repr jurisdiction +++ nl in
  let? started := py_get court "start_date" JNull in
  let? output :=
    (if truthy started then
       let? d := py_getitem court "start_date" in
       Val (output +++ "   Start Date: " +++ py_str py_repr d +++ nl)
     else Val output) in
  let? ended := py_get court "end_date" JNull in
  let? output :=
    (if truthy ended then
       let? d := py_getitem court "end_date" in
       Val (output +++ "   End Date: " +++ py_str py_repr d +++ nl)
     else Val output) in
  let? link := py_get court "absolute_url" (JStr "") in
  Val (output +++ "   URL: https://www.courtlistener.com" +++ py_str py_repr link
              +++ nl +++ nl).

Fixpoint court_entries (i : Z) (courts : list json) (output : string)
    : outcome string :=
  match courts with
  | [] => Val output
  | court :: rest =>
      let? output := court_entry i court output in
      court_entries (i + 1) rest output
  end.

Definition search_courts_report (result : json) : outcome json :=
  let? has_error := py_in "error" result in
  if has_error : bool then py_getitem result "error"
  else
    let? has_results := py_in "results" result in
    if negb has_results then Val (JStr "No courts found")
    else
      let? results := py_getitem result "results" in
      let? size := py_len results in
      let output := "Found " +++ str_of_int size +++ " courts:" +++ nl +++ nl in
      let? results := py_getitem result "results" in
      let? courts := py_iter results in
      let? output := court_entries 1 courts output in
      Val (JStr output).

Definition search_courts (name jurisdiction : string) : M event json :=
  let params := search_courts_params name jurisdiction in
  result <- make_api_request environ_token http "courts" params 3 ;;
  lift (search_courts_report result).

(** *** [search_people] *)

Definition search_people_params (name court position_type : string) : dict string :=
  let params : dict string := [("fields", "id,name_full,positions,absolute_url")] in
  let params :=
    if negb (String.eqb name "") then dict_set "name_full__icontains" name params
    else params in
  let params :=
    if negb (String.eqb court "") then dict_set "positions__court" court params
    else params in
  if negb (String.eqb position_type "")
  then dict_set "positions__position_type" position_type params else params.

(** The body of [for pos in positions[:3]]. *)
Definition position_line (pos : json) (output : string) : outcome string :=
  let? court_info := py_get pos "court" (JDict []) in
  let? court_name :=
    match court_info with
    | JDict _ => py_get court_info "full_name" (JStr "Unknown Court")
    | _ => Val (JStr (py_str py_repr court_info))
    end in
  let output := output +++ "     - " +++ py_str py_repr court_name in
  let? started := py_get pos "date_start" JNull in
  let? output :=
    (if truthy started then
       let? d := py_getitem pos "date_start" in
       let output := output +++ " (" +++ py_str py_repr d in
       let? ended := py_get pos "date_termination" JNull in
       let? output :=
         (if truthy ended then
            let? t := py_getitem pos "date_termination" in
            Val (output +++ " - " +++ py_str py_repr t)
          else Val output) in
       Val (output +++ ")")
     else Val output) in
  Val (output +++ nl).

Fixpoint position_lines (positions : list json) (output : string) : outcome string :=
  match positions with
  | [] => Val output
  | pos :: rest =>
      let? output := position_line pos output in
      position_lines rest output
  end.

(** The body of [for i, person in enumerate(..., 1)]. *)
Definition person_entry (i : Z) (person : json) (output : string) : outcome string :=
  let? name_full := py_get person "name_full" (JStr "Unknown Person") in
  let output := output +++ str_of_int i +++ ". " +++ py_str py_repr name_full +++ nl in
  let? positions := py_get person "positions" (JList []) in
  let? output :=
    (if truthy positions then
       let output := output +++ "   Positions:" +++ nl in
       let? first_three := py_slice_to positions 3 in
       let? listed := py_iter first_three in
       position_lines listed output
     else Val output) in
  let? link := py_get person "absolute_url" (JStr "") in
  Val (output +++ "   URL: https://www.courtlistener.com" +++ py_str py_repr link
              +++ nl +++ nl).

Fixpoint person_entries (i : Z) (people : list json) (output : string)
    : outcome string :=
  match people with
  | [] => Val output
  | person :: rest =>
      let? output := person_entry i person output in
      person_entries (i + 1) rest output
  end.

Definition search_people_report (limit : string) (result : json) : outcome json :=
  let? has_error := py_in "error" result in
  if has_error : bool then py_getitem result "error"
  else
    let? has_results := py_in "results" result in
    if negb has_results then Val (JStr "No people found")
    else
      let? max_results := shown int_beyond limit result in
      let? count := py_get result "count" (JInt 0) in
      let output := "Found " +++ py_str py_repr count +++ " people (showing "
                    +++ str_of_int max_results +++ "):" +++ nl +++ nl in
      let? results := py_getitem result "results" in
      let? page := py_slice_to results max_results in
      let? people := py_iter page in
      let? output := person_entries 1 people output in
      Val (JStr output).

Definition search_people (name court position_type limit : string) : M event json :=
  let params := search_people_params name court position_type in
  result <- make_api_request environ_token http "people" params 3 ;;
  lift (search_people_report limit result).

End Listings.

(** *** Responses for the examples *)

Definition unauthorized : response :=
  mkResponse 401 "Unauthorized"
    "https://www.courtlistener.com/api/rest/v3/citations/410 U.S. 113/"
    (Json (JDict [("detail", JStr "Invalid token.")])).

(** A body in which the lookup itself reports that nothing matches. *)
Definition no_match_body : json :=
  JDict [("status", JInt 404);
         ("error_message", JStr "Citation not found: 1 U.S. 1");
         ("clusters", JList [])].

(** A body that is a JSON array. *)
Definition array_body : json :=
  JList [JDict [("citation", JStr "410 U.S. 113"); ("status", JInt 200)]].

(** A result of two cases. *)
Definition two_cases : dict json :=
  [("count", JInt 2);
   ("results", JList [JDict [("caseName", JStr "First v. Second")];
                      JDict [("caseName", JStr "Third v. Fourth")]])].

(** A case whose snippet is highlighted. *)
Definition marked_case : dict json :=
  [("caseName", JStr "Doe v. Roe");
   ("snippet", JStr "an <mark>F-1</mark> student")].

(** An opinion as the API delivers it: the cluster is a link. *)
Definition linked_opinion : dict json :=
  [("id", JInt 1);
   ("cluster", JStr "https://www.courtlistener.com/api/rest/v4/clusters/1/");
   ("plain_text", JStr "It is so ordered.")].

(** A judge with four positions. *)
Definition four_positions : list json :=
  [JDict [("court", JDict [("full_name", JStr "First Court")])];
   JDict [("court", JDict [("full_name", JStr "Second Court")])];
   JDict [("court", JDict [("full_name", JStr "Third Court")])];
   JDict [("court", JDict [("full_name", JStr "Fourth Court")])]].

Definition busy_judge : dict json :=
  [("name_full", JStr "Jane Doe"); ("positions", JList four_positions)].

(** An opinion with its text. *)
Definition short_opinion : dict json :=
  [("id", JInt 7); ("cluster", JDict [("case_name", JStr "Doe v. Roe")]);
   ("plain_text", JStr "It is so ordered.")].

(** A title that leaves the text as it is. *)
Definition plain_title (s : string) : string := s.

End Tools.

(** ** More of the client: what a cycle asks of the model and of the
    session *)

Module ClientMore.
Import Py Client.

(** The tools the loop of the listing gets past: objects with a [name]
    attribute whose [inputSchema], when the attribute is there, is a
    dict. *)
Definition listable (t : tool) : bool :=
  match t with
  | Some (mkTool (Some _) _ None) => true
  | Some (mkTool (Some _) _ (Some (JDict _))) => true
  | _ => false
  end.

(** The requests made to the model: system message, prompt and
    functions. *)
Definition model_requests (tr : trace) : list (string * string * list json) :=
  flat_map (fun e => match e with
                     | LlmRequest s p fs => [(s, p, fs)]
                     | _ => []
                     end) tr.

Definition well_formed (c : tool_call) : bool :=
  match function_arguments c with
  | Encodes _ => true
  | Malformed => false
  end.

(** The arguments of a call whose argument string is JSON. *)
Definition decoded (c : tool_call) : json :=
  match function_arguments c with
  | Encodes v => v
  | Malformed => JNull
  end.

(** The entry [call_llm] appends for a call, and the invocation made of
    it. *)
Definition entry (c : tool_call) : json :=
  JDict [("name", JStr (function_name c)); ("args", decoded c)].

Definition invocation (c : tool_call) : json * json :=
  (JStr (function_name c), decoded c).

(** *** Scenarios *)

(** A tool object without a [name] attribute. *)
Definition unnamed_tool : tool :=
  Some (mkTool None (Some (JStr "Search dockets.")) None).

Definition two_calls : list tool_call :=
  [mkCall "search_cases" (Encodes (JDict [("query", JStr "F-1 visa")]));
   mkCall "get_case_summary" (Encodes (JDict [("case_identifier", JStr "118395")]))].

Definition asks_two_calls : trace -> string -> list json
                            -> reply (option (list tool_call)) :=
  fun _ _ _ => Gives (Some two_calls).

(** A session on which [search_cases] fails and every other tool echoes
    its arguments. *)
Definition search_fails : trace -> json -> json -> reply json :=
  fun _ n args =>
    match n with
    | JStr s => if String.eqb s "search_cases" then Fails ValueError else Gives args
    | _ => Gives args
    end.

End ClientMore.

(* ================================================================== *)
(** ** Facts about the built-ins *)
(* ================================================================== *)

Module PyFacts.
Import Py.

Lemma append_nil_r (s : string) : s +++ "" = s.
Proof. induction s as [|c s IH]; simpl; [reflexivity|now rewrite IH]. Qed.

Lemma append_assoc (a b c : string) : (a +++ b) +++ c = a +++ b +++ c.
Proof. induction a as [|x a IH]; simpl; [reflexivity|now rewrite IH]. Qed.

Lemma length_append (a b : string) :
  String.length (a +++ b) = (String.length a + String.length b)%nat.
Proof. induction a as [|x a IH]; simpl; [reflexivity|now rewrite IH]. Qed.

Lemma starts_with_append (p t : string) : starts_with p (p +++ t) = true.
Proof.
  induction p as [|c p IH]; simpl; [reflexivity|].
  rewrite Ascii.eqb_refl. exact IH.
Qed.

Lemma starts_with_drop (p s : string) :
  starts_with p s = true -> s = p +++ drop (String.length p) s.
Proof.
  revert s. induction p as [|c p IH]; intros s H; simpl in *; [reflexivity|].
  destruct s as [|d s]; [discriminate|].
  apply andb_true_iff in H. destruct H as [Hc Hp].
  apply Ascii.eqb_eq in Hc. subst d. f_equal. apply IH. exact Hp.
Qed.

(** [find] cuts [s] around an occurrence of [sep]. *)
Lemma find_cut (sep s b a : string) :
  find sep s = Some (b, a) -> s = b +++ sep +++ a.
Proof.
  revert b a. induction s as [|c s IH]; intros b a H.
  - simpl in H. destruct (starts_with sep "") eqn:E; [|discriminate].
    injection H as <- <-. simpl. apply (starts_with_drop _ _ E).
  - cbn [find] in H. destruct (starts_with sep (String c s)) eqn:E.
    + injection H as <- <-. simpl. apply (starts_with_drop _ _ E).
    + destruct (find sep s) as [[b' a']|]; [|discriminate].
      injection H as <- <-. simpl. f_equal. apply IH. reflexivity.
Qed.

(** The occurrence [find] cuts at is the leftmost one. *)
Lemma find_leftmost (sep s b a : string) :
  find sep s = Some (b, a) ->
  forall p q, s = p +++ sep +++ q -> (String.length b <= String.length p)%nat.
Proof.
  revert b a. induction s as [|c s IH]; intros b a H p q Hs.
  - simpl in H. destruct (starts_with sep ""); [|discriminate].
    injection H as <- <-. simpl. lia.
  - cbn [find] in H. destruct (starts_with sep (String c s)) eqn:E.
    + injection H as <- <-. simpl. lia.
    + destruct (find sep s) as [[b' a']|] eqn:F; [|discriminate].
      injection H as <- <-.
      destruct p as [|d p].
      * simpl in Hs. rewrite Hs, starts_with_append in E. discriminate.
      * simpl in Hs. injection Hs as -> Hs. simpl.
        apply le_n_S. apply (IH b' a' eq_refl p q Hs).
Qed.

Lemma find_occurrence (sep p q : string) : find sep (p +++ sep +++ q) <> None.
Proof.
  induction p as [|c p IH]; simpl.
  - destruct (sep +++ q) eqn:E.
    + simpl. assert (H := starts_with_append sep q). rewrite E in H.
      rewrite H. discriminate.
    + cbn [find]. assert (H := starts_with_append sep q). rewrite E in H.
      rewrite H. discriminate.
  - destruct (starts_with sep (String c (p +++ sep +++ q))); [discriminate|].
    destruct (find sep (p +++ sep +++ q)) as [[b a]|]; [discriminate|].
    exact IH.
Qed.

Lemma contains_iff (sep s : string) :
  contains sep s = true <-> exists p q, s = p +++ sep +++ q.
Proof.
  unfold contains. split.
  - destruct (find sep s) as [[b a]|] eqn:F; [|discriminate].
    intros _. exists b, a. apply (find_cut _ _ _ _ F).
  - intros [p [q ->]].
    destruct (find sep (p +++ sep +++ q)) eqn:F; [reflexivity|].
    exfalso. exact (find_occurrence _ _ _ F).
Qed.

Lemma contains_prefix (sep c r : string) :
  contains sep (c +++ r) = false -> contains sep c = false.
Proof.
  intros H. destruct (contains sep c) eqn:E; [|reflexivity].
  apply contains_iff in E. destruct E as [p [q ->]].
  assert (T : contains sep ((p +++ sep +++ q) +++ r) = true).
  { apply contains_iff. exists p, (q +++ r). now rewrite !append_assoc. }
  congruence.
Qed.

(** What follows [before sep s] in [s]: nothing, or [sep]. *)
Lemma before_rest (sep s : string) :
  exists r, s = before sep s +++ r /\ (r = "" \/ starts_with sep r = true).
Proof.
  unfold before. destruct (find sep s) as [[b a]|] eqn:F.
  - exists (sep +++ a). split; [apply (find_cut _ _ _ _ F)|].
    right. apply starts_with_append.
  - exists "". split; [now rewrite append_nil_r|now left].
Qed.

Lemma before_free (sep s : string) :
  sep <> "" -> contains sep (before sep s) = false.
Proof.
  intros Hne. unfold before. destruct (find sep s) as [[b a]|] eqn:F.
  - destruct (contains sep b) eqn:E; [|reflexivity].
    apply contains_iff in E. destruct E as [p [q Hb]].
    assert (Hs := find_cut _ _ _ _ F).
    assert (Hl := find_leftmost _ _ _ _ F p (q +++ sep +++ a)).
    rewrite Hb, !append_assoc in Hs. specialize (Hl Hs).
    rewrite Hb, !length_append in Hl.
    destruct sep; [congruence|]. simpl in Hl. lia.
  - unfold contains. now rewrite F.
Qed.

(** The first piece of a split is the text before the separator. *)
Lemma split_fuel_head (fuel : nat) (sep s : string) :
  nth_error (split_fuel fuel sep s) 0 = Some (before sep s).
Proof.
  unfold before. destruct fuel; simpl; destruct (find sep s) as [[b a]|]; reflexivity.
Qed.

Lemma split_fuel_second (fuel : nat) (sep s b a : string) :
  find sep s = Some (b, a) ->
  nth_error (split_fuel (S fuel) sep s) 1 = Some (before sep a).
Proof.
  intros F. simpl. rewrite F. simpl. apply split_fuel_head.
Qed.

Lemma starts_with_length (p s : string) :
  starts_with p s = true -> (String.length p <= String.length s)%nat.
Proof.
  revert s. induction p as [|c p IH]; intros s H; simpl in *; [lia|].
  destruct s as [|d s]; [discriminate|].
  apply andb_true_iff in H. destruct H as [_ H]. simpl. apply le_n_S, IH, H.
Qed.

Lemma starts_with_append_long (p s r : string) :
  (String.length p <= String.length s)%nat ->
  starts_with p (s +++ r) = starts_with p s.
Proof.
  revert s. induction p as [|c p IH]; intros s H; simpl in *; [reflexivity|].
  destruct s as [|d s]; simpl in *; [lia|].
  rewrite IH by lia. reflexivity.
Qed.

Lemma drop_append (n : nat) (s r : string) :
  (n <= String.length s)%nat -> drop n (s +++ r) = drop n s +++ r.
Proof.
  revert s. induction n as [|n IH]; intros s H; simpl.
  - destruct s; reflexivity.
  - destruct s as [|d s]; simpl in *; [lia|]. apply IH. lia.
Qed.

Lemma find_length (sep s b a : string) :
  find sep s = Some (b, a) -> (String.length sep <= String.length s)%nat.
Proof.
  intros F. rewrite (find_cut _ _ _ _ F), !length_append. lia.
Qed.

(** Text added at the end does not move the leftmost occurrence. *)
Lemma find_append (sep s r b a : string) :
  find sep s = Some (b, a) -> find sep (s +++ r) = Some (b, a +++ r).
Proof.
  revert b a. induction s as [|c s IH]; intros b a F.
  - simpl in F. destruct (starts_with sep "") eqn:E; [|discriminate].
    injection F as <- <-.
    destruct sep; [|discriminate E]. simpl. destruct r; reflexivity.
  - assert (L := find_length _ _ _ _ F).
    cbn [find] in F. change (String c s +++ r) with (String c (s +++ r)).
    cbn [find].
    change (String c (s +++ r)) with (String c s +++ r).
    rewrite starts_with_append_long by exact L.
    destruct (starts_with sep (String c s)) eqn:E.
    + injection F as <- <-. rewrite drop_append by exact L. reflexivity.
    + destruct (find sep s) as [[b' a']|] eqn:F'; [|discriminate].
      injection F as <- <-. rewrite (IH b' a' eq_refl). reflexivity.
Qed.

Lemma before_append (sep s r : string) :
  contains sep s = true -> before sep (s +++ r) = before sep s.
Proof.
  unfold contains, before.
  destruct (find sep s) as [[b a]|] eqn:F; [|discriminate].
  intros _. rewrite (find_append _ _ r _ _ F). reflexivity.
Qed.

(** A one-character separator absent from [s1] is looked for in what
    follows. *)
Lemma find_char_append (x : ascii) (s1 s2 : string) :
  find (String x "") s1 = None ->
  find (String x "") (s1 +++ s2) =
  match find (String x "") s2 with
  | Some (b, a) => Some (s1 +++ b, a)
  | None => None
  end.
Proof.
  induction s1 as [|c s1 IH]; intros F.
  - simpl. destruct (find (String x "") s2) as [[b a]|]; reflexivity.
  - cbn [find] in F. change (String c s1 +++ s2) with (String c (s1 +++ s2)).
    cbn [find]. simpl starts_with in *.
    destruct (Ascii.eqb x c); simpl in *; [discriminate|].
    destruct (find (String x "") s1) as [[b a]|] eqn:F1; [discriminate|].
    rewrite (IH eq_refl).
    destruct (find (String x "") s2) as [[b a]|]; reflexivity.
Qed.

Lemma before_char_append (x : ascii) (s1 s2 : string) :
  contains (String x "") s1 = false ->
  before (String x "") (s1 +++ s2) = s1 +++ before (String x "") s2.
Proof.
  unfold contains, before. intros H.
  destruct (find (String x "") s1) as [[b a]|] eqn:F; [discriminate|].
  rewrite (find_char_append _ _ _ F).
  destruct (find (String x "") s2) as [[b a]|]; reflexivity.
Qed.

(** With enough fuel no piece of a split contains the separator. *)
Lemma split_fuel_pieces (sep : string) :
  sep <> "" ->
  forall fuel s, (String.length s <= fuel)%nat ->
    Forall (fun piece => contains sep piece = false) (split_fuel fuel sep s).
Proof.
  intros Hne fuel. induction fuel as [|fuel IH]; intros s L.
  - destruct s; [|simpl in L; lia].
    simpl. destruct sep; [congruence|]. simpl. constructor; [reflexivity|constructor].
  - simpl. destruct (find sep s) as [[b a]|] eqn:F.
    + constructor.
      * assert (H := before_free sep s Hne). unfold before in H. now rewrite F in H.
      * apply IH. assert (C := find_cut _ _ _ _ F).
        rewrite C, !length_append in L. destruct sep; [congruence|]. simpl in L. lia.
    + constructor; [|constructor]. unfold contains. now rewrite F.
Qed.

(** The pieces of a split, joined by the separator, give the string back. *)
Lemma split_fuel_join (sep : string) (fuel : nat) (s : string) :
  fold_right (fun piece acc => match acc with
                               | None => Some piece
                               | Some t => Some (piece +++ sep +++ t)
                               end) None (split_fuel fuel sep s) = Some s.
Proof.
  revert s. induction fuel as [|fuel IH]; intros s; simpl.
  - destruct (find sep s) as [[b a]|] eqn:F; simpl; [|reflexivity].
    now rewrite (find_cut _ _ _ _ F).
  - destruct (find sep s) as [[b a]|] eqn:F; simpl; [|reflexivity].
    rewrite IH. now rewrite (find_cut _ _ _ _ F).
Qed.

(** [int] of a string gives a number or raises [ValueError]. *)
Lemma int_of_str_cases (s : string) :
  (exists n, int_of_str s = Val n) \/ int_of_str s = Exc ValueError.
Proof.
  unfold int_of_str.
  destruct (match rstrip (lstrip s) with
            | String "+"%char u => digits 0 false u
            | String "-"%char u => option_map Z.opp (digits 0 false u)
            | _ => digits 0 false (rstrip (lstrip s))
            end) as [n|]; [left; exists n; reflexivity|right; reflexivity].
Qed.

Lemma py_int_cases (beyond : string -> option Z) (s : string) :
  (exists n, py_int beyond s = Val n) \/ py_int beyond s = Exc ValueError.
Proof.
  unfold py_int. destruct (plain_number_text s); [apply int_of_str_cases|].
  destruct (beyond s) as [n|]; [left; exists n; reflexivity|right; reflexivity].
Qed.

(** On a plain string the interpreter at hand plays no part. *)
Lemma py_int_plain (beyond : string -> option Z) (s : string) :
  plain_number_text s = true -> py_int beyond s = int_of_str s.
Proof. intros H. unfold py_int. rewrite H. reflexivity. Qed.

End PyFacts.

(* ================================================================== *)
(** ** Properties of server.py *)
(* ================================================================== *)

Module ServerFacts.
Import Py Server PyFacts.

Lemma sleeps_of_app (a b : trace) : sleeps_of (a ++ b) = sleeps_of a ++ sleeps_of b.
Proof.
  induction a as [|e a IH]; simpl; [reflexivity|].
  destruct (is_sleep e); simpl; rewrite IH; reflexivity.
Qed.

Lemma gets_of_app (a b : trace) : gets_of (a ++ b) = (gets_of a + gets_of b)%nat.
Proof. unfold gets_of. rewrite filter_app, length_app. reflexivity. Qed.

Lemma calls_of_app (a b : trace) : calls_of (a ++ b) = (calls_of a + calls_of b)%nat.
Proof. unfold calls_of. rewrite filter_app, length_app. reflexivity. Qed.

Section Requests.
Variable environ_token : option string.
Variable http : trace -> string -> dict string -> dict string -> reply response.

(** One pass whose [try] block ends in a caught exception. *)
Lemma attempt_once_fails target headers params retries attempt tr e :
  try_failure (http tr target headers params) = Some e ->
  retryable e = true ->
  attempt_once http target headers params retries attempt tr =
  if attempt <? retries - 1
  then (Val Next, (tr ++ [HttpGet target headers params 60]) ++ [Sleep (2 ^ attempt)])
  else (Val (Return (error_dict (exhausted_message retries e))),
        tr ++ [HttpGet target headers params 60]).
Proof.
  intros Hh He.
  unfold attempt_once, try_except, bind, requests_get, try_failure in *.
  destruct (http tr target headers params) as [r|e0]; simpl.
  - unfold terminal_message in Hh.
    destruct (status_code r =? 429); [discriminate|].
    destruct (status_code r =? 401); [discriminate|].
    destruct (status_code r =? 404); [discriminate|].
    unfold lift.
    assert (Hnd : raise_for_status r <> Diverge).
    { unfold raise_for_status.
      destruct ((400 <=? status_code r) && (status_code r <? 500)); [discriminate|].
      destruct ((500 <=? status_code r) && (status_code r <? 600)); discriminate. }
    destruct (raise_for_status r) as [[]|e1|]; [| |congruence].
    + unfold response_json in *.
      destruct (content r) as [v|m|e1]; simpl in *; [discriminate| |].
      * injection Hh as <-. destruct (attempt <? retries - 1); reflexivity.
      * injection Hh as ->. destruct e; try discriminate He;
          destruct (attempt <? retries - 1); reflexivity.
    + simpl in *. injection Hh as ->. destruct e; try discriminate He;
        destruct (attempt <? retries - 1); reflexivity.
  - injection Hh as ->. destruct e; try discriminate He;
      destruct (attempt <? retries - 1); reflexivity.
Qed.

(** One pass whose [try] block ends in an exception that no clause
    catches: it leaves the function. *)
Lemma attempt_once_raises target headers params retries attempt tr e :
  try_failure (http tr target headers params) = Some e ->
  retryable e = false ->
  attempt_once http target headers params retries attempt tr =
  (Exc e, tr ++ [HttpGet target headers params 60]).
Proof.
  intros Hh He.
  unfold attempt_once, try_except, bind, requests_get, try_failure in *.
  destruct (http tr target headers params) as [r|e0]; simpl.
  - unfold terminal_message in Hh.
    destruct (status_code r =? 429); [discriminate|].
    destruct (status_code r =? 401); [discriminate|].
    destruct (status_code r =? 404); [discriminate|].
    unfold lift, raise_for_status in *.
    destruct ((400 <=? status_code r) && (status_code r <? 500));
      [injection Hh as <-; discriminate He|].
    destruct ((500 <=? status_code r) && (status_code r <? 600));
      [injection Hh as <-; discriminate He|].
    unfold response_json in *.
    destruct (content r) as [v|m|e1]; simpl in *; [discriminate| |].
    + injection Hh as <-. discriminate He.
    + injection Hh as ->. destruct e; try discriminate He; reflexivity.
  - injection Hh as ->. destruct e; try discriminate He; reflexivity.
Qed.


(** One pass whose response has a status answered at once. *)
Lemma attempt_once_terminal target headers params retries attempt tr r msg :
  http tr target headers params = Gives r ->
  terminal_message (status_code r) = Some msg ->
  attempt_once http target headers params retries attempt tr =
  (Val (Return (error_dict msg)), tr ++ [HttpGet target headers params 60]).
Proof.
  intros Hh Hm.
  unfold attempt_once, try_except, bind, requests_get, terminal_message in *.
  rewrite Hh. simpl.
  destruct (status_code r =? 429); [injection Hm as <-; reflexivity|].
  destruct (status_code r =? 401); [injection Hm as <-; reflexivity|].
  destruct (status_code r =? 404); [injection Hm as <-; reflexivity|].
  discriminate.
Qed.

(** One pass whose response is decoded. *)
Lemma attempt_once_success target headers params retries attempt tr r v :
  http tr target headers params = Gives r ->
  terminal_message (status_code r) = None ->
  raise_for_status r = Val tt ->
  content r = Json v ->
  attempt_once http target headers params retries attempt tr =
  (Val (Return v), tr ++ [HttpGet target headers params 60]).
Proof.
  intros Hh Hm Hs Hc.
  unfold attempt_once, try_except, bind, requests_get, terminal_message in *.
  rewrite Hh. simpl.
  destruct (status_code r =? 429); [discriminate|].
  destruct (status_code r =? 401); [discriminate|].
  destruct (status_code r =? 404); [discriminate|].
  unfold lift, response_json. rewrite Hs, Hc. reflexivity.
Qed.

(** A pass never lets a request exception through, and nothing else is
    raised in it: it goes on to the next pass after a sleep, or returns an
    error or the decoded body. *)
Lemma attempt_once_total target headers params retries attempt tr :
  (forall e, try_failure (http tr target headers params) = Some e ->
             retryable e = true) ->
  exists fl, attempt_once http target headers params retries attempt tr =
             (Val fl, tr ++ [HttpGet target headers params 60]
                         ++ match fl with
                            | Next => [Sleep (2 ^ attempt)]
                            | Return _ => []
                            end) /\
             match fl with
             | Next => True
             | Return v =>
                 (exists msg, v = error_dict msg) \/
                 (exists r, http tr target headers params = Gives r /\
                            content r = Json v)
             end.
Proof.
  intros Hsafe.
  destruct (try_failure (http tr target headers params)) as [e|] eqn:Hf.
  - assert (He : retryable e = true) by (apply Hsafe; reflexivity).
    rewrite (attempt_once_fails _ _ _ _ _ _ _ Hf He).
    destruct (attempt <? retries - 1).
    + exists Next. rewrite <- app_assoc. split; [reflexivity|exact I].
    + eexists (Return _). rewrite app_nil_r. split; [reflexivity|].
      left. eexists. reflexivity.
  - unfold try_failure in Hf.
    destruct (http tr target headers params) as [r|e0] eqn:Hh; [|discriminate].
    destruct (terminal_message (status_code r)) as [msg|] eqn:Hm.
    + rewrite (attempt_once_terminal _ _ _ _ _ _ _ _ Hh Hm).
      eexists (Return _). rewrite app_nil_r. split; [reflexivity|].
      left. eexists. reflexivity.
    + destruct (raise_for_status r) as [[]|e1|] eqn:Hs; try discriminate.
      * unfold response_json in Hf.
        destruct (content r) as [v|m|e1] eqn:Hc; [|discriminate|discriminate].
        rewrite (attempt_once_success _ _ _ _ _ _ _ _ Hh Hm Hs Hc).
        eexists (Return _). rewrite app_nil_r. split; [reflexivity|].
        right. exists r. split; [reflexivity|exact Hc].
      * unfold raise_for_status in Hs.
        destruct ((400 <=? status_code r) && (status_code r <? 500)); [discriminate|].
        destruct ((500 <=? status_code r) && (status_code r <? 600)); discriminate.
Qed.

Lemma for_attempts_cons target headers params retries attempt rest tr :
  for_attempts http target headers params retries (attempt :: rest) tr =
  match attempt_once http target headers params retries attempt tr with
  | (Val (Return v), tr') => (Val v, tr')
  | (Val Next, tr') => for_attempts http target headers params retries rest tr'
  | (Exc e, tr') => (Exc e, tr')
  | (Diverge, tr') => (Diverge, tr')
  end.
Proof.
  simpl. unfold bind.
  destruct (attempt_once http target headers params retries attempt tr) as [[[v|]|e|] tr'];
    reflexivity.
Qed.

(** When every pass fails, the loop sleeps after each pass but the last
    and returns the error of the last one. *)
Lemma for_attempts_last_failure target headers params n (P : exn -> Prop) :
  (forall h, exists e,
      try_failure (http h target headers params) = Some e /\
      retryable e = true /\ P e) ->
  forall k a tr,
    Z.of_nat (a + S k) = n ->
    exists e, P e /\
      for_attempts http target headers params n (map Z.of_nat (seq a (S k))) tr =
      (Val (error_dict (exhausted_message n e)),
       tr ++ failed_passes target headers params (map Z.of_nat (seq a k))).
Proof.
  intros Hall k. induction k as [|k IH]; intros a tr Hn.
  - destruct (Hall tr) as [e [Hh [He HP]]].
    exists e. split; [exact HP|].
    change (map Z.of_nat (seq a 1)) with [Z.of_nat a].
    rewrite for_attempts_cons, (attempt_once_fails _ _ _ _ _ _ _ Hh He).
    replace (Z.of_nat a <? n - 1) with false by (symmetry; apply Z.ltb_ge; lia).
    reflexivity.
  - destruct (Hall tr) as [e [Hh [He _]]].
    destruct (IH (S a) ((tr ++ [HttpGet target headers params 60]) ++ [Sleep (2 ^ Z.of_nat a)]))
      as [e' [He' Hrec]]; [lia|].
    exists e'. split; [exact He'|].
    change (seq a (S (S k))) with (a :: seq (S a) (S k)).
    rewrite map_cons, for_attempts_cons.
    rewrite (attempt_once_fails _ _ _ _ _ _ _ Hh He).
    replace (Z.of_nat a <? n - 1) with true by (symmetry; apply Z.ltb_lt; lia).
    rewrite Hrec. f_equal.
    unfold failed_passes. simpl. rewrite <- !app_assoc. reflexivity.
Qed.

Lemma sleeps_of_failed_passes target headers params attempts :
  sleeps_of (failed_passes target headers params attempts) = map (Z.pow 2) attempts.
Proof.
  unfold failed_passes. induction attempts as [|i l IH]; simpl; [reflexivity|].
  f_equal. exact IH.
Qed.

Lemma gets_of_failed_passes target headers params attempts :
  gets_of (failed_passes target headers params attempts) = S (List.length attempts).
Proof.
  unfold failed_passes, gets_of. induction attempts as [|i l IH]; simpl; [reflexivity|].
  f_equal. exact IH.
Qed.


(** C1. For a retry budget [n >= 1], when every attempt ends in a timeout
    or another request exception of the transport, [make_api_request]
    sleeps [n - 1] times, for 2^0, 2^1, ..., 2^(n-2) in that order, issues
    [n] requests, and returns an error value: a dict whose only field,
    [error], is a message that says that the request timed out, or failed
    with the text of the last exception, after [n] attempts. *)
Theorem retry_exhaustion endpoint params n tr :
  1 <= n ->
  (forall h u hd p, exists e, http h u hd p = Fails e /\ retryable e = true) ->
  exists e h tr',
    http h (api_url endpoint) (request_headers environ_token) params = Fails e /\
    retryable e = true /\
    make_api_request environ_token http endpoint params n tr =
      (Val (JDict
              [("error",
                JStr match e with
                     | Timeout _ =>
                         "Request timed out after " +++ str_of_int n
                         +++ " attempts. CourtListener API may be slow or unavailable."
                     | RequestException msg =>
                         "API request failed after " +++ str_of_int n
                         +++ " attempts: " +++ msg
                     | _ => ""
                     end)]), tr') /\
    sleeps_of tr' = sleeps_of tr ++ map (Z.pow 2) (range (n - 1)) /\
    List.length (sleeps_of tr') = (List.length (sleeps_of tr) + Z.to_nat (n - 1))%nat /\
    gets_of tr' = (gets_of tr + Z.to_nat n)%nat.
Proof.
  intros Hn Hall.
  assert (Hall' : forall h, exists e,
             try_failure (http h (api_url endpoint) (request_headers environ_token)
                               params) = Some e /\
             retryable e = true /\
             (retryable e = true /\
              exists h0, http h0 (api_url endpoint) (request_headers environ_token)
                              params = Fails e)).
  { intros h.
    destruct (Hall h (api_url endpoint) (request_headers environ_token) params)
      as [e [Hh He]].
    exists e. rewrite Hh. split; [reflexivity|]. split; [exact He|].
    split; [exact He|]. exists h. exact Hh. }
  destruct (for_attempts_last_failure (api_url endpoint) (request_headers environ_token)
              params n _ Hall'
              (Z.to_nat (n - 1)) 0%nat (tr ++ [ApiCall endpoint params n]))
    as [e [[He [h Hh]] Hrun]]; [lia|].
  exists e, h. eexists. split; [exact Hh|]. split; [exact He|]. split.
  - unfold make_api_request, bind, emit. unfold range.
    replace (Z.to_nat n) with (S (Z.to_nat (n - 1))) by lia.
    rewrite Hrun. unfold error_dict, exhausted_message, timeout_message, failed_message.
    destruct e; try discriminate He; reflexivity.
  - rewrite !sleeps_of_app, sleeps_of_failed_passes. simpl. rewrite app_nil_r.
    split; [reflexivity|]. split.
    + rewrite length_app, !length_map, length_seq. reflexivity.
    + rewrite !gets_of_app, gets_of_failed_passes, length_map, length_seq.
      unfold gets_of at 2. simpl. lia.
Qed.

(** C2. Whatever the request and the budget (at least one attempt, so that
    there is a response), a first response with status 429, 401 or 404
    makes [make_api_request] return at once the error value of that
    status, a dict whose only field, [error], is the message of the rate
    limit, of the failed authentication, or of what was not found: one
    request, no sleep, no retry; and in whichever pass such a response
    comes, whatever the budget, that pass returns the error without a
    sleep. *)
Theorem terminal_status_no_retry endpoint params retries tr r :
  1 <= retries ->
  http (tr ++ [ApiCall endpoint params retries]) (api_url endpoint)
       (request_headers environ_token) params = Gives r ->
  In (status_code r) [429; 401; 404] ->
  exists msg,
    (status_code r = 429 /\
     msg = "Rate limit exceeded. Free accounts have 5,000 queries/hour. Please wait before making more requests." \/
     status_code r = 401 /\
     msg = "Authentication failed. Check your COURTLISTENER_API_TOKEN environment variable." \/
     status_code r = 404 /\
     msg = "Not found or invalid cursor. Try removing pagination parameters.") /\
    make_api_request environ_token http endpoint params retries tr =
      (Val (JDict [("error", JStr msg)]),
       tr ++ [ApiCall endpoint params retries;
              HttpGet (api_url endpoint) (request_headers environ_token) params 60]) /\
    sleeps_of (snd (make_api_request environ_token http endpoint params retries tr))
      = sleeps_of tr /\
    gets_of (snd (make_api_request environ_token http endpoint params retries tr))
      = S (gets_of tr) /\
    (forall target headers budget attempt tr0,
        http tr0 target headers params = Gives r ->
        attempt_once http target headers params budget attempt tr0 =
          (Val (Return (JDict [("error", JStr msg)])),
           tr0 ++ [HttpGet target headers params 60])).
Proof.
  intros Hn Hh Hst.
  assert (Hm : exists msg,
             terminal_message (status_code r) = Some msg /\
             (status_code r = 429 /\
              msg = "Rate limit exceeded. Free accounts have 5,000 queries/hour. Please wait before making more requests." \/
              status_code r = 401 /\
              msg = "Authentication failed. Check your COURTLISTENER_API_TOKEN environment variable." \/
              status_code r = 404 /\
              msg = "Not found or invalid cursor. Try removing pagination parameters.")).
  { unfold terminal_message. simpl in Hst.
    destruct Hst as [E|[E|[E|[]]]]; rewrite <- E; eexists;
      (split; [reflexivity|]).
    - left. split; reflexivity.
    - right; left. split; reflexivity.
    - right; right. split; reflexivity. }
  destruct Hm as [msg [Hm Hlit]]. exists msg. split; [exact Hlit|].
  change (JDict [("error", JStr msg)]) with (error_dict msg).
  assert (Hrun : make_api_request environ_token http endpoint params retries tr =
      (Val (error_dict msg),
       tr ++ [ApiCall endpoint params retries;
              HttpGet (api_url endpoint) (request_headers environ_token) params 60])).
  { unfold make_api_request, bind, emit, range.
    replace (Z.to_nat retries) with (S (Z.to_nat (retries - 1))) by lia.
    change (map Z.of_nat (seq 0 (S (Z.to_nat (retries - 1)))))
      with (0 :: map Z.of_nat (seq 1 (Z.to_nat (retries - 1)))).
    rewrite for_attempts_cons, (attempt_once_terminal _ _ _ _ _ _ _ _ Hh Hm).
    rewrite <- app_assoc. reflexivity. }
  split; [exact Hrun|]. rewrite Hrun. simpl snd.
  rewrite sleeps_of_app, gets_of_app. simpl. rewrite app_nil_r.
  split; [reflexivity|]. split; [unfold gets_of at 2; simpl; lia|].
  intros target headers budget attempt tr0 Hh0.
  apply (attempt_once_terminal _ _ _ _ _ _ _ _ Hh0 Hm).
Qed.

End Requests.

(** With a transport that always times out and a budget of three attempts,
    the request sleeps 1 then 2 and reports the three attempts. *)
Lemma retry_exhaustion_witness :
  1 <= 3 /\
  (forall h u hd p, exists e, always_timeout h u hd p = Fails e /\ retryable e = true) /\
  (exists e h tr',
    always_timeout h (api_url "search") (request_headers None) [] = Fails e /\
    retryable e = true /\
    make_api_request None always_timeout "search" [] 3 [] =
      (Val (JDict
              [("error",
                JStr match e with
                     | Timeout _ =>
                         "Request timed out after " +++ str_of_int 3
                         +++ " attempts. CourtListener API may be slow or unavailable."
                     | RequestException msg =>
                         "API request failed after " +++ str_of_int 3
                         +++ " attempts: " +++ msg
                     | _ => ""
                     end)]), tr') /\
    sleeps_of tr' = [1; 2] /\
    List.length (sleeps_of tr') = 2%nat /\
    gets_of tr' = 3%nat) /\
  make_api_request None always_timeout "search" [] 3 [] =
    (Val (JDict [("error",
                  JStr "Request timed out after 3 attempts. CourtListener API may be slow or unavailable.")]),
     [ApiCall "search" [] 3;
      HttpGet "https://www.courtlistener.com/api/rest/v4/search/"
              [("Accept", "application/json"); ("Content-Type", "application/json")]
              [] 60;
      Sleep 1;
      HttpGet "https://www.courtlistener.com/api/rest/v4/search/"
              [("Accept", "application/json"); ("Content-Type", "application/json")]
              [] 60;
      Sleep 2;
      HttpGet "https://www.courtlistener.com/api/rest/v4/search/"
              [("Accept", "application/json"); ("Content-Type", "application/json")]
              [] 60]).
Proof.
  assert (H1 : 1 <= 3) by lia.
  assert (H2 : forall h u hd p, exists e,
             always_timeout h u hd p = Fails e /\ retryable e = true).
  { intros h u hd p. eexists. split; reflexivity. }
  split; [exact H1|]. split; [exact H2|]. split.
  - exact (retry_exhaustion None always_timeout "search" [] 3 [] H1 H2).
  - reflexivity.
Defined.

(** A 429 answered to the first attempt of three: one request, no sleep. *)
Lemma terminal_status_no_retry_witness :
  1 <= 3 /\
  answers (status_response 429) ([] ++ [ApiCall "search" [] 3]) (api_url "search")
          (request_headers None) [] = Gives (status_response 429) /\
  In (status_code (status_response 429)) [429; 401; 404] /\
  (exists msg,
    (status_code (status_response 429) = 429 /\
     msg = "Rate limit exceeded. Free accounts have 5,000 queries/hour. Please wait before making more requests." \/
     status_code (status_response 429) = 401 /\
     msg = "Authentication failed. Check your COURTLISTENER_API_TOKEN environment variable." \/
     status_code (status_response 429) = 404 /\
     msg = "Not found or invalid cursor. Try removing pagination parameters.") /\
    make_api_request None (answers (status_response 429)) "search" [] 3 [] =
      (Val (JDict [("error", JStr msg)]),
       [] ++ [ApiCall "search" [] 3;
              HttpGet (api_url "search") (request_headers None) [] 60]) /\
    sleeps_of (snd (make_api_request None (answers (status_response 429))
                      "search" [] 3 [])) = sleeps_of [] /\
    gets_of (snd (make_api_request None (answers (status_response 429))
                    "search" [] 3 [])) = S (gets_of []) /\
    (forall target headers budget attempt tr0,
        answers (status_response 429) tr0 target headers [] = Gives (status_response 429) ->
        attempt_once (answers (status_response 429)) target headers [] budget attempt tr0 =
          (Val (Return (JDict [("error", JStr msg)])),
           tr0 ++ [HttpGet target headers [] 60]))) /\
  make_api_request None (answers (status_response 429)) "search" [] 3 [] =
    (Val (JDict [("error",
                  JStr "Rate limit exceeded. Free accounts have 5,000 queries/hour. Please wait before making more requests.")]),
     [ApiCall "search" [] 3;
      HttpGet "https://www.courtlistener.com/api/rest/v4/search/"
              [("Accept", "application/json"); ("Content-Type", "application/json")]
              [] 60]) /\
  make_api_request None (answers (status_response 401)) "search" [] 3 [] =
    (Val (JDict [("error",
                  JStr "Authentication failed. Check your COURTLISTENER_API_TOKEN environment variable.")]),
     [ApiCall "search" [] 3;
      HttpGet "https://www.courtlistener.com/api/rest/v4/search/"
              [("Accept", "application/json"); ("Content-Type", "application/json")]
              [] 60]) /\
  make_api_request None (answers (status_response 404)) "search" [] 3 [] =
    (Val (JDict [("error",
                  JStr "Not found or invalid cursor. Try removing pagination parameters.")]),
     [ApiCall "search" [] 3;
      HttpGet "https://www.courtlistener.com/api/rest/v4/search/"
              [("Accept", "application/json"); ("Content-Type", "application/json")]
              [] 60]).
Proof.
  assert (H1 : 1 <= 3) by lia.
  assert (H3 : In (status_code (status_response 429)) [429; 401; 404]).
  { simpl. left. reflexivity. }
  split; [exact H1|]. split; [reflexivity|]. split; [exact H3|]. split.
  - exact (terminal_status_no_retry None (answers (status_response 429))
             "search" [] 3 [] (status_response 429) H1 eq_refl H3).
  - split; [reflexivity|]. split; reflexivity.
Defined.

(** The extracted cursor, in terms of the leftmost [cursor=]. *)
Lemma cursor_of_next_found (next pre after : string) :
  find "cursor=" next = Some (pre, after) ->
  cursor_of_next (JStr next) = Val (before "&" (before "cursor=" after)).
Proof.
  intros F. unfold cursor_of_next, py_split, str_split.
  destruct (String.length next) as [|fuel] eqn:L.
  { destruct next; [discriminate F|discriminate L]. }
  cbn [and_then]. unfold list_index at 1.
  rewrite (split_fuel_second fuel _ _ _ _ F). cbn [and_then].
  unfold list_index. rewrite split_fuel_head. reflexivity.
Qed.


(** Where the extracted cursor sits in the link. *)
Lemma cursor_shape (next : string) :
  contains "cursor=" next = true ->
  exists pre cur rest,
    next = pre +++ "cursor=" +++ cur +++ rest /\
    (forall p q, next = p +++ "cursor=" +++ q ->
                 (String.length pre <= String.length p)%nat) /\
    cursor_of_next (JStr next) = Val cur /\
    contains "&" cur = false /\
    contains "cursor=" cur = false /\
    (rest = "" \/ starts_with "&" rest = true \/ starts_with "cursor=" rest = true).
Proof.
  unfold contains at 1.
  destruct (find "cursor=" next) as [[pre after]|] eqn:F; [|discriminate].
  intros _.
  destruct (before_rest "cursor=" after) as [r1 [H1 R1]].
  destruct (before_rest "&" (before "cursor=" after)) as [r2 [H2 R2]].
  exists pre, (before "&" (before "cursor=" after)), (r2 +++ r1).
  split; [|split; [|split; [|split; [|split]]]].
  - rewrite (find_cut _ _ _ _ F) at 1. do 2 f_equal.
    rewrite <- append_assoc, <- H2. exact H1.
  - apply (find_leftmost _ _ _ _ F).
  - apply (cursor_of_next_found _ _ _ F).
  - apply before_free. discriminate.
  - apply (contains_prefix _ _ r2). rewrite <- H2. apply before_free. discriminate.
  - destruct R2 as [->|R2].
    + simpl. destruct R1 as [->|R1]; [now left|now right; right].
    + right; left. destruct r2 as [|c r2]; [discriminate R2|].
      simpl in *. exact R2.
Qed.

(** Unless [cursor=] comes again before the next [&], the extracted cursor
    is the text up to that [&]. *)
Lemma cursor_matches_words (next c : string) :
  cursor_by_the_words next = Some c ->
  contains "cursor=" c = false ->
  cursor_of_next (JStr next) = Val c.
Proof.
  unfold cursor_by_the_words.
  destruct (find "cursor=" next) as [[pre after]|] eqn:F; [|discriminate].
  intros [= <-] Hfree. rewrite (cursor_of_next_found _ _ _ F). f_equal.
  unfold before at 2.
  destruct (find "cursor=" after) as [[seg a']|] eqn:F2; [|reflexivity].
  assert (Hafter := find_cut _ _ _ _ F2).
  destruct (contains "&" seg) eqn:Hamp.
  - rewrite Hafter. symmetry. apply before_append. exact Hamp.
  - exfalso. rewrite Hafter in Hfree.
    rewrite (before_char_append "&"%char seg _ Hamp) in Hfree.
    change ("cursor=" +++ a') with ("cursor=" +++ a')%string in Hfree.
    rewrite (before_char_append "&"%char "cursor=" a' eq_refl) in Hfree.
    assert (T : contains "cursor=" (seg +++ "cursor=" +++ before "&" a') = true).
    { apply contains_iff. exists seg, (before "&" a'). reflexivity. }
    congruence.
Qed.

(** *** One pass of the loop *)

Lemma digest_dict (st1 : page_state) (d : dict json) :
  digest_page st1 (JDict d) =
  match dict_get "error" d with
  | Some v => Val (StepReturn v)
  | None =>
      match dict_get "results" d with
      | None => Val (StepBreak st1)
      | Some r =>
          if truthy r then
            let? items := py_iter r in
            let st2 := mkState (params st1) (all_results st1 ++ items)
                               (current_cursor st1) (pages_fetched st1 + 1) in
            let next_url := match dict_get "next" d with
                            | Some v => v
                            | None => JNull
                            end in
            if truthy next_url then
              let? has_cursor := py_in "cursor=" next_url in
              if has_cursor : bool then
                let? c := cursor_of_next next_url in
                Val (StepAgain (mkState (params st2) (all_results st2) c
                                        (pages_fetched st2)))
              else Val (StepBreak st2)
            else Val (StepBreak st2)
          else Val (StepBreak st1)
      end
  end.
Proof.
  unfold digest_page, py_in, py_getitem, py_get, dict_has. cbn [and_then].
  destruct (dict_get "error" d) as [v|]; cbn [and_then]; [reflexivity|].
  destruct (dict_get "results" d) as [r|]; cbn [and_then]; [|reflexivity].
  destruct (truthy r); cbn [negb]; [|reflexivity].
  destruct (py_iter r) as [items| |]; cbn [and_then]; [|reflexivity|reflexivity].
  destruct (truthy match dict_get "next" d with Some v => v | None => JNull end);
    reflexivity.
Qed.

(** A pass goes on to another one only after a non-empty page whose [next]
    is a link with a cursor. *)
Lemma digest_again_inv (st1 st' : page_state) (result : json) :
  digest_page st1 result = Val (StepAgain st') ->
  exists r s c,
    field "results" result = Some r /\ truthy r = true /\
    field "next" result = Some (JStr s) /\ s <> "" /\
    contains "cursor=" s = true /\
    cursor_of_next (JStr s) = Val c /\
    exists items, py_iter r = Val items /\
      st' = mkState (params st1) (all_results st1 ++ items) c (pages_fetched st1 + 1).
Proof.
  destruct result as [| b | n | s | l | d].
  1-3: discriminate.
  - unfold digest_page. simpl. destruct (contains "error" s); simpl; [discriminate|].
    destruct (contains "results" s); simpl; discriminate.
  - unfold digest_page. simpl. destruct (existsb (is_str "error") l); simpl; [discriminate|].
    destruct (existsb (is_str "results") l); simpl; discriminate.
  - rewrite digest_dict. simpl field.
    destruct (dict_get "error" d) as [v|]; [discriminate|].
    destruct (dict_get "results" d) as [r|]; [|discriminate].
    destruct (truthy r) eqn:Tr; [|discriminate].
    destruct (py_iter r) as [items| |] eqn:It; cbn [and_then]; [|discriminate|discriminate].
    destruct (dict_get "next" d) as [nx|]; [|discriminate].
    destruct (truthy nx) eqn:Tn; [|discriminate].
    destruct nx as [| b | n | s | l | d']; simpl; try discriminate.
    + destruct (contains "cursor=" s) eqn:C; [|discriminate].
      destruct (cursor_of_next (JStr s)) as [c| |] eqn:Cu; simpl; try discriminate.
      intros [= <-]. exists r, s, c.
      split; [reflexivity|]. split; [exact Tr|]. split; [reflexivity|].
      split; [intros ->; discriminate Tn|]. split; [exact C|].
      split; [exact Cu|]. exists items. split; [exact It|reflexivity].
    + destruct (existsb (is_str "cursor=") l); simpl; discriminate.
    + destruct (dict_has "cursor=" d'); simpl; discriminate.
Qed.

(** *** Nothing here loops

    The pure steps end in a value or an exception; [Diverge] is left to
    the fuel of the [while] loop. *)

Lemma and_then_total {A B} (o : outcome A) (k : A -> outcome B) :
  o <> Diverge -> (forall a, k a <> Diverge) -> and_then o k <> Diverge.
Proof. intros Ho Hk. destruct o; simpl; [apply Hk|discriminate|congruence]. Qed.

Lemma str_split_total (sep s : string) : str_split sep s <> Diverge.
Proof. unfold str_split. destruct sep; discriminate. Qed.

Lemma list_index_total {A} (l : list A) (i : nat) : list_index l i <> Diverge.
Proof. unfold list_index. destruct (nth_error l i); discriminate. Qed.

Lemma py_in_total (x : string) (c : json) : py_in x c <> Diverge.
Proof. destruct c; discriminate. Qed.

Lemma py_iter_total (v : json) : py_iter v <> Diverge.
Proof. destruct v; discriminate. Qed.

Lemma py_get_total (c : json) (k : string) (d : json) : py_get c k d <> Diverge.
Proof. destruct c; discriminate. Qed.

Lemma py_getitem_total (c : json) (k : string) : py_getitem c k <> Diverge.
Proof. destruct c; try discriminate. simpl. destruct (dict_get k fields); discriminate. Qed.

Lemma py_split_total (v : json) (sep : string) : py_split v sep <> Diverge.
Proof. destruct v; try discriminate. apply str_split_total. Qed.

Lemma val_total {A} (a : A) : Val a <> Diverge.
Proof. discriminate. Qed.

Create HintDb total discriminated.
#[export] Hint Resolve and_then_total str_split_total list_index_total py_in_total
  py_iter_total py_get_total py_getitem_total py_split_total val_total : total.

(** Goes through the steps of a pure block. *)
Ltac ends :=
  cbv zeta;
  lazymatch goal with
  | |- Val _ <> Diverge => discriminate
  | |- Exc _ <> Diverge => discriminate
  | |- and_then _ _ <> Diverge => apply and_then_total; [ends|intros; ends]
  | |- (if ?b then _ else _) <> Diverge => destruct b; ends
  | |- _ => solve [auto with total]
  end.

Lemma cursor_of_next_no_diverge (v : json) : cursor_of_next v <> Diverge.
Proof. unfold cursor_of_next. ends. Qed.

#[export] Hint Resolve cursor_of_next_no_diverge : total.

(** The reading of a page always ends. *)
Lemma digest_no_diverge (st1 : page_state) (result : json) :
  digest_page st1 result <> Diverge.
Proof. unfold digest_page. ends. Qed.

Section Loop.
Variable environ_token : option string.
Variable http : trace -> string -> dict string -> dict string -> reply response.

(** A pass of the retry loop makes no call of its own to the request
    function, and ends. *)
Lemma attempt_once_calls target headers params retries attempt tr :
  calls_of (snd (attempt_once http target headers params retries attempt tr))
    = calls_of tr /\
  fst (attempt_once http target headers params retries attempt tr) <> Diverge.
Proof.
  destruct (try_failure (http tr target headers params)) as [e|] eqn:Hf.
  - destruct (retryable e) eqn:He.
    + destruct (attempt_once_total http target headers params retries attempt tr)
        as [fl [Hfl _]]; [intros e' He'; congruence|].
      rewrite Hfl. simpl fst. simpl snd. split; [|discriminate].
      rewrite !calls_of_app. destruct fl; unfold calls_of; simpl; lia.
    + rewrite (attempt_once_raises http _ _ _ _ _ _ _ Hf He). simpl.
      split; [|discriminate].
      rewrite calls_of_app. unfold calls_of. simpl. lia.
  - destruct (attempt_once_total http target headers params retries attempt tr)
      as [fl [Hfl _]]; [intros e He; congruence|].
    rewrite Hfl. simpl fst. simpl snd. split; [|discriminate].
    rewrite !calls_of_app. destruct fl; unfold calls_of; simpl; lia.
Qed.

Lemma for_attempts_calls target headers params retries attempts :
  forall tr,
    calls_of (snd (for_attempts http target headers params retries attempts tr))
      = calls_of tr /\
    fst (for_attempts http target headers params retries attempts tr) <> Diverge.
Proof.
  induction attempts as [|a rest IH]; intros tr.
  - simpl. split; [reflexivity|discriminate].
  - rewrite for_attempts_cons.
    destruct (attempt_once_calls target headers params retries a tr) as [Hc Hd].
    destruct (attempt_once http target headers params retries a tr) as [[[v|]|e|] tr'];
      simpl in *.
    + split; [exact Hc|discriminate].
    + destruct (IH tr') as [Hc' Hd']. split; [congruence|exact Hd'].
    + split; [exact Hc|discriminate].
    + congruence.
Qed.

(** Each call of the request function shows once in the trace, and the
    call ends. *)
Lemma make_api_request_calls endpoint params retries tr :
  calls_of (snd (make_api_request environ_token http endpoint params retries tr))
    = S (calls_of tr) /\
  fst (make_api_request environ_token http endpoint params retries tr) <> Diverge.
Proof.
  unfold make_api_request, bind, emit.
  destruct (for_attempts_calls (api_url endpoint) (request_headers environ_token)
              params retries (range retries) (tr ++ [ApiCall endpoint params retries]))
    as [Hc Hd].
  split; [|exact Hd]. rewrite Hc, calls_of_app. unfold calls_of at 2. simpl. lia.
Qed.

(** One turn of the [while] loop. *)
Lemma page_loop_turn fuel search_type max st tr :
  pages_fetched st < max ->
  page_loop environ_token http (S fuel) search_type max st tr =
  match make_api_request environ_token http search_type (cursor_params st) 3 tr with
  | (Val result, tr') =>
      match digest_page (enter_page st) result with
      | Val (StepReturn v) => (Val (Returned v), tr')
      | Val (StepBreak st') => (Val (LoopDone st'), tr')
      | Val (StepAgain st') =>
          page_loop environ_token http fuel search_type max st' tr'
      | Exc e => (Exc e, tr')
      | Diverge => (Diverge, tr')
      end
  | (Exc e, tr') => (Exc e, tr')
  | (Diverge, tr') => (Diverge, tr')
  end.
Proof.
  intros Hlt. cbn [page_loop].
  replace (pages_fetched st <? max) with true by (symmetry; apply Z.ltb_lt; exact Hlt).
  unfold page_body, bind, lift. cbn [params enter_page].
  destruct (make_api_request environ_token http search_type (cursor_params st) 3 tr)
    as [[result|e|] tr']; try reflexivity.
  destruct (digest_page (enter_page st) result) as [[v|st'|st']|e|]; reflexivity.
Qed.

Lemma page_loop_over fuel search_type max st tr :
  max <= pages_fetched st ->
  page_loop environ_token http fuel search_type max st tr = (Val (LoopDone st), tr).
Proof.
  intros Hge. destruct fuel; cbn [page_loop];
    replace (pages_fetched st <? max) with false
      by (symmetry; apply Z.ltb_ge; exact Hge); reflexivity.
Qed.

(** With fuel for the pages left, the loop ends, and it calls the request
    function at most once per page left. *)
Lemma page_loop_bound search_type max :
  forall fuel st tr,
    (Z.to_nat (max - pages_fetched st) <= fuel)%nat ->
    fst (page_loop environ_token http fuel search_type max st tr) <> Diverge /\
    (calls_of (snd (page_loop environ_token http fuel search_type max st tr))
     <= calls_of tr + Z.to_nat (max - pages_fetched st))%nat.
Proof.
  induction fuel as [|fuel IH]; intros st tr Hfuel.
  - rewrite page_loop_over by lia. simpl. split; [discriminate|lia].
  - destruct (Z.lt_ge_cases (pages_fetched st) max) as [Hlt|Hge].
    2:{ rewrite page_loop_over by lia. simpl. split; [discriminate|lia]. }
    rewrite page_loop_turn by exact Hlt.
    destruct (make_api_request_calls search_type (cursor_params st) 3 tr) as [Hc Hd].
    destruct (make_api_request environ_token http search_type (cursor_params st) 3 tr)
      as [[result|e|] tr']; simpl in Hc, Hd.
    + destruct (digest_page (enter_page st) result) as [[v|st'|st']|e|] eqn:Dg.
      * simpl. split; [discriminate|lia].
      * simpl. split; [discriminate|lia].
      * destruct (digest_again_inv _ _ _ Dg)
          as [r [s [c [_ [_ [_ [_ [_ [_ [items [_ ->]]]]]]]]]]].
        destruct (IH (mkState (params (enter_page st))
                              (all_results (enter_page st) ++ items) c
                              (pages_fetched (enter_page st) + 1)) tr') as [Hd' Hc'].
        { simpl. lia. }
        split; [exact Hd'|]. simpl in Hc'. simpl. lia.
      * simpl. split; [discriminate|lia].
      * exfalso. exact (digest_no_diverge _ _ Dg).
    + simpl. split; [discriminate|lia].
    + congruence.
Qed.

End Loop.

Section Pagination.
Variable environ_token : option string.
Variable http : trace -> string -> dict string -> dict string -> reply response.

(** A pass that does not lead to another one ends the loop right after its
    request. *)
Lemma page_loop_stops fuel search_type max st tr result tr' :
  pages_fetched st < max ->
  (Z.to_nat (max - pages_fetched st) <= fuel)%nat ->
  make_api_request environ_token http search_type (cursor_params st) 3 tr
    = (Val result, tr') ->
  (forall st', digest_page (enter_page st) result <> Val (StepAgain st')) ->
  page_loop environ_token http fuel search_type max st tr =
    (match digest_page (enter_page st) result with
     | Val (StepReturn v) => Val (Returned v)
     | Val (StepBreak st') => Val (LoopDone st')
     | Val (StepAgain _) => Diverge
     | Exc e => Exc e
     | Diverge => Diverge
     end, tr') /\
  fst (page_loop environ_token http fuel search_type max st tr) <> Diverge /\
  calls_of (snd (page_loop environ_token http fuel search_type max st tr))
    = S (calls_of tr).
Proof.
  intros Hlt Hfuel Hreq Hstop.
  destruct fuel as [|fuel]; [lia|].
  assert (Hc := make_api_request_calls environ_token http search_type (cursor_params st) 3 tr).
  rewrite page_loop_turn by exact Hlt. rewrite Hreq in *. simpl in Hc.
  destruct (digest_page (enter_page st) result) as [[v|st'|st']|e|] eqn:Dg; simpl.
  - repeat split; [discriminate|apply Hc].
  - repeat split; [discriminate|apply Hc].
  - exfalso. exact (Hstop st' eq_refl).
  - repeat split; [discriminate|apply Hc].
  - exfalso. exact (digest_no_diverge _ _ Dg).
Qed.

(** C7. In any pass of the pagination loop, a fetched response without a
    [next] field, without a [results] field, or with an empty result list
    ends the loop: nothing happens after the request of that pass, which
    is the last call of the request function. *)
Theorem halts_without_next_page fuel search_type max st tr result tr' :
  pages_fetched st < max ->
  (Z.to_nat (max - pages_fetched st) <= fuel)%nat ->
  make_api_request environ_token http search_type (cursor_params st) 3 tr
    = (Val result, tr') ->
  field "next" result = None \/ field "results" result = None \/
  field "results" result = Some (JList []) ->
  snd (page_loop environ_token http fuel search_type max st tr) = tr' /\
  calls_of (snd (page_loop environ_token http fuel search_type max st tr))
    = S (calls_of tr) /\
  fst (page_loop environ_token http fuel search_type max st tr) <> Diverge.
Proof.
  intros Hlt Hfuel Hreq Hend.
  destruct (page_loop_stops fuel search_type max st tr result tr' Hlt Hfuel Hreq)
    as [Hrun [Hd Hc]].
  - intros st' Dg.
    destruct (digest_again_inv _ _ _ Dg) as [r [s [c [Hr [Tr [Hn _]]]]]].
    destruct Hend as [H|[H|H]]; [congruence|congruence|].
    rewrite H in Hr. injection Hr as <-. discriminate Tr.
  - rewrite Hrun. simpl. rewrite Hrun in Hc, Hd. simpl in Hc, Hd.
    repeat split; assumption.
Qed.

(** Reading a field other than [next] does not see whether [next] is
    there. *)
Lemma digest_falsy_next (st1 : page_state) (d d' : dict json) :
  (dict_get "next" d = Some JNull \/ dict_get "next" d = Some (JStr "")) ->
  dict_get "next" d' = None ->
  (forall k, k <> "next" -> dict_get k d' = dict_get k d) ->
  digest_page st1 (JDict d) = digest_page st1 (JDict d').
Proof.
  intros Hn Hn' Hsame. rewrite !digest_dict.
  rewrite (Hsame "error") by discriminate.
  rewrite (Hsame "results") by discriminate.
  rewrite Hn'. destruct Hn as [-> | ->]; reflexivity.
Qed.

End Pagination.

(** A first page without a [next] field: the loop ends after its one
    request. *)
Lemma halts_without_next_page_witness :
  pages_fetched start_state < 3 /\
  (Z.to_nat (3 - pages_fetched start_state) <= 3)%nat /\
  make_api_request None
    (answers (ok_response (JDict [("results", JList [court "First Court"])])))
    "courts" (cursor_params start_state) 3 [] =
    (Val (JDict [("results", JList [court "First Court"])]),
     [ApiCall "courts" [] 3;
      HttpGet (api_url "courts") (request_headers None) [] 60]) /\
  snd (page_loop None
         (answers (ok_response (JDict [("results", JList [court "First Court"])])))
         3 "courts" 3 start_state []) =
    [ApiCall "courts" [] 3;
     HttpGet (api_url "courts") (request_headers None) [] 60].
Proof.
  assert (H1 : pages_fetched start_state < 3) by (simpl; lia).
  assert (H2 : (Z.to_nat (3 - pages_fetched start_state) <= 3)%nat) by (simpl; lia).
  split; [exact H1|]. split; [exact H2|]. split; [reflexivity|].
  exact (proj1 (halts_without_next_page None
                  (answers (ok_response (JDict [("results", JList [court "First Court"])])))
                  3 "courts" 3 start_state []
                  (JDict [("results", JList [court "First Court"])])
                  [ApiCall "courts" [] 3;
                   HttpGet (api_url "courts") (request_headers None) [] 60]
                  H1 H2 eq_refl (or_introl eq_refl))).
Defined.

Lemma page_ceiling_value (beyond : string -> option Z) (max_pages : string) :
  page_ceiling beyond max_pages =
  Val match py_int beyond max_pages with
      | Val n => Z.min n 10
      | _ => 3
      end.
Proof.
  unfold page_ceiling.
  destruct (py_int_cases beyond max_pages) as [[n ->]| ->]; reflexivity.
Qed.

Lemma page_ceiling_le_10 (beyond : string -> option Z) (max_pages : string) :
  match py_int beyond max_pages with
  | Val n => Z.min n 10
  | _ => 3
  end <= 10.
Proof. destruct (py_int beyond max_pages); lia. Qed.

Lemma known_search_type search_type :
  existsb (String.eqb search_type) search_types = true <-> In search_type search_types.
Proof.
  split.
  - intros H. apply existsb_exists in H. destruct H as [x [Hin He]].
    apply String.eqb_eq in He. subst x. exact Hin.
  - intros H. apply existsb_exists. exists search_type.
    split; [exact H|apply String.eqb_refl].
Qed.

Section Search.
Variable environ_token : option string.
Variable http : trace -> string -> dict string -> dict string -> reply response.
Variable py_repr : json -> string.
Variable int_beyond : string -> option Z.

(** C8. Where the code parts from the claim: on a link in which [cursor=]
    comes again before any [&], the text between the leftmost [cursor=]
    and the end is [abcursor=cd] and the code extracts [ab], which a
    search that is given this link sends as the cursor of its next
    request.  Everywhere else it does what the claim says: when no [cursor=] comes again before
    the next [&], the cursor extracted is the text between [cursor=] and
    that [&], or the end of the string; it is [abc123] and [xyz] on the
    two links of the specification; the next pass holds that cursor; and
    a link without [cursor=] ends the pagination. *)
Theorem cursor_extraction :
  (cursor_by_the_words
     "https://www.courtlistener.com/api/rest/v4/courts/?cursor=abcursor=cd"
     = Some "abcursor=cd" /\
   cursor_of_next
     (JStr "https://www.courtlistener.com/api/rest/v4/courts/?cursor=abcursor=cd")
     = Val "ab" /\
   snd (search_with_pagination None
          (answers (court_page "First Court"
                      (JStr "https://www.courtlistener.com/api/rest/v4/courts/?cursor=abcursor=cd")))
          py_repr int_beyond "courts" "" "" "2" []) =
     [ApiCall "courts" [] 3;
      HttpGet "https://www.courtlistener.com/api/rest/v4/courts/"
              [("Accept", "application/json"); ("Content-Type", "application/json")]
              [] 60;
      ApiCall "courts" [("cursor", "ab")] 3;
      HttpGet "https://www.courtlistener.com/api/rest/v4/courts/"
              [("Accept", "application/json"); ("Content-Type", "application/json")]
              [("cursor", "ab")] 60]) /\
  (forall next c,
      cursor_by_the_words next = Some c ->
      contains "cursor=" c = false ->
      cursor_of_next (JStr next) = Val c) /\
  cursor_of_next
    (JStr "https://www.courtlistener.com/api/rest/v4/search/?cursor=abc123&foo=bar")
    = Val "abc123" /\
  cursor_of_next
    (JStr "https://www.courtlistener.com/api/rest/v4/search/?cursor=xyz")
    = Val "xyz" /\
  (forall st1 st' result,
      digest_page st1 result = Val (StepAgain st') ->
      exists s, field "next" result = Some (JStr s) /\
                contains "cursor=" s = true /\
                cursor_of_next (JStr s) = Val (current_cursor st')) /\
  (forall fuel search_type max st tr d s tr',
      pages_fetched st < max ->
      (Z.to_nat (max - pages_fetched st) <= fuel)%nat ->
      make_api_request environ_token http search_type (cursor_params st) 3 tr
        = (Val (JDict d), tr') ->
      dict_get "next" d = Some (JStr s) ->
      contains "cursor=" s = false ->
      snd (page_loop environ_token http fuel search_type max st tr) = tr' /\
      fst (page_loop environ_token http fuel search_type max st tr) <> Diverge).
Proof.
  split; [split; [reflexivity|split; reflexivity]|].
  split; [exact cursor_matches_words|].
  split; [reflexivity|]. split; [reflexivity|]. split.
  - intros st1 st' result Dg.
    destruct (digest_again_inv _ _ _ Dg)
      as [r [s [c [_ [_ [Hn [_ [Hc [Hcur [items [_ ->]]]]]]]]]]].
    exists s. repeat split; assumption.
  - intros fuel search_type max st tr d s tr' Hlt Hfuel Hreq Hn Hc.
    destruct (page_loop_stops environ_token http fuel search_type max st tr
                (JDict d) tr' Hlt Hfuel Hreq) as [Hrun [Hd _]].
    + intros st' Dg.
      destruct (digest_again_inv _ _ _ Dg) as [r [s' [c [_ [_ [Hn' [_ [Hc' _]]]]]]]].
      simpl in Hn'. congruence.
    + split; [rewrite Hrun; reflexivity|exact Hd].
Qed.

Lemma item_heading_no_diverge search_type i item output :
  item_heading py_repr search_type i item output <> Diverge.
Proof. unfold item_heading. ends. Qed.

Lemma render_items_no_diverge search_type items :
  forall i output, render_items py_repr search_type i items output <> Diverge.
Proof.
  induction items as [|item items IH]; intros i output; cbn [render_items].
  - discriminate.
  - apply and_then_total; [apply item_heading_no_diverge|intros output1].
    apply and_then_total; [auto with total|intros link].
    apply and_then_total; [ends|intros output2; apply IH].
Qed.

Lemma finish_no_diverge search_type ex : finish py_repr search_type ex <> Diverge.
Proof.
  destruct ex as [v|st]; simpl; [discriminate|].
  destruct (all_results st) as [|item items]; [discriminate|].
  apply and_then_total; [apply render_items_no_diverge|discriminate].
Qed.

(** The whole search makes at most as many calls of the request function
    as the ceiling allows, and ends. *)
Lemma search_bound search_type query cursor max_pages tr c :
  page_ceiling int_beyond max_pages = Val c ->
  fst (search_with_pagination environ_token http py_repr int_beyond
         search_type query cursor max_pages tr) <> Diverge /\
  (calls_of (snd (search_with_pagination environ_token http py_repr int_beyond
                    search_type query cursor max_pages tr))
   <= calls_of tr + Z.to_nat c)%nat.
Proof.
  intros Hc. unfold search_with_pagination.
  destruct (negb (existsb (String.eqb search_type) search_types)).
  - simpl. split; [discriminate|lia].
  - unfold bind at 1. unfold lift at 1. rewrite Hc.
    set (st0 := mkState (initial_params search_type query cursor) [] cursor 0).
    destruct (page_loop_bound environ_token http search_type c (Z.to_nat c) st0 tr)
      as [Hd Hb]; [simpl; lia|].
    simpl pages_fetched in Hb. replace (c - 0) with c in Hb by lia.
    unfold bind, lift.
    destruct (page_loop environ_token http (Z.to_nat c) search_type c st0 tr)
      as [[ex|e|] tr']; simpl in Hd, Hb.
    + assert (F := finish_no_diverge search_type ex).
      destruct (finish py_repr search_type ex); simpl;
        (split; [first [discriminate|congruence]|exact Hb]).
    + simpl. split; [discriminate|exact Hb].
    + congruence.
Qed.

(** The search, once the type is known to be one of the four. *)
Lemma search_run search_type query cursor max_pages tr :
  In search_type search_types ->
  search_with_pagination environ_token http py_repr int_beyond search_type query
    cursor max_pages tr =
  let c := match py_int int_beyond max_pages with Val n => Z.min n 10 | _ => 3 end in
  match page_loop environ_token http (Z.to_nat c) search_type c
          (mkState (initial_params search_type query cursor) [] cursor 0) tr with
  | (Val ex, tr') => (finish py_repr search_type ex, tr')
  | (Exc e, tr') => (Exc e, tr')
  | (Diverge, tr') => (Diverge, tr')
  end.
Proof.
  intros Hin. unfold search_with_pagination.
  rewrite (proj2 (known_search_type search_type) Hin). cbn [negb].
  unfold bind at 1. unfold lift at 1. rewrite page_ceiling_value.
  unfold bind, lift. cbv zeta.
  destruct (page_loop environ_token http _ search_type _ _ tr) as [[ex|e|] tr'];
    reflexivity.
Qed.

(** Passes that go on lead from one head of the loop to another: the loop
    started at the first is the loop started at the second. *)
Lemma turns_run search_type max st tr st' tr' :
  turns environ_token http search_type max st tr st' tr' ->
  forall fuel,
    (Z.to_nat (max - pages_fetched st) <= fuel)%nat ->
    exists fuel',
      (Z.to_nat (max - pages_fetched st') <= fuel')%nat /\
      page_loop environ_token http fuel search_type max st tr =
      page_loop environ_token http fuel' search_type max st' tr'.
Proof.
  induction 1 as [st tr|st tr result tr1 st1 st' tr' Hlt Hreq Hdg _ IH];
    intros fuel Hfuel.
  - exists fuel. split; [exact Hfuel|reflexivity].
  - destruct fuel as [|fuel]; [lia|].
    rewrite page_loop_turn by exact Hlt. rewrite Hreq, Hdg.
    apply IH.
    destruct (digest_again_inv _ _ _ Hdg)
      as [r [s [c [_ [_ [_ [_ [_ [_ [items [_ ->]]]]]]]]]]].
    simpl. lia.
Qed.

(** After the loop, a harvest that is not empty is listed under its
    header. *)
Lemma finish_listing search_type st :
  all_results st <> [] ->
  finish py_repr search_type (LoopDone st) =
  (let? output :=
     render_items py_repr search_type 1 (all_results st)
       ("Found " +++ str_of_int (Z.of_nat (List.length (all_results st)))
        +++ " " +++ search_type +++ " across "
        +++ str_of_int (pages_fetched st) +++ " pages:" +++ nl +++ nl) in
   Val (JStr output)).
Proof.
  intros Hne. unfold finish, found_header.
  destruct (all_results st); [congruence|reflexivity].
Qed.

(** C10. A response whose [next] is null or the empty string is read as
    the one without the field is; and at whatever pass of a search a page
    with results comes whose [next] is missing, null or the empty string,
    the search ends with the request of that pass and returns the listing
    of all the results gathered so far, this page included, under the
    header that counts them and the pages fetched; and when the page has
    no results, or empty ones, the search ends there as well, whatever its
    [next], and returns the listing of what was gathered before, or the
    report that nothing was found. *)
Theorem empty_next_ends_like_missing :
  (forall st1 d d',
      dict_get "next" d = Some JNull \/ dict_get "next" d = Some (JStr "") ->
      dict_get "next" d' = None ->
      (forall k, k <> "next" -> dict_get k d' = dict_get k d) ->
      digest_page st1 (JDict d) = digest_page st1 (JDict d')) /\
  (forall search_type query cursor max_pages ceiling tr0 st tr d tr' item items,
      In search_type search_types ->
      page_ceiling int_beyond max_pages = Val ceiling ->
      turns environ_token http search_type ceiling
            (mkState (initial_params search_type query cursor) [] cursor 0) tr0
            st tr ->
      pages_fetched st < ceiling ->
      make_api_request environ_token http search_type (cursor_params st) 3 tr
        = (Val (JDict d), tr') ->
      dict_get "next" d = None \/ dict_get "next" d = Some JNull \/
      dict_get "next" d = Some (JStr "") ->
      dict_get "error" d = None ->
      dict_get "results" d = Some (JList (item :: items)) ->
      search_with_pagination environ_token http py_repr int_beyond search_type
        query cursor max_pages tr0 =
      ((let? output :=
          render_items py_repr search_type 1 (all_results st ++ item :: items)
            ("Found "
             +++ str_of_int (Z.of_nat (List.length (all_results st ++ item :: items)))
             +++ " " +++ search_type +++ " across "
             +++ str_of_int (pages_fetched st + 1) +++ " pages:" +++ nl +++ nl) in
        Val (JStr output)), tr')) /\
  (forall search_type query cursor max_pages ceiling tr0 st tr d tr',
      In search_type search_types ->
      page_ceiling int_beyond max_pages = Val ceiling ->
      turns environ_token http search_type ceiling
            (mkState (initial_params search_type query cursor) [] cursor 0) tr0
            st tr ->
      pages_fetched st < ceiling ->
      make_api_request environ_token http search_type (cursor_params st) 3 tr
        = (Val (JDict d), tr') ->
      dict_get "error" d = None ->
      dict_get "results" d = None \/
      (exists r, dict_get "results" d = Some r /\ truthy r = false) ->
      search_with_pagination environ_token http py_repr int_beyond search_type
        query cursor max_pages tr0 =
      (match all_results st with
       | [] => Val (JStr ("No " +++ search_type +++ " found"))
       | _ =>
           let? output :=
             render_items py_repr search_type 1 (all_results st)
               ("Found " +++ str_of_int (Z.of_nat (List.length (all_results st)))
                +++ " " +++ search_type +++ " across "
                +++ str_of_int (pages_fetched st) +++ " pages:" +++ nl +++ nl) in
           Val (JStr output)
       end, tr')).
Proof.
  split; [exact digest_falsy_next|]. split.
  2:{ intros search_type query cursor max_pages ceiling tr0 st tr d tr'
             Hin Hceil Hturns Hlt Hreq He Hr.
      rewrite (search_run _ _ _ _ _ Hin). cbv zeta.
      rewrite page_ceiling_value in Hceil. injection Hceil as Hceil.
      rewrite Hceil.
      destruct (turns_run _ _ _ _ _ _ Hturns (Z.to_nat ceiling)) as [fuel' [Hf ->]].
      { cbn [pages_fetched]. lia. }
      assert (Hdg : digest_page (enter_page st) (JDict d) =
                    Val (StepBreak (enter_page st))).
      { rewrite digest_dict, He.
        destruct Hr as [-> |[r [-> ->]]]; reflexivity. }
      destruct (page_loop_stops environ_token http fuel' search_type ceiling st tr
                  (JDict d) tr' Hlt Hf Hreq) as [Hrun _].
      { intros st'. rewrite Hdg. discriminate. }
      rewrite Hrun, Hdg. unfold finish, found_header. cbn [enter_page all_results pages_fetched].
      destruct (all_results st); reflexivity. }
  intros search_type query cursor max_pages ceiling tr0 st tr d tr' item items
         Hin Hceil Hturns Hlt Hreq Hn He Hr.
  rewrite (search_run _ _ _ _ _ Hin). cbv zeta.
  rewrite page_ceiling_value in Hceil. injection Hceil as Hceil.
  rewrite Hceil.
  destruct (turns_run _ _ _ _ _ _ Hturns (Z.to_nat ceiling)) as [fuel' [Hf ->]].
  { cbn [pages_fetched]. lia. }
  assert (Hdg : digest_page (enter_page st) (JDict d) =
                Val (StepBreak (mkState (cursor_params st)
                                        (all_results st ++ item :: items)
                                        (current_cursor st) (pages_fetched st + 1)))).
  { rewrite digest_dict, He, Hr. cbn [truthy py_iter and_then]. cbv zeta.
    destruct Hn as [-> |[-> | ->]]; reflexivity. }
  destruct (page_loop_stops environ_token http fuel' search_type ceiling st tr
              (JDict d) tr' Hlt Hf Hreq) as [Hrun _].
  { intros st'. rewrite Hdg. discriminate. }
  rewrite Hrun, Hdg. rewrite finish_listing.
  - reflexivity.
  - cbn [all_results]. intros E. symmetry in E. exact (app_cons_not_nil _ _ _ E).
Qed.

(** C6. The page ceiling is [min(int(max_pages), 10)], or 3 when
    [max_pages] is not an integer, hence never above 10; one search calls
    the request function at most that many times (not at all for a
    negative ceiling) and ends; and on a source of three pages of one
    result each, a search with [max_pages = 2] gathers two items over two
    pages. *)
Theorem page_fetch_bound search_type query cursor max_pages tr :
  let ceiling := match py_int int_beyond max_pages with
                 | Val n => Z.min n 10
                 | _ => 3
                 end in
  let run := search_with_pagination environ_token http py_repr int_beyond
               search_type query cursor max_pages tr in
  page_ceiling int_beyond max_pages = Val ceiling /\
  ceiling <= 10 /\
  fst run <> Diverge /\
  (calls_of (snd run) <= calls_of tr + Z.to_nat ceiling)%nat /\
  (calls_of (snd run) <= calls_of tr + 10)%nat /\
  search_with_pagination None three_pages py_repr int_beyond "courts" "" "" "2" [] =
    (Val (JStr ("Found 2 courts across 2 pages:" +++ nl +++ nl
                +++ "1. First Court" +++ nl +++ nl
                +++ "2. Second Court" +++ nl +++ nl)),
     [ApiCall "courts" [] 3;
      HttpGet "https://www.courtlistener.com/api/rest/v4/courts/"
              [("Accept", "application/json"); ("Content-Type", "application/json")]
              [] 60;
      ApiCall "courts" [("cursor", "cD0y")] 3;
      HttpGet "https://www.courtlistener.com/api/rest/v4/courts/"
              [("Accept", "application/json"); ("Content-Type", "application/json")]
              [("cursor", "cD0y")] 60]) /\
  fst (page_loop None three_pages 2 "courts" 2 start_state []) =
    Val (LoopDone (mkState [("cursor", "cD0y")]
                           [court "First Court"; court "Second Court"]
                           "cD0z" 2)).
Proof.
  intros ceiling run.
  assert (Hle := page_ceiling_le_10 int_beyond max_pages). fold ceiling in Hle.
  destruct (search_bound search_type query cursor max_pages tr ceiling
              (page_ceiling_value int_beyond max_pages)) as [Hd Hc].
  fold run in Hd, Hc.
  split; [apply page_ceiling_value|]. split; [exact Hle|].
  split; [exact Hd|]. split; [exact Hc|]. split; [lia|].
  split; reflexivity.
Qed.

End Search.

(** The first link of the three-page source. *)
Lemma cursor_extraction_witness :
  cursor_by_the_words
    "https://www.courtlistener.com/api/rest/v4/courts/?cursor=cD0y&format=json"
    = Some "cD0y" /\
  contains "cursor=" "cD0y" = false /\
  cursor_of_next
    (JStr "https://www.courtlistener.com/api/rest/v4/courts/?cursor=cD0y&format=json")
    = Val "cD0y".
Proof.
  split; [reflexivity|]. split; [reflexivity|].
  exact (proj1 (proj2 (cursor_extraction None three_pages blank_repr plain_only))
           "https://www.courtlistener.com/api/rest/v4/courts/?cursor=cD0y&format=json"
           "cD0y" eq_refl eq_refl).
Defined.

(** A search of courts whose second page has the empty string as [next]:
    it ends there and lists the two courts gathered; and one whose third
    page has a null [next], which lists the three. *)
Lemma empty_next_ends_like_missing_witness :
  In "courts" search_types /\
  page_ceiling plain_only "3" = Val 3 /\
  turns None last_next_empty "courts" 3
        (mkState (initial_params "courts" "" "") [] "" 0) []
        (mkState [] [court "First Court"] "cD0y" 1)
        [ApiCall "courts" [] 3;
         HttpGet (api_url "courts") (request_headers None) [] 60] /\
  search_with_pagination None last_next_empty blank_repr plain_only
    "courts" "" "" "3" [] =
    (Val (JStr ("Found 2 courts across 2 pages:" +++ nl +++ nl
                +++ "1. First Court" +++ nl +++ nl
                +++ "2. Second Court" +++ nl +++ nl)),
     [ApiCall "courts" [] 3;
      HttpGet "https://www.courtlistener.com/api/rest/v4/courts/"
              [("Accept", "application/json"); ("Content-Type", "application/json")]
              [] 60;
      ApiCall "courts" [("cursor", "cD0y")] 3;
      HttpGet "https://www.courtlistener.com/api/rest/v4/courts/"
              [("Accept", "application/json"); ("Content-Type", "application/json")]
              [("cursor", "cD0y")] 60]) /\
  search_with_pagination None three_pages blank_repr plain_only
    "courts" "" "" "5" [] =
    (Val (JStr ("Found 3 courts across 3 pages:" +++ nl +++ nl
                +++ "1. First Court" +++ nl +++ nl
                +++ "2. Second Court" +++ nl +++ nl
                +++ "3. Third Court" +++ nl +++ nl)),
     [ApiCall "courts" [] 3;
      HttpGet "https://www.courtlistener.com/api/rest/v4/courts/"
              [("Accept", "application/json"); ("Content-Type", "application/json")]
              [] 60;
      ApiCall "courts" [("cursor", "cD0y")] 3;
      HttpGet "https://www.courtlistener.com/api/rest/v4/courts/"
              [("Accept", "application/json"); ("Content-Type", "application/json")]
              [("cursor", "cD0y")] 60;
      ApiCall "courts" [("cursor", "cD0z")] 3;
      HttpGet "https://www.courtlistener.com/api/rest/v4/courts/"
              [("Accept", "application/json"); ("Content-Type", "application/json")]
              [("cursor", "cD0z")] 60]).
Proof.
  assert (H1 : In "courts" search_types) by (simpl; auto).
  assert (H2 : page_ceiling plain_only "3" = Val 3) by reflexivity.
  assert (H3 : turns None last_next_empty "courts" 3
                 (mkState (initial_params "courts" "" "") [] "" 0) []
                 (mkState [] [court "First Court"] "cD0y" 1)
                 [ApiCall "courts" [] 3;
                  HttpGet (api_url "courts") (request_headers None) [] 60]).
  { eapply turns_on; [simpl; lia|reflexivity|reflexivity|apply turns_here]. }
  split; [exact H1|]. split; [exact H2|]. split; [exact H3|].
  split; [|reflexivity].
  exact (proj1 (proj2 (empty_next_ends_like_missing None last_next_empty blank_repr
                         plain_only))
           "courts" "" "" "3" 3 []
           (mkState [] [court "First Court"] "cD0y" 1)
           [ApiCall "courts" [] 3;
            HttpGet (api_url "courts") (request_headers None) [] 60]
           [("count", JInt 3); ("next", JStr "");
            ("results", JList [court "Second Court"])]
           [ApiCall "courts" [] 3;
            HttpGet (api_url "courts") (request_headers None) [] 60;
            ApiCall "courts" [("cursor", "cD0y")] 3;
            HttpGet (api_url "courts") (request_headers None) [("cursor", "cD0y")] 60]
           (court "Second Court") []
           H1 H2 H3 ltac:(simpl; lia) eq_refl
           (or_intror (or_intror eq_refl)) eq_refl eq_refl).
Defined.

Example split_on_cursor :
  str_split "cursor=" "https://host/api/?cursor=abc123&foo=bar"
    = Val ["https://host/api/?"; "abc123&foo=bar"].
Proof. reflexivity. Qed.

Example split_on_ampersand :
  str_split "&" "abc123&foo=bar" = Val ["abc123"; "foo=bar"].
Proof. reflexivity. Qed.

Example page_ceiling_examples :
  page_ceiling plain_only "2" = Val 2 /\ page_ceiling plain_only "25" = Val 10 /\
  page_ceiling plain_only " 7 " = Val 7 /\ page_ceiling plain_only "-4" = Val (-4) /\
  page_ceiling plain_only "many" = Val 3 /\ page_ceiling plain_only "" = Val 3.
Proof. repeat split. Qed.


Lemma error_dict_ok search_type msg : body_ok search_type (error_dict msg) = true.
Proof. reflexivity. Qed.


Section Failures.
Variable environ_token : option string.
Variable http : trace -> string -> dict string -> dict string -> reply response.
Variable py_repr : json -> string.
Variable int_beyond : string -> option Z.










End Failures.


(** A transport that always times out: the search returns the message of
    the exhausted request, after its three attempts. *)
Example search_returns_the_error :
  search_with_pagination None always_timeout blank_repr plain_only "courts" "" "" "3" [] =
    (Val (JStr "Request timed out after 3 attempts. CourtListener API may be slow or unavailable."),
     [ApiCall "courts" [] 3;
      HttpGet (api_url "courts") (request_headers None) [] 60; Sleep 1;
      HttpGet (api_url "courts") (request_headers None) [] 60; Sleep 2;
      HttpGet (api_url "courts") (request_headers None) [] 60]).
Proof. reflexivity. Qed.


End ServerFacts.

(* ================================================================== *)
(** ** Properties of client.py *)
(* ================================================================== *)

Module ClientFacts.
Import Py Client.

Lemma submitted_app (a b : trace) : submitted (a ++ b) = submitted a ++ submitted b.
Proof. unfold submitted. apply flat_map_app. Qed.

Lemma invoked_app (a b : trace) : invoked (a ++ b) = invoked a ++ invoked b.
Proof. unfold invoked. apply flat_map_app. Qed.

(** Console lines are neither requests to the model nor tool calls. *)
Lemma prints_silent (extra : trace) :
  forallb is_print extra = true -> submitted extra = [] /\ invoked extra = [].
Proof.
  induction extra as [|e extra IH]; intros H; [split; reflexivity|].
  simpl in H. apply andb_true_iff in H. destruct H as [He H].
  destruct (IH H) as [Hs Hi]. destruct e; try discriminate He.
  simpl. split; assumption.
Qed.

Lemma convert_to_llm_tool_run (t : tool) (tr : trace) :
  convert_to_llm_tool t tr =
  (converted t, tr ++ if rejected t then [Printed (InvalidToolWarning t)] else []).
Proof.
  destruct t as [[[n|] [d|] s]|]; try reflexivity.
  unfold convert_to_llm_tool, converted, bind, lift, rejected.
  rewrite app_nil_r.
  destruct (schema_properties {| name := Some n; description := Some d; inputSchema := s |});
    reflexivity.
Qed.

Lemma tool_lines_prints (t : tool) : forallb is_print (tool_lines t) = true.
Proof.
  unfold tool_lines. destruct (printed_name t); [|reflexivity|reflexivity].
  destruct (printed_properties t); [|reflexivity|reflexivity].
  destruct (rejected t); reflexivity.
Qed.

(** One turn of the loop over the tools. *)
Lemma collect_functions_cons (t : tool) (ts : list tool) functions tr :
  collect_functions (t :: ts) functions tr =
  match (let? _ := printed_name t in let? _ := printed_properties t in converted t) with
  | Val v =>
      collect_functions ts (if truthy v then functions ++ [v] else functions)
                        (tr ++ tool_lines t)
  | Exc e => (Exc e, tr ++ tool_lines t)
  | Diverge => (Diverge, tr ++ tool_lines t)
  end.
Proof.
  cbn [collect_functions]. unfold bind, lift, emit, tool_lines.
  destruct (printed_name t) as [n| |]; cbn [and_then];
    [|rewrite app_nil_r; reflexivity|rewrite app_nil_r; reflexivity].
  destruct (printed_properties t) as [p| |]; cbn [and_then];
    [|reflexivity|reflexivity].
  rewrite convert_to_llm_tool_run.
  replace ((tr ++ [Printed (ToolNameLine n)]) ++ [Printed (ToolPropertiesLine p)])
    with (tr ++ [Printed (ToolNameLine n); Printed (ToolPropertiesLine p)])
    by (rewrite <- app_assoc; reflexivity).
  rewrite <- app_assoc. cbn [app].
  destruct (converted t); reflexivity.
Qed.

(** The loop over the tools only prints, and keeps the schemas of the
    tools that are not turned down, in order. *)
Lemma collect_functions_run (ts : list tool) :
  forall functions tr,
  exists extra,
    snd (collect_functions ts functions tr) = tr ++ extra /\
    forallb is_print extra = true /\
    forall out, fst (collect_functions ts functions tr) = Val out ->
                out = functions ++ flat_map contribution ts.
Proof.
  induction ts as [|t ts IH]; intros functions tr.
  - exists []. simpl. rewrite !app_nil_r. split; [reflexivity|]. split; [reflexivity|].
    intros out [= <-]. reflexivity.
  - rewrite collect_functions_cons.
    destruct (printed_name t) as [n| |] eqn:Hn; cbn [and_then].
    2,3: exists (tool_lines t); split; [reflexivity|];
         split; [apply tool_lines_prints|discriminate].
    destruct (printed_properties t) as [p| |] eqn:Hp; cbn [and_then].
    2,3: exists (tool_lines t); split; [reflexivity|];
         split; [apply tool_lines_prints|discriminate].
    destruct (converted t) as [v| |] eqn:Hv.
    2,3: exists (tool_lines t); split; [reflexivity|];
         split; [apply tool_lines_prints|discriminate].
    destruct (IH (if truthy v then functions ++ [v] else functions)
                 (tr ++ tool_lines t)) as [extra [Htr [Hpr Hout]]].
    exists (tool_lines t ++ extra). rewrite Htr, <- app_assoc.
    split; [reflexivity|]. split.
    + rewrite forallb_app, tool_lines_prints. exact Hpr.
    + intros out H. rewrite (Hout out H). cbn [flat_map]. unfold contribution at 2.
      rewrite Hv. destruct (truthy v); [rewrite <- app_assoc|]; reflexivity.
Qed.

Lemma print_resources_run (rs : list json) :
  forall tr, print_resources rs tr =
             (Val tt, tr ++ map (fun r => Printed (ResourceLine r)) rs).
Proof.
  induction rs as [|r rs IH]; intros tr; simpl.
  - rewrite app_nil_r. reflexivity.
  - unfold bind, emit. rewrite IH, <- app_assoc. reflexivity.
Qed.

(** Parsing stops at the first argument string that is not JSON. *)
Lemma parse_calls_malformed (before after : list tool_call) (bad : tool_call) :
  function_arguments bad = Malformed ->
  Forall (fun c => function_arguments c <> Malformed) before ->
  forall acc tr,
    parse_calls (before ++ bad :: after) acc tr =
    (Exc JSONDecodeError,
     tr ++ map (fun c => Printed (ToolCallLine c)) (before ++ [bad])).
Proof.
  intros Hbad Hgood. induction Hgood as [|c before Hc _ IH]; intros acc tr.
  - simpl. unfold bind, emit, lift. rewrite Hbad. reflexivity.
  - simpl. unfold bind at 1. unfold emit at 1. unfold bind at 1. unfold lift at 1.
    destruct (function_arguments c) as [v|]; [|congruence]. simpl json_loads. cbv iota.
    rewrite IH, <- app_assoc. reflexivity.
Qed.

Lemma parse_calls_prints (calls : list tool_call) :
  forall acc tr, exists extra,
    snd (parse_calls calls acc tr) = tr ++ extra /\ forallb is_print extra = true.
Proof.
  induction calls as [|c calls IH]; intros acc tr.
  - exists []. simpl. rewrite app_nil_r. split; reflexivity.
  - simpl. unfold bind at 1. unfold emit at 1. unfold bind at 1. unfold lift at 1.
    destruct (json_loads (function_arguments c)) as [v| |].
    + destruct (IH (acc ++ [JDict [("name", JStr (function_name c)); ("args", v)]])
                   (tr ++ [Printed (ToolCallLine c)])) as [extra [Htr Hpr]].
      exists (Printed (ToolCallLine c) :: extra). rewrite Htr, <- app_assoc.
      split; [reflexivity|exact Hpr].
    + exists [Printed (ToolCallLine c)]. split; reflexivity.
    + exists [Printed (ToolCallLine c)]. split; reflexivity.
Qed.

Lemma split_at_malformed (calls : list tool_call) :
  has_malformed calls ->
  exists before bad after,
    calls = before ++ bad :: after /\
    function_arguments bad = Malformed /\
    Forall (fun c => function_arguments c <> Malformed) before.
Proof.
  unfold has_malformed.
  induction calls as [|c calls IH]; intros H; [inversion H|].
  destruct (function_arguments c) as [v|] eqn:Hc.
  - inversion H as [? ? Hbad|? ? Hlater]; subst; [congruence|].
    destruct (IH Hlater) as [before [bad [after [-> [Hbad Hgood]]]]].
    exists (c :: before), bad, after. split; [reflexivity|]. split; [exact Hbad|].
    constructor; [congruence|exact Hgood].
  - exists [], c, calls. split; [reflexivity|]. split; [exact Hc|constructor].
Qed.

Section Dispatch.
Variable environ_openai_key : option string.
Variable llm : trace -> string -> list json -> reply (option (list tool_call)).
Variable resources : list json.
Variable tools : list tool.
Variable call_tool : trace -> json -> json -> reply json.

(** Invoking the parsed calls never contacts the model. *)
Lemma dispatch_run (fs : list json) :
  forall tr, exists extra,
    snd (dispatch call_tool fs tr) = tr ++ extra /\ submitted extra = [].
Proof.
  induction fs as [|f fs IH]; intros tr.
  - exists []. simpl. rewrite app_nil_r. split; reflexivity.
  - cbn [dispatch]. unfold bind at 1. unfold lift at 1.
    destruct (py_getitem f "name") as [n| |];
      [|exists []; rewrite app_nil_r; split; reflexivity
       |exists []; rewrite app_nil_r; split; reflexivity].
    unfold bind at 1. unfold lift at 1.
    destruct (py_getitem f "args") as [a| |];
      [|exists []; rewrite app_nil_r; split; reflexivity
       |exists []; rewrite app_nil_r; split; reflexivity].
    unfold bind at 1.
    destruct (call_tool tr n a) as [result|e]; cbn [of_reply].
    + unfold bind at 1. unfold emit at 1.
      destruct (IH ((tr ++ [CallTool n a]) ++ [Printed (ToolsResult result)]))
        as [extra [Htr Hs]].
      exists ([CallTool n a; Printed (ToolsResult result)] ++ extra).
      rewrite Htr, <- !app_assoc. split; [reflexivity|exact Hs].
    + exists [CallTool n a]. split; reflexivity.
Qed.

(** The request to the model and the parsing of its answer. *)
Lemma call_llm_run prompt functions tr :
  call_llm environ_openai_key llm prompt functions tr =
  match environ_openai_key with
  | None => (Exc OpenAIError, tr)
  | Some _ =>
      let tr1 := tr ++ [Printed CallingLlm;
                        LlmRequest system_message prompt functions] in
      match llm (tr ++ [Printed CallingLlm]) prompt functions with
      | Gives (Some (c :: rest)) => parse_calls (c :: rest) [] tr1
      | Gives _ => (Val [], tr1)
      | Fails e => (Exc e, tr1)
      end
  end.
Proof.
  unfold call_llm, openai_client, bind, emit, lift.
  destruct environ_openai_key as [key|]; [|reflexivity].
  cbv zeta. rewrite <- app_assoc. cbn [app].
  destruct (llm (tr ++ [Printed CallingLlm]) prompt functions) as [[[|c rest]|]|e];
    reflexivity.
Qed.

(** The cycle, from the listing to the branch on the list of functions. *)
Lemma run_turn tr :
  run environ_openai_key llm resources tools call_tool tr =
  match collect_functions tools [] (tr ++ preamble resources) with
  | (Val [], tr1) =>
      (Val tt, tr1 ++ [Printed (ValidFunctionsCount 0); Printed NoValidTools])
  | (Val (f :: fs), tr1) =>
      match call_llm environ_openai_key llm the_prompt (f :: fs)
              (tr1 ++ [Printed (ValidFunctionsCount (List.length (f :: fs)))]) with
      | (Val functions_to_call, tr2) => dispatch call_tool functions_to_call tr2
      | (Exc e, tr2) => (Exc e, tr2)
      | (Diverge, tr2) => (Diverge, tr2)
      end
  | (Exc e, tr1) => (Exc e, tr1)
  | (Diverge, tr1) => (Diverge, tr1)
  end.
Proof.
  unfold run, bind, emit. rewrite print_resources_run.
  unfold preamble. rewrite <- !app_assoc. cbn [app].
  destruct (collect_functions tools [] _) as [[[|f fs]|e|] tr1]; try reflexivity.
  rewrite <- app_assoc. reflexivity.
Qed.

Lemma preamble_silent : submitted (preamble resources) = [] /\ invoked (preamble resources) = [].
Proof.
  unfold preamble. rewrite !submitted_app, !invoked_app. simpl.
  assert (H : forallb is_print (map (fun r => Printed (ResourceLine r)) resources) = true).
  { induction resources as [|r rs IH]; [reflexivity|exact IH]. }
  destruct (prints_silent _ H) as [-> ->]. split; reflexivity.
Qed.

(** C9. When no schema is left after conversion, the cycle reports that
    there are no valid tools and returns without a request to the model;
    and every request a cycle makes to the model carries a non-empty list
    of schemas. *)
Theorem no_model_call_without_schemas tr :
  (forall tr1,
      collect_functions tools [] (tr ++ preamble resources) = (Val [], tr1) ->
      run environ_openai_key llm resources tools call_tool tr =
        (Val tt, tr1 ++ [Printed (ValidFunctionsCount 0); Printed NoValidTools]) /\
      submitted (snd (run environ_openai_key llm resources tools call_tool tr)) = submitted tr) /\
  (exists new,
      submitted (snd (run environ_openai_key llm resources tools call_tool tr)) = submitted tr ++ new /\
      Forall (fun functions => functions <> []) new).
Proof.
  destruct (collect_functions_run tools [] (tr ++ preamble resources))
    as [extra [Htr [Hpr _]]].
  destruct (prints_silent _ Hpr) as [Hsub _].
  destruct preamble_silent as [Hpre _].
  split.
  - intros tr1 Hcol. rewrite run_turn, Hcol. split; [reflexivity|].
    rewrite Hcol in Htr. simpl in Htr. simpl snd. rewrite Htr.
    rewrite !submitted_app, Hsub, Hpre. simpl. rewrite !app_nil_r. reflexivity.
  - rewrite run_turn.
    destruct (collect_functions tools [] (tr ++ preamble resources))
      as [[[|f fs]|e|] tr1]; simpl in Htr; subst tr1.
    + exists []. simpl snd. rewrite !submitted_app, Hsub, Hpre. simpl.
      rewrite !app_nil_r. split; [reflexivity|constructor].
    + rewrite call_llm_run.
      set (tr2 := ((tr ++ preamble resources) ++ extra)
                  ++ [Printed (ValidFunctionsCount (List.length (f :: fs)))]).
      destruct environ_openai_key as [key|].
      2:{ exists []. simpl snd. unfold tr2.
          rewrite !submitted_app, Hsub, Hpre. simpl.
          rewrite !app_nil_r. split; [reflexivity|constructor]. }
      cbv zeta.
      assert (Hsub2 : submitted (tr2 ++ [Printed CallingLlm;
                                        LlmRequest system_message the_prompt (f :: fs)])
                      = submitted tr ++ [f :: fs]).
      { unfold tr2. rewrite !submitted_app, Hsub, Hpre. simpl.
        rewrite !app_nil_r. reflexivity. }
      exists [f :: fs]. split; [|constructor; [discriminate|constructor]].
      destruct (llm (tr2 ++ [Printed CallingLlm]) the_prompt (f :: fs)) as [[[|c rest]|]|e].
      * simpl. exact Hsub2.
      * destruct (parse_calls_prints (c :: rest) []
                    (tr2 ++ [Printed CallingLlm;
                             LlmRequest system_message the_prompt (f :: fs)]))
          as [extra2 [Htr2 Hpr2]].
        destruct (prints_silent _ Hpr2) as [Hs2 _].
        destruct (parse_calls (c :: rest) [] _) as [[ftc|e|] tr3]; simpl in Htr2; subst tr3.
        -- destruct (dispatch_run ftc
                       ((tr2 ++ [Printed CallingLlm;
                                 LlmRequest system_message the_prompt (f :: fs)])
                        ++ extra2)) as [extra3 [Htr3 Hs3]].
           rewrite Htr3, (submitted_app _ extra3), (submitted_app _ extra2).
           rewrite Hsub2, Hs2, Hs3, !app_nil_r. reflexivity.
        -- simpl. rewrite (submitted_app _ extra2), Hsub2, Hs2, !app_nil_r. reflexivity.
        -- simpl. rewrite (submitted_app _ extra2), Hsub2, Hs2, !app_nil_r. reflexivity.
      * simpl. exact Hsub2.
      * simpl. exact Hsub2.
    + exists []. simpl snd. rewrite !submitted_app, Hsub, Hpre. simpl.
      rewrite !app_nil_r. split; [reflexivity|constructor].
    + exists []. simpl snd. rewrite !submitted_app, Hsub, Hpre. simpl.
      rewrite !app_nil_r. split; [reflexivity|constructor].
Qed.

(** C4, amended. Parsing stops with [JSONDecodeError] at the first argument
    string that is not JSON, the entries after it being left unparsed;
    and when the response of the model holds such an entry, the cycle
    invokes no tool at all and, once the model has been contacted, ends in
    that exception. *)
Theorem malformed_arguments_abort_cycle tr :
  (forall before bad after acc tr0,
      function_arguments bad = Malformed ->
      Forall (fun c => function_arguments c <> Malformed) before ->
      parse_calls (before ++ bad :: after) acc tr0 =
        (Exc JSONDecodeError,
         tr0 ++ map (fun c => Printed (ToolCallLine c)) (before ++ [bad]))) /\
  ((forall h p fs, exists calls, llm h p fs = Gives (Some calls) /\ has_malformed calls) ->
   invoked (snd (run environ_openai_key llm resources tools call_tool tr)) = invoked tr /\
   (submitted (snd (run environ_openai_key llm resources tools call_tool tr)) = submitted tr \/
    fst (run environ_openai_key llm resources tools call_tool tr) = Exc JSONDecodeError)).
Proof.
  split.
  - intros before bad after acc tr0 Hbad Hgood.
    apply parse_calls_malformed; assumption.
  - intros Hllm.
    destruct (collect_functions_run tools [] (tr ++ preamble resources))
      as [extra [Htr [Hpr _]]].
    destruct (prints_silent _ Hpr) as [Hsub Hinv].
    destruct preamble_silent as [Hpre Hpre'].
    rewrite run_turn.
    destruct (collect_functions tools [] (tr ++ preamble resources))
      as [[[|f fs]|e|] tr1]; simpl in Htr; subst tr1.
    + simpl. rewrite !submitted_app, !invoked_app, Hsub, Hinv, Hpre, Hpre'. simpl.
      rewrite !app_nil_r. split; [reflexivity|left; reflexivity].
    + rewrite call_llm_run.
      set (tr2 := ((tr ++ preamble resources) ++ extra)
                  ++ [Printed (ValidFunctionsCount (List.length (f :: fs)))]).
      destruct environ_openai_key as [key|].
      2:{ simpl. unfold tr2.
          rewrite !submitted_app, !invoked_app, Hsub, Hinv, Hpre, Hpre'. simpl.
          rewrite !app_nil_r. split; [reflexivity|left; reflexivity]. }
      cbv zeta.
      destruct (Hllm (tr2 ++ [Printed CallingLlm]) the_prompt (f :: fs))
        as [calls [-> Hbad]].
      destruct (split_at_malformed calls Hbad)
        as [before [bad [after [-> [Hb Hgood]]]]].
      assert (Hparse := parse_calls_malformed before after bad Hb Hgood []
                          (tr2 ++ [Printed CallingLlm;
                                   LlmRequest system_message the_prompt (f :: fs)])).
      destruct (before ++ bad :: after) as [|c rest] eqn:E;
        [destruct before; discriminate E|].
      rewrite Hparse. simpl fst. simpl snd. split; [|right; reflexivity].
      unfold tr2. rewrite !invoked_app, Hinv, Hpre'. simpl.
      assert (Hp : forallb is_print (map (fun c0 => Printed (ToolCallLine c0)) (before ++ [bad])) = true).
      { clear. induction (before ++ [bad]) as [|x l IH]; [reflexivity|exact IH]. }
      destruct (prints_silent _ Hp) as [_ ->]. rewrite !app_nil_r. reflexivity.
    + simpl. rewrite !submitted_app, !invoked_app, Hsub, Hinv, Hpre, Hpre'. simpl.
      rewrite !app_nil_r. split; [reflexivity|left; reflexivity].
    + simpl. rewrite !submitted_app, !invoked_app, Hsub, Hinv, Hpre, Hpre'. simpl.
      rewrite !app_nil_r. split; [reflexivity|left; reflexivity].
Qed.

End Dispatch.

(** The schema of a tool whose [inputSchema] is a dict. *)
Lemma schema_of_dict (n d : json) (f : dict json) :
  converted (Some (mkTool (Some n) (Some d) (Some (JDict f)))) =
  Val (tool_schema n d match dict_get "properties" f with
                       | Some p => p
                       | None => JDict []
                       end).
Proof.
  unfold converted, schema_properties. cbn [inputSchema].
  destruct f as [|kv f]; [reflexivity|].
  cbn [truthy py_in py_getitem and_then]. unfold dict_has.
  destruct (dict_get "properties" (kv :: f)); reflexivity.
Qed.

(** C5, amended. [convert_to_llm_tool] turns down, with a warning, the
    tools that are [None] or lack a [name] or a [description] attribute,
    and no others; a tool that has both is converted and its name and
    description are copied as they are, empty or not; tools turned down
    add nothing to the list of functions, which keeps the other schemas
    in order.  The [properties] of the schema are the empty dict when
    [inputSchema] is missing, falsy, or a dict without the key
    [properties]; when it is a dict with that key, they are the value
    under it, whatever it is. *)
Theorem conversion_rejects_missing_attributes :
  (forall t tr,
      rejected t = true ->
      convert_to_llm_tool t tr = (Val JNull, tr ++ [Printed (InvalidToolWarning t)])) /\
  (forall t,
      rejected t = true <->
      t = None \/ exists obj, t = Some obj /\ (name obj = None \/ description obj = None)) /\
  (forall t tr v tr',
      convert_to_llm_tool t tr = (Val v, tr') ->
      contribution t = if truthy v then [v] else []) /\
  (forall t, rejected t = true -> contribution t = []) /\
  (forall ts functions tr out,
      fst (collect_functions ts functions tr) = Val out ->
      out = functions ++ flat_map contribution ts) /\
  (forall n d s tr,
      s = None \/ (exists v, s = Some v /\ truthy v = false) \/
      (exists f, s = Some (JDict f) /\ dict_get "properties" f = None) ->
      convert_to_llm_tool (Some (mkTool (Some n) (Some d) s)) tr =
        (Val (JDict [("type", JStr "function");
                     ("function",
                      JDict [("name", n);
                             ("description", d);
                             ("parameters",
                              JDict [("type", JStr "object");
                                     ("properties", JDict [])])])]), tr)) /\
  (forall n d f p tr,
      dict_get "properties" f = Some p ->
      convert_to_llm_tool (Some (mkTool (Some n) (Some d) (Some (JDict f)))) tr =
        (Val (JDict [("type", JStr "function");
                     ("function",
                      JDict [("name", n);
                             ("description", d);
                             ("parameters",
                              JDict [("type", JStr "object");
                                     ("properties", p)])])]), tr)).
Proof.
  split; [|split; [|split; [|split; [|split; [|split]]]]].
  - intros t tr H. rewrite convert_to_llm_tool_run, H.
    destruct t as [[[n|] [d|] s]|]; try reflexivity. discriminate H.
  - intros t. split.
    + destruct t as [[[n|] [d|] s]|]; intros H; try discriminate H.
      * right. eexists. split; [reflexivity|]. right. reflexivity.
      * right. eexists. split; [reflexivity|]. left. reflexivity.
      * right. eexists. split; [reflexivity|]. left. reflexivity.
      * left. reflexivity.
    + intros [->|[obj [-> [H|H]]]]; [reflexivity| |];
        destruct obj as [[n|] [d|] s]; simpl in H; try discriminate H; reflexivity.
  - intros t tr v tr' H. rewrite convert_to_llm_tool_run in H.
    unfold contribution. injection H as -> _. reflexivity.
  - intros t H. unfold contribution.
    destruct t as [[[n|] [d|] s]|]; try reflexivity. discriminate H.
  - intros ts functions tr out H.
    destruct (collect_functions_run ts functions tr) as [extra [_ [_ Hout]]].
    apply Hout. exact H.
  - intros n d s tr H. rewrite convert_to_llm_tool_run.
    cbn [rejected]. rewrite app_nil_r.
    destruct H as [->|[[v [-> Hv]]|[f [-> Hf]]]].
    + reflexivity.
    + unfold converted, schema_properties. cbn [inputSchema]. rewrite Hv. reflexivity.
    + rewrite schema_of_dict, Hf. reflexivity.
  - intros n d f p tr Hf. rewrite convert_to_llm_tool_run.
    cbn [rejected]. rewrite app_nil_r, schema_of_dict, Hf. reflexivity.
Qed.

(** The model asks for two calls and the first argument string is not
    JSON: the cycle ends in the exception and the second call, whose
    arguments are fine, is never invoked. *)
Lemma malformed_arguments_counterexample :
  fst (run some_key first_call_broken [] [search_tool] echo_session []) = Exc JSONDecodeError /\
  invoked (snd (run some_key first_call_broken [] [search_tool] echo_session [])) = [].
Proof. split; reflexivity. Qed.

(** A tool whose name is the empty string is converted, and its schema is
    submitted to the model; and a tool with a name and a description whose
    [inputSchema] holds [None] under [properties] gets [None] as the
    properties of its schema, which is submitted too. *)
Lemma conversion_counterexample :
  convert_to_llm_tool nameless_tool [] =
    (Val (JDict [("type", JStr "function");
                 ("function",
                  JDict [("name", JStr "");
                         ("description", JStr "Look up a citation.");
                         ("parameters",
                          JDict [("type", JStr "object");
                                 ("properties", JDict [])])])]), []) /\
  submitted (snd (run some_key silent_model [] [nameless_tool] echo_session [])) =
    [[JDict [("type", JStr "function");
             ("function",
              JDict [("name", JStr "");
                     ("description", JStr "Look up a citation.");
                     ("parameters",
                      JDict [("type", JStr "object");
                             ("properties", JDict [])])])]]] /\
  convert_to_llm_tool null_properties_tool [] =
    (Val (JDict [("type", JStr "function");
                 ("function",
                  JDict [("name", JStr "get_greeting");
                         ("description", JStr "Greet the user.");
                         ("parameters",
                          JDict [("type", JStr "object");
                                 ("properties", JNull)])])]), []) /\
  submitted (snd (run some_key silent_model [] [null_properties_tool] echo_session [])) =
    [[JDict [("type", JStr "function");
             ("function",
              JDict [("name", JStr "get_greeting");
                     ("description", JStr "Greet the user.");
                     ("parameters",
                      JDict [("type", JStr "object");
                             ("properties", JNull)])])]]].
Proof. split; [reflexivity|]. split; [reflexivity|]. split; reflexivity. Qed.

(** The model of the counterexample: its response holds a malformed entry,
    and no tool is invoked. *)
Lemma malformed_arguments_witness :
  (forall h p fs, exists calls,
      first_call_broken h p fs = Gives (Some calls) /\ has_malformed calls) /\
  invoked (snd (run some_key first_call_broken [] [search_tool] echo_session [])) = invoked [] /\
  (submitted (snd (run some_key first_call_broken [] [search_tool] echo_session []))
     = submitted [] \/
   fst (run some_key first_call_broken [] [search_tool] echo_session []) = Exc JSONDecodeError).
Proof.
  assert (H : forall h p fs, exists calls,
             first_call_broken h p fs = Gives (Some calls) /\ has_malformed calls).
  { intros h p fs. eexists. split; [reflexivity|]. constructor. reflexivity. }
  split; [exact H|].
  exact (proj2 (malformed_arguments_abort_cycle some_key first_call_broken []
                  [search_tool] echo_session []) H).
Defined.

(** A tool without a description is turned down with a warning. *)
Lemma conversion_witness :
  rejected undescribed_tool = true /\
  convert_to_llm_tool undescribed_tool [] =
    (Val JNull, [] ++ [Printed (InvalidToolWarning undescribed_tool)]).
Proof.
  split; [reflexivity|].
  exact (proj1 conversion_rejects_missing_attributes undescribed_tool [] eq_refl).
Defined.

(** With that tool alone nothing is left to submit: the cycle says so and
    stops. *)
Lemma no_model_call_witness :
  collect_functions [undescribed_tool] [] ([] ++ preamble []) =
    (Val [], preamble [] ++ tool_lines undescribed_tool) /\
  run some_key silent_model [] [undescribed_tool] echo_session [] =
    (Val tt, (preamble [] ++ tool_lines undescribed_tool)
             ++ [Printed (ValidFunctionsCount 0); Printed NoValidTools]) /\
  submitted (snd (run some_key silent_model [] [undescribed_tool] echo_session []))
    = submitted [].
Proof.
  split; [reflexivity|].
  exact (proj1 (no_model_call_without_schemas some_key silent_model []
                  [undescribed_tool] echo_session [])
           (preamble [] ++ tool_lines undescribed_tool) eq_refl).
Defined.

(** A well-formed response: both calls are invoked, in the order of the
    model. *)
Example calls_dispatched_in_order :
  invoked (snd (run some_key (fun _ _ _ =>
                       Gives (Some [mkCall "search_cases" (Encodes (JDict [("query", JStr "F-1 visa")]));
                                    mkCall "get_case_summary" (Encodes (JDict [("case_identifier", JStr "118395")]))]))
                    [] [search_tool] echo_session [])) =
    [(JStr "search_cases", JDict [("query", JStr "F-1 visa")]);
     (JStr "get_case_summary", JDict [("case_identifier", JStr "118395")])].
Proof. reflexivity. Qed.

End ClientFacts.

(* ====================================================================== *)
(** ** Facts about the text operations *)

Module TextFacts.
Import Py PyText PyFacts.

(** Two ways of cutting the same text: one cut comes first. *)
Lemma append_split (a b c d : string) :
  a +++ b = c +++ d ->
  (exists m, c = a +++ m /\ b = m +++ d) \/ (exists m, a = c +++ m /\ d = m +++ b).
Proof.
  revert c. induction a as [|x a IH]; intros c H.
  - left. exists c. split; [reflexivity|exact H].
  - destruct c as [|y c].
    + right. exists (String x a). split; [reflexivity|]. symmetry. exact H.
    + simpl in H. injection H as -> H.
      destruct (IH c H) as [[m [-> ->]]|[m [-> ->]]].
      * left. exists m. split; reflexivity.
      * right. exists m. split; reflexivity.
Qed.

Lemma has_char_append (c : ascii) (a b : string) :
  has_char c (a +++ String c b) = true.
Proof.
  induction a as [|x a IH]; simpl.
  - rewrite Ascii.eqb_refl. reflexivity.
  - rewrite IH. apply orb_true_r.
Qed.

Lemma shares_char_no (n p : string) (c : ascii) :
  shares_char n p = false -> has_char c n = true -> has_char c p = false.
Proof.
  induction n as [|x n IH]; simpl; [discriminate|].
  intros H Hc. apply orb_false_iff in H. destruct H as [Hx Hn].
  apply orb_true_iff in Hc. destruct Hc as [Hc|Hc].
  - apply Ascii.eqb_eq in Hc. subst x. exact Hx.
  - apply IH; assumption.
Qed.

Lemma contains_empty (s : string) : contains "" s = true.
Proof. apply contains_iff. exists "", s. reflexivity. Qed.

Lemma contains_suffix (sep c r : string) :
  contains sep (c +++ r) = false -> contains sep r = false.
Proof.
  intros H. destruct (contains sep r) eqn:E; [|reflexivity].
  apply contains_iff in E. destruct E as [p [q ->]].
  assert (T : contains sep (c +++ p +++ sep +++ q) = true).
  { apply contains_iff. exists (c +++ p), q. now rewrite !append_assoc. }
  congruence.
Qed.

(** An occurrence of [p] in a text cannot run over an inserted piece with
    which it shares no character: it lies before the piece or after
    it. *)
Lemma occurrence_avoids (p a n b : string) :
  n <> "" -> shares_char n p = false ->
  contains p (a +++ n +++ b) = true ->
  contains p a = true \/ contains p b = true.
Proof.
  intros Hne Hsh H. apply contains_iff in H. destruct H as [pre [post H]].
  destruct p as [|c0 p0] eqn:Ep; [left; apply contains_empty|]. rewrite <- Ep in *.
  assert (Hclash : forall c, has_char c n = true -> has_char c p = true -> False).
  { intros c Hn Hp. rewrite (shares_char_no n p c Hsh Hn) in Hp. discriminate Hp. }
  destruct (append_split _ _ _ _ H) as [[m [Hpre Hb]]|[m [Ha Hp]]].
  - (* the occurrence starts at or after the piece *)
    destruct (append_split _ _ _ _ Hb) as [[m' [Hm Hb']]|[m' [Hn Hp']]].
    + right. apply contains_iff. exists m', post. exact Hb'.
    + destruct m' as [|c m'].
      * right. apply contains_iff. exists "", post. symmetry. exact Hp'.
      * exfalso. rewrite Ep in Hp'. simpl in Hp'. injection Hp' as -> _.
        apply (Hclash c).
        -- rewrite Hn. apply has_char_append.
        -- rewrite Ep. simpl. rewrite Ascii.eqb_refl. reflexivity.
  - (* the occurrence starts before the piece *)
    destruct (append_split _ _ _ _ Hp) as [[m' [Hm Hpost]]|[m' [Hp' Hnb]]].
    + left. apply contains_iff. exists pre, m'. rewrite Ha, Hm. reflexivity.
    + destruct m' as [|c m'].
      * left. apply contains_iff. exists pre, "". rewrite Ha, Hp', !append_nil_r.
        rewrite append_nil_r in Hp'. subst m. reflexivity.
      * exfalso. destruct n as [|x n]; [congruence|].
        simpl in Hnb. injection Hnb as -> _.
        apply (Hclash c).
        -- simpl. rewrite Ascii.eqb_refl. reflexivity.
        -- rewrite Hp'. apply has_char_append.
Qed.

(** A replacement that shares no character with [p] creates no
    occurrence of [p]. *)
Lemma replace_keeps_absent (p old new : string) :
  new <> "" -> shares_char new p = false ->
  forall fuel s,
    contains p s = false -> contains p (replace_fuel fuel old new s) = false.
Proof.
  intros Hne Hsh. induction fuel as [|fuel IH]; intros s Hs; cbn [replace_fuel].
  - destruct (find old s) as [[b a]|] eqn:F; [|exact Hs].
    rewrite (find_cut _ _ _ _ F) in Hs.
    destruct (contains p (b +++ new +++ a)) eqn:E; [|reflexivity].
    destruct (occurrence_avoids p b new a Hne Hsh E) as [H|H].
    + rewrite (contains_prefix _ _ _ Hs) in H. discriminate H.
    + apply contains_suffix in Hs. apply contains_suffix in Hs.
      rewrite Hs in H. discriminate H.
  - destruct (find old s) as [[b a]|] eqn:F; [|exact Hs].
    rewrite (find_cut _ _ _ _ F) in Hs.
    destruct (contains p (b +++ new +++ replace_fuel fuel old new a)) eqn:E;
      [|reflexivity].
    destruct (occurrence_avoids p b new _ Hne Hsh E) as [H|H].
    + rewrite (contains_prefix _ _ _ Hs) in H. discriminate H.
    + apply contains_suffix in Hs. apply contains_suffix in Hs.
      rewrite (IH a Hs) in H. discriminate H.
Qed.

(** After [s.replace(old, new)] no occurrence of [old] is left, when the
    replacement is not empty and shares no character with [old]. *)
Lemma replace_removes (old new : string) :
  old <> "" -> new <> "" -> shares_char new old = false ->
  forall fuel s,
    (String.length s <= fuel)%nat ->
    contains old (replace_fuel fuel old new s) = false.
Proof.
  intros Ho Hne Hsh. induction fuel as [|fuel IH]; intros s Hl; cbn [replace_fuel].
  - destruct s; [|simpl in Hl; lia].
    destruct old; [congruence|]. reflexivity.
  - destruct (find old s) as [[b a]|] eqn:F.
    + assert (Hb : contains old b = false).
      { assert (Hbf := before_free old s Ho). unfold before in Hbf.
        rewrite F in Hbf. exact Hbf. }
      assert (Ha : (String.length a <= fuel)%nat).
      { assert (Hs := find_cut _ _ _ _ F).
        assert (Hlen : String.length s =
                       (String.length b + (String.length old + String.length a))%nat)
          by (rewrite Hs at 1; rewrite !length_append; reflexivity).
        destruct old; [congruence|]. simpl in Hlen. lia. }
      destruct (contains old (b +++ new +++ replace_fuel fuel old new a)) eqn:E;
        [|reflexivity].
      destruct (occurrence_avoids old b new _ Hne Hsh E) as [H|H].
      * rewrite Hb in H. discriminate H.
      * rewrite (IH a Ha) in H. discriminate H.
    + unfold contains. rewrite F. reflexivity.
Qed.

(** Without an occurrence nothing is replaced. *)
Lemma replace_absent (old new s : string) (fuel : nat) :
  contains old s = false -> replace_fuel fuel old new s = s.
Proof.
  unfold contains. destruct fuel; cbn [replace_fuel];
    destruct (find old s) as [[b a]|]; try discriminate; reflexivity.
Qed.

(** *** Counting and cutting characters *)

Lemma char_count_append (a b : string) :
  char_count (a +++ b) = (char_count a + char_count b)%nat.
Proof.
  induction a as [|c a IH]; simpl; [reflexivity|].
  destruct (is_continuation c); rewrite IH; reflexivity.
Qed.

Lemma char_count_take (n : nat) (s : string) :
  char_count (take_chars n s) = Nat.min n (char_count s).
Proof.
  revert n. induction s as [|c s IH]; intros n; simpl.
  - rewrite Nat.min_0_r. reflexivity.
  - destruct (is_continuation c) eqn:E; simpl.
    + rewrite E. apply IH.
    + destruct n as [|n]; [reflexivity|]. simpl. rewrite E, IH. reflexivity.
Qed.

(** A cut that is not shorter than the text leaves it whole. *)
Lemma take_chars_all (n : nat) (s : string) :
  (char_count s <= n)%nat -> take_chars n s = s.
Proof.
  revert n. induction s as [|c s IH]; intros n H; simpl in *; [reflexivity|].
  destruct (is_continuation c).
  - rewrite IH by exact H. reflexivity.
  - destruct n as [|n]; [lia|]. rewrite IH by lia. reflexivity.
Qed.

End TextFacts.

(* ================================================================== *)
(** ** More properties of the request layer *)
(* ================================================================== *)

Module RequestFacts.
Import Py Server ServerMore PyFacts ServerFacts.

Section Requests.
Variable environ_token : option string.
Variable http : trace -> string -> dict string -> dict string -> reply response.

(** A pass, whatever the transport does: one request, then a sleep when the
    loop goes on, which it does only before the last attempt of the
    budget. *)
Lemma attempt_once_shape target headers params retries attempt tr :
  exists o,
    attempt_once http target headers params retries attempt tr =
      (o, tr ++ HttpGet target headers params 60
               :: match o with
                  | Val Next => [Sleep (2 ^ attempt)]
                  | _ => []
                  end) /\
    o <> Diverge /\
    (o = Val Next -> attempt < retries - 1).
Proof.
  destruct (try_failure (http tr target headers params)) as [e|] eqn:Hf.
  - destruct (retryable e) eqn:He.
    + rewrite (attempt_once_fails http _ _ _ _ _ _ _ Hf He).
      destruct (attempt <? retries - 1) eqn:Hlt.
      * exists (Val Next). rewrite <- app_assoc.
        split; [reflexivity|]. split; [discriminate|].
        intros _. apply Z.ltb_lt. exact Hlt.
      * eexists (Val (Return _)). split; [reflexivity|].
        split; discriminate.
    + rewrite (attempt_once_raises http _ _ _ _ _ _ _ Hf He).
      exists (Exc e). split; [reflexivity|split; discriminate].
  - unfold try_failure in Hf.
    destruct (http tr target headers params) as [r|e0] eqn:Hh; [|discriminate Hf].
    destruct (terminal_message (status_code r)) as [msg|] eqn:Hm.
    + rewrite (attempt_once_terminal http _ _ _ _ _ _ _ _ Hh Hm).
      eexists (Val (Return _)). split; [reflexivity|split; discriminate].
    + destruct (raise_for_status r) as [[]|e1|] eqn:Hs; try discriminate Hf.
      * unfold response_json in Hf.
        destruct (content r) as [v|m|e1] eqn:Hc; try discriminate Hf.
        rewrite (attempt_once_success http _ _ _ _ _ _ _ _ Hh Hm Hs Hc).
        eexists (Val (Return _)). split; [reflexivity|split; discriminate].
      * unfold raise_for_status in Hs.
        destruct ((400 <=? status_code r) && (status_code r <? 500));
          [discriminate|].
        destruct ((500 <=? status_code r) && (status_code r <? 600));
          discriminate.
Qed.

(** The trace of the loop of attempts, whatever the transport does:
    requests separated by the sleeps 2^a, 2^(a+1), ..., and fewer sleeps
    than attempts left. *)
Lemma for_attempts_shape target headers params retries :
  forall m a tr,
    Z.of_nat (a + m) = retries -> (1 <= m)%nat ->
    exists j,
      (j < m)%nat /\
      snd (for_attempts http target headers params retries
             (map Z.of_nat (seq a m)) tr) =
        tr ++ failed_passes target headers params (map Z.of_nat (seq a j)) /\
      fst (for_attempts http target headers params retries
             (map Z.of_nat (seq a m)) tr) <> Diverge.
Proof.
  induction m as [|m IH]; intros a tr Hn Hm; [lia|].
  change (seq a (S m)) with (a :: seq (S a) m). rewrite map_cons, for_attempts_cons.
  destruct (attempt_once_shape target headers params retries (Z.of_nat a) tr)
    as [o [Hrun [Hd Hnext]]].
  rewrite Hrun. destruct o as [[v|]|e|]; simpl.
  - exists 0%nat. split; [lia|]. split; [reflexivity|discriminate].
  - specialize (Hnext eq_refl).
    destruct m as [|m']; [lia|].
    destruct (IH (S a) (tr ++ [HttpGet target headers params 60;
                               Sleep (2 ^ Z.of_nat a)]))
      as [j [Hj [Htr Hdv]]]; [lia|lia|].
    exists (S j). split; [lia|]. split; [|exact Hdv].
    rewrite Htr. unfold failed_passes. simpl. rewrite <- !app_assoc. reflexivity.
  - exists 0%nat. split; [lia|]. split; [reflexivity|discriminate].
  - congruence.
Qed.

Lemma total_app (a b : list Z) : total (a ++ b) = total a + total b.
Proof. unfold total. induction a as [|x a IH]; simpl; [reflexivity|]. rewrite IH. lia. Qed.

(** The delays 1, 2, 4, ... of [j] sleeps add up to 2^j - 1. *)
Lemma total_schedule (j : nat) :
  total (map (Z.pow 2) (map Z.of_nat (seq 0 j))) = 2 ^ Z.of_nat j - 1.
Proof.
  induction j as [|j IH]; [reflexivity|].
  rewrite seq_S, !map_app, total_app, IH. cbn [map total fold_right Nat.add].
  replace (Z.of_nat (S j)) with (Z.of_nat j + 1) by lia.
  rewrite Z.pow_add_r by lia. lia.
Qed.

Lemma make_api_request_shape endpoint params retries tr :
  1 <= retries ->
  exists j,
    (j < Z.to_nat retries)%nat /\
    snd (make_api_request environ_token http endpoint params retries tr) =
      tr ++ ApiCall endpoint params retries
            :: failed_passes (api_url endpoint) (request_headers environ_token)
                 params (map Z.of_nat (seq 0 j)) /\
    fst (make_api_request environ_token http endpoint params retries tr) <> Diverge.
Proof.
  intros Hn. unfold make_api_request, bind, emit, range.
  destruct (for_attempts_shape (api_url endpoint) (request_headers environ_token)
              params retries (Z.to_nat retries) 0
              (tr ++ [ApiCall endpoint params retries]))
    as [j [Hj [Htr Hd]]]; [lia|lia|].
  exists j. split; [exact Hj|]. split; [|exact Hd].
  rewrite Htr, <- app_assoc. reflexivity.
Qed.

Lemma api_calls_app (a b : trace) : api_calls (a ++ b) = api_calls a ++ api_calls b.
Proof. unfold api_calls. apply flat_map_app. Qed.

Lemma api_calls_failed_passes target headers params l :
  api_calls (failed_passes target headers params l) = [].
Proof.
  unfold failed_passes, api_calls. induction l as [|i l IH]; simpl; [reflexivity|exact IH].
Qed.

Lemma total_nonneg_schedule j : 0 <= 2 ^ Z.of_nat j - 1.
Proof. assert (0 < 2 ^ Z.of_nat j) by (apply Z.pow_pos_nonneg; lia). lia. Qed.

(** What one call adds to the history when the budget is the default of
    three: its mark, then at most three requests and at most three
    seconds of sleep. *)
Lemma make_api_request_three endpoint params tr :
  exists new,
    snd (make_api_request environ_token http endpoint params 3 tr) =
      tr ++ ApiCall endpoint params 3 :: new /\
    api_calls new = [] /\
    (1 <= gets_of new <= 3)%nat /\
    0 <= total (sleeps_of new) <= 3 /\
    fst (make_api_request environ_token http endpoint params 3 tr) <> Diverge.
Proof.
  destruct (make_api_request_shape endpoint params 3 tr) as [j [Hj [Htr Hd]]]; [lia|].
  eexists. split; [exact Htr|]. split; [apply api_calls_failed_passes|].
  rewrite gets_of_failed_passes, sleeps_of_failed_passes, length_map, length_seq,
    total_schedule.
  split; [simpl in Hj; lia|]. split; [|exact Hd].
  assert (H0 := total_nonneg_schedule j).
  assert (2 ^ Z.of_nat j <= 2 ^ 2) by (apply Z.pow_le_mono_r; simpl in Hj; lia).
  change (2 ^ 2) with 4 in H. lia.
Qed.

Lemma make_api_request_empty endpoint params retries tr :
  retries <= 0 ->
  make_api_request environ_token http endpoint params retries tr =
    (Val (error_dict "Maximum retries exceeded"),
     tr ++ [ApiCall endpoint params retries]).
Proof.
  intros Hn. unfold make_api_request, bind, emit, range.
  replace (Z.to_nat retries) with 0%nat by lia. reflexivity.
Qed.


(** X2. With a budget of [n >= 1] attempts and any transport, a request
    ends; it sends between 1 and [n] requests; the sleeps between them
    are 1, 2, 4, ... in that order, one fewer than the requests; and
    they add up to at most 2^(n-1) - 1. *)
Theorem backoff_schedule_bound endpoint params n tr :
  1 <= n ->
  exists j,
    (j < Z.to_nat n)%nat /\
    sleeps_of (snd (make_api_request environ_token http endpoint params n tr)) =
      sleeps_of tr ++ map (Z.pow 2) (map Z.of_nat (seq 0 j)) /\
    gets_of (snd (make_api_request environ_token http endpoint params n tr)) =
      (gets_of tr + S j)%nat /\
    total (sleeps_of (snd (make_api_request environ_token http endpoint params n tr)))
      = total (sleeps_of tr) + (2 ^ Z.of_nat j - 1) /\
    2 ^ Z.of_nat j - 1 <= 2 ^ (n - 1) - 1 /\
    fst (make_api_request environ_token http endpoint params n tr) <> Diverge.
Proof.
  intros Hn.
  destruct (make_api_request_shape endpoint params n tr Hn) as [j [Hj [Htr Hd]]].
  exists j. split; [exact Hj|]. rewrite Htr.
  assert (Hs : sleeps_of (tr ++ ApiCall endpoint params n
                 :: failed_passes (api_url endpoint) (request_headers environ_token)
                      params (map Z.of_nat (seq 0 j))) =
               sleeps_of tr ++ map (Z.pow 2) (map Z.of_nat (seq 0 j))).
  { rewrite sleeps_of_app. cbn [sleeps_of is_sleep].
    rewrite sleeps_of_failed_passes. reflexivity. }
  split; [exact Hs|]. split.
  - rewrite gets_of_app.
    change (ApiCall endpoint params n :: ?l) with ([ApiCall endpoint params n] ++ l).
    rewrite gets_of_app, gets_of_failed_passes, length_map, length_seq.
    unfold gets_of at 2. simpl. lia.
  - split; [rewrite Hs, total_app, total_schedule; reflexivity|].
    split; [|exact Hd].
    assert (2 ^ Z.of_nat j <= 2 ^ (n - 1)) by (apply Z.pow_le_mono_r; lia). lia.
Qed.

(** X3. Every request of a call goes to the same address, the base
    address followed by the endpoint, with the parameters given, a
    timeout of 60 and the same headers: JSON is asked for, and an
    [Authorization] header carries [Token] and the token exactly when the
    environment holds a non-empty one. *)
Theorem requests_are_uniform endpoint params retries tr :
  exists new,
    snd (make_api_request environ_token http endpoint params retries tr) =
      tr ++ ApiCall endpoint params retries :: new /\
    api_calls new = [] /\
    Forall (fun e => e = HttpGet (api_url endpoint) (request_headers environ_token)
                               params 60)
           (http_gets new) /\
    api_url endpoint =
      "https://www.courtlistener.com/api/rest/v4/" +++ endpoint +++ "/" /\
    dict_get "Accept" (request_headers environ_token) = Some "application/json" /\
    dict_get "Content-Type" (request_headers environ_token) = Some "application/json" /\
    dict_get "Authorization" (request_headers environ_token) =
      match environ_token with
      | Some token => if String.eqb token "" then None else Some ("Token " +++ token)
      | None => None
      end.
Proof.
  assert (Hheaders :
    dict_get "Accept" (request_headers environ_token) = Some "application/json" /\
    dict_get "Content-Type" (request_headers environ_token) = Some "application/json" /\
    dict_get "Authorization" (request_headers environ_token) =
      match environ_token with
      | Some token => if String.eqb token "" then None else Some ("Token " +++ token)
      | None => None
      end).
  { unfold request_headers, get_api_token.
    destruct environ_token as [token|]; [|repeat split].
    destruct (String.eqb token ""); repeat split. }
  assert (Hshape : forall l,
    api_calls (failed_passes (api_url endpoint) (request_headers environ_token)
                 params l) = [] /\
    Forall (fun e => e = HttpGet (api_url endpoint) (request_headers environ_token)
                               params 60)
           (http_gets (failed_passes (api_url endpoint)
                         (request_headers environ_token) params l))).
  { unfold failed_passes, http_gets. induction l as [|i l [IH1 IH2]]; simpl.
    - split; [reflexivity|]. constructor; [reflexivity|constructor].
    - split; [exact IH1|]. constructor; [reflexivity|exact IH2]. }
  destruct (Z_le_gt_dec retries 0) as [Hle|Hgt].
  - exists []. rewrite (make_api_request_empty endpoint params retries tr Hle).
    split; [reflexivity|]. split; [reflexivity|]. split; [constructor|].
    split; [reflexivity|exact Hheaders].
  - destruct (make_api_request_shape endpoint params retries tr) as [j [_ [Htr _]]];
      [lia|].
    eexists. split; [exact Htr|].
    destruct (Hshape (map Z.of_nat (seq 0 j))) as [H1 H2].
    split; [exact H1|]. split; [exact H2|]. split; [reflexivity|exact Hheaders].
Qed.

(** The loop of attempts over a transport that fails [k] more times and
    then answers with a decoded body. *)
Lemma for_attempts_recovers target headers params retries r v goal :
  status_code r < 400 \/ 600 <= status_code r ->
  content r = Json v ->
  (forall h u hd p, (gets_of h < goal)%nat ->
                    exists e, http h u hd p = Fails e /\ retryable e = true) ->
  (forall h u hd p, gets_of h = goal -> http h u hd p = Gives r) ->
  forall k a m tr,
    Z.of_nat (a + k) < retries ->
    (gets_of tr + k)%nat = goal ->
    for_attempts http target headers params retries
      (map Z.of_nat (seq a (S k + m))) tr =
    (Val v, tr ++ failed_passes target headers params (map Z.of_nat (seq a k))).
Proof.
  intros Hs Hc Hfail Hok.
  assert (Hm : terminal_message (status_code r) = None /\ raise_for_status r = Val tt).
  { split.
    - unfold terminal_message.
      destruct (Z.eqb_spec (status_code r) 429); [lia|].
      destruct (Z.eqb_spec (status_code r) 401); [lia|].
      destruct (Z.eqb_spec (status_code r) 404); [lia|]. reflexivity.
    - unfold raise_for_status.
      destruct (Z.leb_spec 400 (status_code r)), (Z.ltb_spec (status_code r) 500);
        simpl; try lia;
        destruct (Z.leb_spec 500 (status_code r)), (Z.ltb_spec (status_code r) 600);
        simpl; try lia; reflexivity. }
  destruct Hm as [Hm Hr].
  induction k as [|k IH]; intros a m tr Ha Hg.
  - change (seq a (1 + m)) with (a :: seq (S a) m). rewrite map_cons, for_attempts_cons.
    rewrite (attempt_once_success http _ _ _ _ _ _ r v
               (Hok tr target headers params ltac:(lia)) Hm Hr Hc).
    reflexivity.
  - change (seq a (S (S k) + m)) with (a :: seq (S a) (S k + m)).
    rewrite map_cons, for_attempts_cons.
    destruct (Hfail tr target headers params ltac:(lia)) as [e [Hh He]].
    assert (Hf : try_failure (http tr target headers params) = Some e)
      by (rewrite Hh; reflexivity).
    rewrite (attempt_once_fails http _ _ _ _ _ _ _ Hf He).
    replace (Z.of_nat a <? retries - 1) with true by (symmetry; apply Z.ltb_lt; lia).
    rewrite IH.
    + unfold failed_passes. simpl. rewrite <- !app_assoc. reflexivity.
    + lia.
    + rewrite !gets_of_app. unfold gets_of at 2 3. simpl. lia.
Qed.

(** X4. When the transport fails [k] times with request exceptions and
    then answers with a status outside 400..599 (a 2xx, say) and a JSON
    body, and the budget is larger than [k], the request returns the
    decoded body after exactly [k] sleeps (1, 2, ..., 2^(k-1)) and
    [k + 1] requests. *)
Theorem recovers_after_failures endpoint params retries tr k r v :
  Z.of_nat k < retries ->
  status_code r < 400 \/ 600 <= status_code r ->
  content r = Json v ->
  (forall h u hd p, (gets_of h < gets_of tr + k)%nat ->
                    exists e, http h u hd p = Fails e /\ retryable e = true) ->
  (forall h u hd p, gets_of h = (gets_of tr + k)%nat -> http h u hd p = Gives r) ->
  make_api_request environ_token http endpoint params retries tr =
    (Val v, tr ++ ApiCall endpoint params retries
               :: failed_passes (api_url endpoint) (request_headers environ_token)
                    params (map Z.of_nat (seq 0 k))) /\
  sleeps_of (snd (make_api_request environ_token http endpoint params retries tr)) =
    sleeps_of tr ++ map (Z.pow 2) (map Z.of_nat (seq 0 k)) /\
  gets_of (snd (make_api_request environ_token http endpoint params retries tr)) =
    (gets_of tr + S k)%nat.
Proof.
  intros Hk Hs Hc Hfail Hok.
  assert (Hrun : make_api_request environ_token http endpoint params retries tr =
    (Val v, tr ++ ApiCall endpoint params retries
               :: failed_passes (api_url endpoint) (request_headers environ_token)
                    params (map Z.of_nat (seq 0 k)))).
  { unfold make_api_request, bind, emit, range.
    replace (Z.to_nat retries) with (S k + (Z.to_nat retries - S k))%nat by lia.
    rewrite (for_attempts_recovers (api_url endpoint) (request_headers environ_token)
               params retries r v (gets_of tr + k) Hs Hc Hfail Hok).
    - rewrite <- app_assoc. reflexivity.
    - lia.
    - rewrite gets_of_app. unfold gets_of at 2. simpl. lia. }
  rewrite Hrun. split; [reflexivity|]. simpl snd.
  change (ApiCall endpoint params retries :: ?l)
    with ([ApiCall endpoint params retries] ++ l).
  rewrite !sleeps_of_app, !gets_of_app, sleeps_of_failed_passes,
    gets_of_failed_passes, length_map, length_seq.
  unfold gets_of at 2. simpl. split; [reflexivity|lia].
Qed.




End Requests.


(** The default budget of three attempts: at most two sleeps, three
    seconds in all. *)
Lemma backoff_schedule_bound_witness :
  1 <= 3 /\
  exists j,
    (j < 3)%nat /\
    sleeps_of (snd (make_api_request None (fails_then 1 (ok_response JNull))
                      "search" [] 3 [])) =
      map (Z.pow 2) (map Z.of_nat (seq 0 j)) /\
    2 ^ Z.of_nat j - 1 <= 3.
Proof.
  assert (H : 1 <= 3) by lia. split; [exact H|].
  destruct (backoff_schedule_bound None (fails_then 1 (ok_response JNull))
              "search" [] 3 [] H) as [j [Hj [Hs [_ [_ [Hb _]]]]]].
  exists j. split; [exact Hj|]. split; [exact Hs|exact Hb].
Defined.

(** Two timeouts, then an answer: the body comes back after the sleeps 1
    and 2 and three requests. *)
Lemma recovers_after_failures_witness :
  Z.of_nat 2 < 3 /\
  (status_code (ok_response (JDict [("count", JInt 0)])) < 400 \/
   600 <= status_code (ok_response (JDict [("count", JInt 0)]))) /\
  make_api_request None (fails_then 2 (ok_response (JDict [("count", JInt 0)])))
    "search" [] 3 [] =
    (Val (JDict [("count", JInt 0)]),
     [ApiCall "search" [] 3;
      HttpGet (api_url "search") (request_headers None) [] 60; Sleep 1;
      HttpGet (api_url "search") (request_headers None) [] 60; Sleep 2;
      HttpGet (api_url "search") (request_headers None) [] 60]).
Proof.
  assert (H1 : Z.of_nat 2 < 3) by (simpl; lia).
  assert (H2 : status_code (ok_response (JDict [("count", JInt 0)])) < 400 \/
               600 <= status_code (ok_response (JDict [("count", JInt 0)])))
    by (left; simpl; lia).
  assert (H4 : forall h u hd p, (gets_of h < gets_of [] + 2)%nat ->
             exists e, fails_then 2 (ok_response (JDict [("count", JInt 0)])) h u hd p
                       = Fails e /\ retryable e = true).
  { intros h u hd p Hlt. unfold fails_then.
    replace (Nat.ltb (gets_of h) 2) with true
      by (symmetry; apply Nat.ltb_lt; exact Hlt).
    eexists. split; reflexivity. }
  assert (H5 : forall h u hd p, gets_of h = (gets_of [] + 2)%nat ->
             fails_then 2 (ok_response (JDict [("count", JInt 0)])) h u hd p
             = Gives (ok_response (JDict [("count", JInt 0)]))).
  { intros h u hd p Heq. unfold fails_then. rewrite Heq. reflexivity. }
  split; [exact H1|]. split; [exact H2|].
  exact (proj1 (recovers_after_failures None
                  (fails_then 2 (ok_response (JDict [("count", JInt 0)])))
                  "search" [] 3 [] 2 (ok_response (JDict [("count", JInt 0)]))
                  (JDict [("count", JInt 0)]) H1 H2 eq_refl H4 H5)).
Defined.


Example forbidden_is_reported :
  fst (make_api_request None (answers forbidden) "search" [] 2 []) =
    Val (error_dict
           "API request failed after 2 attempts: 403 Client Error: Forbidden for url: https://www.courtlistener.com/api/rest/v4/search/").
Proof. reflexivity. Qed.

End RequestFacts.

(* ====================================================================== *)
(** ** More on the paginated search *)

Module PaginationFacts.
Import Py Server ServerMore PyFacts ServerFacts RequestFacts.

(** *** The parameters of a page *)

Lemma initial_params_cases search_type query cursor :
  initial_params search_type query cursor =
    (if String.eqb query "" then []
     else if existsb (String.eqb search_type) search_types
          then [(query_key search_type, query)] else [])
    ++ (if String.eqb cursor "" then [] else [("cursor", cursor)]).
Proof.
  unfold initial_params, query_key, search_types. cbn [existsb].
  destruct (String.eqb query ""); cbn [negb].
  - destruct (String.eqb cursor ""); reflexivity.
  - destruct (String.eqb_spec search_type "opinions") as [->|_].
    { destruct (String.eqb cursor ""); reflexivity. }
    destruct (String.eqb_spec search_type "dockets") as [->|_].
    { destruct (String.eqb cursor ""); reflexivity. }
    destruct (String.eqb_spec search_type "courts") as [->|_].
    { destruct (String.eqb cursor ""); reflexivity. }
    destruct (String.eqb_spec search_type "people") as [->|_].
    { destruct (String.eqb cursor ""); reflexivity. }
    destruct (String.eqb cursor ""); reflexivity.
Qed.

Lemma query_key_not_cursor search_type :
  String.eqb (query_key search_type) "cursor" = false.
Proof.
  unfold query_key.
  destruct (String.eqb search_type "opinions"); [reflexivity|].
  destruct (String.eqb search_type "dockets"); [reflexivity|].
  destruct (String.eqb search_type "courts"); reflexivity.
Qed.

(** Whatever cursor the parameters were built with, putting the held
    cursor in (or taking a stale one out) gives the parameters of a search
    started with the held cursor. *)
Lemma cursor_params_fresh search_type query c0 c results pages :
  cursor_params (mkState (initial_params search_type query c0) results c pages) =
  initial_params search_type query c.
Proof.
  unfold cursor_params. cbn [current_cursor params].
  rewrite !initial_params_cases.
  assert (K := query_key_not_cursor search_type).
  destruct (String.eqb query "");
    [|destruct (existsb (String.eqb search_type) search_types)];
    destruct (String.eqb c0 ""), (String.eqb c ""); cbn [negb app];
    unfold dict_has; cbn [dict_set dict_get dict_del]; rewrite ?K;
    cbn [dict_set dict_get dict_del]; reflexivity.
Qed.

Lemma initial_params_cursor search_type query cursor :
  dict_get "cursor" (initial_params search_type query cursor) =
    if String.eqb cursor "" then None else Some cursor.
Proof.
  rewrite initial_params_cases.
  assert (K := query_key_not_cursor search_type).
  destruct (String.eqb query "");
    [|destruct (existsb (String.eqb search_type) search_types)];
    destruct (String.eqb cursor ""); cbn [app dict_get]; rewrite ?K; reflexivity.
Qed.

Lemma initial_params_query search_type query cursor :
  In search_type search_types ->
  dict_get (query_key search_type) (initial_params search_type query cursor) =
    if String.eqb query "" then None else Some query.
Proof.
  intros Hin. rewrite initial_params_cases.
  assert (E : existsb (String.eqb search_type) search_types = true).
  { apply existsb_exists. exists search_type. split; [exact Hin|apply String.eqb_refl]. }
  rewrite E.
  assert (K : String.eqb "cursor" (query_key search_type) = false).
  { rewrite String.eqb_sym. apply query_key_not_cursor. }
  destruct (String.eqb query ""), (String.eqb cursor ""); cbn [app dict_get];
    rewrite ?K, ?String.eqb_refl; reflexivity.
Qed.

Lemma initial_params_no_empty search_type query cursor :
  no_empty_value (initial_params search_type query cursor).
Proof.
  rewrite initial_params_cases. intros k v Hin.
  apply in_app_or in Hin. destruct Hin as [Hin|Hin].
  - destruct (String.eqb_spec query "") as [|Hq]; [destruct Hin|].
    destruct (existsb (String.eqb search_type) search_types); [|destruct Hin].
    destruct Hin as [[= _ <-]|[]]. exact Hq.
  - destruct (String.eqb_spec cursor "") as [|Hc]; [destruct Hin|].
    destruct Hin as [[= _ <-]|[]]. exact Hc.
Qed.

Lemma initial_params_keys search_type query cursor :
  NoDup (keys (initial_params search_type query cursor)) /\
  incl (keys (initial_params search_type query cursor))
       [query_key search_type; "cursor"].
Proof.
  rewrite initial_params_cases. unfold keys.
  assert (K : query_key search_type <> "cursor").
  { intros E. assert (H := query_key_not_cursor search_type).
    rewrite E in H. discriminate H. }
  destruct (String.eqb query "");
    [|destruct (existsb (String.eqb search_type) search_types)];
    destruct (String.eqb cursor ""); cbn [app map fst]; split;
    try (intros k Hk; simpl in *; tauto);
    repeat constructor; simpl; intuition congruence.
Qed.

(** *** What a pass leaves behind *)

Lemma truthy_iter_nonempty (r : json) (items : list json) :
  truthy r = true -> py_iter r = Val items -> (1 <= List.length items)%nat.
Proof.
  destruct r as [| b | n | s | l | d]; simpl; try discriminate.
  - destruct s; [discriminate|]. intros _ [= <-]. simpl. lia.
  - destruct l; [discriminate|]. intros _ [= <-]. simpl. lia.
  - destruct d; [discriminate|]. intros _ [= <-]. simpl. lia.
Qed.

(** A pass that breaks out of the loop leaves the state as it was at the
    request, or with one non-empty page more. *)
Lemma digest_break_inv (st1 st' : page_state) (result : json) :
  digest_page st1 result = Val (StepBreak st') ->
  st' = st1 \/
  exists items, (1 <= List.length items)%nat /\
    st' = mkState (params st1) (all_results st1 ++ items) (current_cursor st1)
                  (pages_fetched st1 + 1).
Proof.
  destruct result as [| b | n | s | l | d].
  1-3: discriminate.
  - unfold digest_page. simpl. destruct (contains "error" s); simpl; [discriminate|].
    destruct (contains "results" s); simpl; [discriminate|].
    intros [= <-]. left. reflexivity.
  - unfold digest_page. simpl. destruct (existsb (is_str "error") l); simpl; [discriminate|].
    destruct (existsb (is_str "results") l); simpl; [discriminate|].
    intros [= <-]. left. reflexivity.
  - rewrite digest_dict.
    destruct (dict_get "error" d) as [v|]; [discriminate|].
    destruct (dict_get "results" d) as [r|]; [|intros [= <-]; left; reflexivity].
    destruct (truthy r) eqn:Tr; [|intros [= <-]; left; reflexivity].
    destruct (py_iter r) as [items| |] eqn:It; cbn [and_then]; [|discriminate|discriminate].
    assert (Hn := truthy_iter_nonempty r items Tr It).
    cbv zeta.
    destruct (truthy match dict_get "next" d with Some v => v | None => JNull end).
    + destruct (py_in "cursor=" match dict_get "next" d with Some v => v | None => JNull end)
        as [[|]| |]; cbn [and_then]; try discriminate.
      * destruct (cursor_of_next match dict_get "next" d with Some v => v | None => JNull end);
          cbn [and_then]; discriminate.
      * intros [= <-]. right. exists items. split; [exact Hn|reflexivity].
    + intros [= <-]. right. exists items. split; [exact Hn|reflexivity].
Qed.

(** A pass returns from the function only with the [error] field of the
    result. *)
Lemma digest_return_inv (st1 : page_state) (result v : json) :
  digest_page st1 result = Val (StepReturn v) -> field "error" result = Some v.
Proof.
  destruct result as [| b | n | s | l | d].
  1-3: discriminate.
  - unfold digest_page. simpl. destruct (contains "error" s); simpl; [discriminate|].
    destruct (contains "results" s); simpl; discriminate.
  - unfold digest_page. simpl. destruct (existsb (is_str "error") l); simpl; [discriminate|].
    destruct (existsb (is_str "results") l); simpl; discriminate.
  - rewrite digest_dict. simpl field.
    destruct (dict_get "error" d) as [e|]; [intros [= <-]; reflexivity|].
    destruct (dict_get "results" d) as [r|]; [|discriminate].
    destruct (truthy r); [|discriminate].
    destruct (py_iter r) as [items| |]; cbn [and_then]; [|discriminate|discriminate].
    cbv zeta.
    destruct (truthy match dict_get "next" d with Some v => v | None => JNull end);
      [|discriminate].
    destruct (py_in "cursor=" match dict_get "next" d with Some v => v | None => JNull end)
      as [[|]| |]; cbn [and_then]; try discriminate.
    destruct (cursor_of_next match dict_get "next" d with Some v => v | None => JNull end);
      cbn [and_then]; discriminate.
Qed.

(** The output of the listing starts with what was there before. *)
Lemma render_items_extends py_repr search_type items :
  forall i output s,
    render_items py_repr search_type i items output = Val s ->
    exists body, s = output +++ body.
Proof.
  induction items as [|item items IH]; intros i output s; cbn [render_items].
  - intros [= <-]. exists "". symmetry. apply append_nil_r.
  - assert (Hh : forall o1, item_heading py_repr search_type i item output = Val o1 ->
                 exists b, o1 = output +++ b).
    { intros o1. unfold item_heading.
      destruct (String.eqb search_type "opinions").
      { destruct (py_get item "cluster" (JDict [])) as [cl| |]; cbn [and_then];
          [|discriminate|discriminate].
        destruct (py_get cl "case_name" (JStr "Unknown Case")) as [nm| |]; cbn [and_then];
          [|discriminate|discriminate].
        intros [= <-]. eexists. reflexivity. }
      destruct (String.eqb search_type "dockets").
      { destruct (py_get item "case_name" (JStr "Unknown Case")) as [nm| |]; cbn [and_then];
          [|discriminate|discriminate].
        intros [= <-]. eexists. reflexivity. }
      destruct (String.eqb search_type "courts").
      { destruct (py_get item "full_name" (JStr "Unknown Court")) as [nm| |]; cbn [and_then];
          [|discriminate|discriminate].
        intros [= <-]. eexists. reflexivity. }
      destruct (String.eqb search_type "people").
      { destruct (py_get item "name_full" (JStr "Unknown Person")) as [nm| |]; cbn [and_then];
          [|discriminate|discriminate].
        intros [= <-]. eexists. reflexivity. }
      intros [= <-]. exists "". symmetry. apply append_nil_r. }
    destruct (item_heading py_repr search_type i item output) as [o1| |];
      cbn [and_then]; [|discriminate|discriminate].
    destruct (Hh o1 eq_refl) as [b1 ->].
    destruct (py_get item "absolute_url" JNull) as [link| |]; cbn [and_then];
      [|discriminate|discriminate].
    destruct (truthy link).
    + destruct (py_getitem item "absolute_url") as [u| |]; cbn [and_then];
        [|discriminate|discriminate].
      intros Hr. destruct (IH _ _ _ Hr) as [body ->].
      eexists. rewrite !append_assoc. reflexivity.
    + cbn [and_then]. intros Hr. destruct (IH _ _ _ Hr) as [body ->].
      eexists. rewrite !append_assoc. reflexivity.
Qed.

Section Search.
Variable environ_token : option string.
Variable http : trace -> string -> dict string -> dict string -> reply response.
Variable py_repr : json -> string.
Variable int_beyond : string -> option Z.

(** What the loop adds to the history and how it leaves the counters,
    from a state whose parameters were built for this search. *)
Lemma page_loop_run search_type query max :
  forall fuel st tr,
    (Z.to_nat (max - pages_fetched st) <= fuel)%nat ->
    (exists c0, params st = initial_params search_type query c0) ->
    0 <= pages_fetched st <= Z.of_nat (List.length (all_results st)) ->
    exists new,
      snd (page_loop environ_token http fuel search_type max st tr) = tr ++ new /\
      Forall (fun call => exists c,
                call = (search_type, initial_params search_type query c, 3))
             (api_calls new) /\
      (pages_fetched st < max ->
       exists rest, api_calls new =
         (search_type, initial_params search_type query (current_cursor st), 3)
           :: rest) /\
      (gets_of new <= 3 * List.length (api_calls new))%nat /\
      0 <= total (sleeps_of new) <= 3 * Z.of_nat (List.length (api_calls new)) /\
      (List.length (api_calls new) <= Z.to_nat (max - pages_fetched st))%nat /\
      match fst (page_loop environ_token http fuel search_type max st tr) with
      | Val (LoopDone st') =>
          pages_fetched st <= pages_fetched st' /\
          pages_fetched st' <= Z.max max (pages_fetched st) /\
          pages_fetched st' <= Z.of_nat (List.length (all_results st')) /\
          (exists more, all_results st' = all_results st ++ more) /\
          pages_fetched st' - pages_fetched st
            <= Z.of_nat (List.length (api_calls new))
            <= pages_fetched st' - pages_fetched st + 1 /\
          (pages_fetched st' = pages_fetched st ->
           all_results st' = all_results st)
      | Val (Returned _) => True
      | Exc _ => True
      | Diverge => False
      end.
Proof.
  assert (Hstay : forall st tr,
    max <= pages_fetched st ->
    0 <= pages_fetched st <= Z.of_nat (List.length (all_results st)) ->
    forall fuel, exists new,
      snd (page_loop environ_token http fuel search_type max st tr) = tr ++ new /\
      Forall (fun call => exists c,
                call = (search_type, initial_params search_type query c, 3))
             (api_calls new) /\
      (pages_fetched st < max ->
       exists rest, api_calls new =
         (search_type, initial_params search_type query (current_cursor st), 3)
           :: rest) /\
      (gets_of new <= 3 * List.length (api_calls new))%nat /\
      0 <= total (sleeps_of new) <= 3 * Z.of_nat (List.length (api_calls new)) /\
      (List.length (api_calls new) <= Z.to_nat (max - pages_fetched st))%nat /\
      match fst (page_loop environ_token http fuel search_type max st tr) with
      | Val (LoopDone st') =>
          pages_fetched st <= pages_fetched st' /\
          pages_fetched st' <= Z.max max (pages_fetched st) /\
          pages_fetched st' <= Z.of_nat (List.length (all_results st')) /\
          (exists more, all_results st' = all_results st ++ more) /\
          pages_fetched st' - pages_fetched st
            <= Z.of_nat (List.length (api_calls new))
            <= pages_fetched st' - pages_fetched st + 1 /\
          (pages_fetched st' = pages_fetched st ->
           all_results st' = all_results st)
      | Val (Returned _) => True
      | Exc _ => True
      | Diverge => False
      end).
  { intros st tr Hge Hpf fuel. exists [].
    rewrite (page_loop_over environ_token http fuel search_type max st tr Hge).
    cbn [fst snd]. rewrite app_nil_r.
    unfold gets_of, api_calls, total. cbn [flat_map filter sleeps_of fold_right List.length].
    split; [reflexivity|]. split; [constructor|]. split; [intros; lia|].
    split; [lia|]. split; [lia|]. split; [lia|].
    split; [lia|]. split; [lia|]. split; [lia|].
    split; [exists []; rewrite app_nil_r; reflexivity|].
    split; [lia|intros _; reflexivity]. }
  induction fuel as [|fuel IH]; intros st tr Hfuel Hparams Hpf.
  - apply Hstay; [lia|exact Hpf].
  - destruct (Z.lt_ge_cases (pages_fetched st) max) as [Hlt|Hge];
      [|apply Hstay; [lia|exact Hpf]].
    rewrite page_loop_turn by exact Hlt.
    destruct Hparams as [c0 Hparams].
    assert (Hcp : cursor_params st = initial_params search_type query (current_cursor st)).
    { destruct st as [p a c n]. cbn [params] in Hparams. subst p.
      apply cursor_params_fresh. }
    destruct (make_api_request_three environ_token http search_type (cursor_params st) tr)
      as [one [Htr [Hcalls [Hgets [Hsleep Hd]]]]].
    destruct (make_api_request environ_token http search_type (cursor_params st) 3 tr)
      as [[result|e|] tr'] eqn:Hreq; cbn [fst snd] in Htr, Hd; [| |congruence].
    2:{ exists (ApiCall search_type (cursor_params st) 3 :: one). cbn [fst snd].
        split; [exact Htr|].
        change (ApiCall search_type (cursor_params st) 3 :: one)
          with ([ApiCall search_type (cursor_params st) 3] ++ one).
        rewrite api_calls_app, Hcalls, gets_of_app, sleeps_of_app, Hcp.
        cbn [api_calls flat_map app List.length sleeps_of is_sleep]. unfold gets_of at 1.
        cbn [filter is_get List.length].
        split; [constructor; [eexists; reflexivity|constructor]|].
        split; [intros _; eexists; reflexivity|].
        split; [lia|]. split; [lia|]. split; [lia|exact I]. }
    assert (Hone : forall tail,
      api_calls ((ApiCall search_type (cursor_params st) 3 :: one) ++ tail) =
        (search_type, initial_params search_type query (current_cursor st), 3)
          :: api_calls tail).
    { intros tail.
      change (ApiCall search_type (cursor_params st) 3 :: one)
        with ([ApiCall search_type (cursor_params st) 3] ++ one).
      rewrite !api_calls_app, Hcalls, Hcp. reflexivity. }
    assert (Hg1 : forall tail,
      gets_of ((ApiCall search_type (cursor_params st) 3 :: one) ++ tail) =
        (gets_of one + gets_of tail)%nat).
    { intros tail.
      change (ApiCall search_type (cursor_params st) 3 :: one)
        with ([ApiCall search_type (cursor_params st) 3] ++ one).
      rewrite !gets_of_app. unfold gets_of at 1. reflexivity. }
    assert (Hs1 : forall tail,
      total (sleeps_of ((ApiCall search_type (cursor_params st) 3 :: one) ++ tail)) =
        total (sleeps_of one) + total (sleeps_of tail)).
    { intros tail.
      change (ApiCall search_type (cursor_params st) 3 :: one)
        with ([ApiCall search_type (cursor_params st) 3] ++ one).
      rewrite !sleeps_of_app, !total_app. reflexivity. }
    assert (Hstop : forall o,
      match o with
      | Val (LoopDone st') =>
          st' = enter_page st \/
          exists items, (1 <= List.length items)%nat /\
            st' = mkState (params (enter_page st)) (all_results st ++ items)
                          (current_cursor st) (pages_fetched st + 1)
      | Diverge => False
      | _ => True
      end ->
      exists new,
        snd (o, tr') = tr ++ new /\
        Forall (fun call => exists c,
                  call = (search_type, initial_params search_type query c, 3))
               (api_calls new) /\
        (pages_fetched st < max ->
         exists rest, api_calls new =
           (search_type, initial_params search_type query (current_cursor st), 3)
             :: rest) /\
        (gets_of new <= 3 * List.length (api_calls new))%nat /\
        0 <= total (sleeps_of new) <= 3 * Z.of_nat (List.length (api_calls new)) /\
        (List.length (api_calls new) <= Z.to_nat (max - pages_fetched st))%nat /\
        match fst (o, tr') with
        | Val (LoopDone st') =>
            pages_fetched st <= pages_fetched st' /\
            pages_fetched st' <= Z.max max (pages_fetched st) /\
            pages_fetched st' <= Z.of_nat (List.length (all_results st')) /\
            (exists more, all_results st' = all_results st ++ more) /\
            pages_fetched st' - pages_fetched st
              <= Z.of_nat (List.length (api_calls new))
              <= pages_fetched st' - pages_fetched st + 1 /\
            (pages_fetched st' = pages_fetched st ->
             all_results st' = all_results st)
        | Val (Returned _) => True
        | Exc _ => True
        | Diverge => False
        end).
    { intros o Ho. exists ((ApiCall search_type (cursor_params st) 3 :: one) ++ []).
      cbn [fst snd]. rewrite Hone, Hg1, Hs1, app_nil_r.
      split; [exact Htr|].
      split; [constructor; [eexists; reflexivity|constructor]|].
      split; [intros _; eexists; reflexivity|].
      cbn [api_calls flat_map List.length sleeps_of total fold_right].
      unfold gets_of at 2. cbn [filter List.length].
      split; [lia|]. split; [lia|]. split; [lia|].
      destruct o as [[v|st']|e|]; [exact I| |exact I|exact Ho].
      destruct Ho as [->|[items [Hn ->]]]; cbn [enter_page pages_fetched all_results].
      - split; [lia|]. split; [lia|]. split; [lia|].
        split; [exists []; rewrite app_nil_r; reflexivity|].
        split; [lia|intros _; reflexivity].
      - rewrite length_app.
        split; [lia|]. split; [lia|]. split; [lia|].
        split; [exists items; reflexivity|]. split; [lia|intros; lia]. }
    destruct (digest_page (enter_page st) result) as [[v|st'|st']|e|] eqn:Dg.
    + apply (Hstop (Val (Returned v))). exact I.
    + apply (Hstop (Val (LoopDone st'))).
      destruct (digest_break_inv _ _ _ Dg) as [->|[items [Hn ->]]];
        [left; reflexivity|right; exists items; split; [exact Hn|reflexivity]].
    + destruct (digest_again_inv _ _ _ Dg)
        as [r [s [c [_ [Tr [_ [_ [_ [_ [items [It ->]]]]]]]]]]].
      assert (Hn := truthy_iter_nonempty r items Tr It).
      cbn [enter_page params all_results pages_fetched].
      destruct (IH (mkState (cursor_params st) (all_results st ++ items) c
                            (pages_fetched st + 1)) tr')
        as [new [Hsn [Hall [_ [Hg [Hsl [Hlen Hend]]]]]]].
      { cbn [pages_fetched]. lia. }
      { exists (current_cursor st). cbn [params]. exact Hcp. }
      { cbn [pages_fetched all_results]. rewrite length_app. lia. }
      cbn [pages_fetched all_results current_cursor] in *.
      exists ((ApiCall search_type (cursor_params st) 3 :: one) ++ new).
      rewrite Hone, Hg1, Hs1.
      split; [rewrite Hsn, Htr, <- app_assoc; reflexivity|].
      split; [constructor; [eexists; reflexivity|exact Hall]|].
      split; [intros _; eexists; reflexivity|].
      cbn [List.length].
      split; [lia|]. split; [lia|]. split; [lia|].
      destruct (fst (page_loop environ_token http fuel search_type max
                       (mkState (cursor_params st) (all_results st ++ items) c
                                (pages_fetched st + 1)) tr'))
        as [[v|st']|e|]; [exact I| |exact I|exact Hend].
      destruct Hend as [H1 [H2 [H3 [[more H4] [H5 _]]]]].
      split; [lia|]. split; [lia|]. split; [lia|].
      split; [exists (items ++ more); rewrite H4, app_assoc; reflexivity|].
      split; [lia|intros; lia].
    + apply (Hstop (Exc e)). exact I.
    + exfalso. exact (digest_no_diverge _ _ Dg).
Qed.

(** When the loop makes the function return, the value is the [error]
    field of what the last request gave, and nothing follows that
    request. *)
Lemma page_loop_returned search_type query max :
  forall fuel st tr v tr',
    (exists c0, params st = initial_params search_type query c0) ->
    page_loop environ_token http fuel search_type max st tr = (Val (Returned v), tr') ->
    exists c before result,
      make_api_request environ_token http search_type
        (initial_params search_type query c) 3 before = (Val result, tr') /\
      field "error" result = Some v.
Proof.
  induction fuel as [|fuel IH]; intros st tr v tr' Hparams Hrun.
  - cbn [page_loop] in Hrun. destruct (pages_fetched st <? max); discriminate Hrun.
  - destruct (Z.lt_ge_cases (pages_fetched st) max) as [Hlt|Hge];
      [|rewrite page_loop_over in Hrun by exact Hge; discriminate Hrun].
    rewrite page_loop_turn in Hrun by exact Hlt.
    destruct Hparams as [c0 Hparams].
    assert (Hcp : cursor_params st = initial_params search_type query (current_cursor st)).
    { destruct st as [p a c n]. cbn [params] in Hparams. subst p.
      apply cursor_params_fresh. }
    destruct (make_api_request environ_token http search_type (cursor_params st) 3 tr)
      as [[result|e|] tr1] eqn:Hreq; try discriminate Hrun.
    destruct (digest_page (enter_page st) result) as [[w|st'|st']|e|] eqn:Dg;
      try discriminate Hrun.
    + injection Hrun as <- <-.
      exists (current_cursor st), tr, result. rewrite <- Hcp.
      split; [exact Hreq|exact (digest_return_inv _ _ _ Dg)].
    + apply (IH st' tr1 v tr'); [|exact Hrun].
      destruct (digest_again_inv _ _ _ Dg)
        as [r [s [c [_ [_ [_ [_ [_ [_ [items [_ ->]]]]]]]]]]].
      exists (current_cursor st). cbn [params enter_page]. exact Hcp.
Qed.

(** A search type other than the four known ones is refused with a
    fixed message before anything is requested. *)
Lemma unknown_type_refused search_type query cursor max_pages tr :
  ~ In search_type search_types ->
  search_with_pagination environ_token http py_repr int_beyond search_type query cursor
    max_pages tr =
  (Val (JStr "Error: search_type must be one of: opinions, dockets, courts, people"),
   tr).
Proof.
  intros Hnot. unfold search_with_pagination.
  destruct (existsb (String.eqb search_type) search_types) eqn:E.
  - exfalso. apply Hnot. apply known_search_type. exact E.
  - reflexivity.
Qed.

(** When [max_pages] reads as an integer that is zero or negative the
    loop is not entered: nothing is requested and the search reports that
    nothing was found. *)
Lemma no_page_no_request search_type query cursor max_pages n tr :
  In search_type search_types ->
  py_int int_beyond max_pages = Val n ->
  n <= 0 ->
  search_with_pagination environ_token http py_repr int_beyond search_type query cursor
    max_pages tr =
  (Val (JStr ("No " +++ search_type +++ " found")), tr).
Proof.
  intros Hin Hn Hle. rewrite (search_run _ _ _ _ _ _ _ _ _ Hin), Hn. cbv zeta.
  rewrite page_loop_over by (cbn [pages_fetched]; lia). reflexivity.
Qed.

(** X6. The searches that request nothing.  A search type other than
    the four known ones is refused with a fixed message; and with a known
    type, a [max_pages] that reads as an integer that is zero or negative
    keeps the loop from being entered, so that the search reports that
    nothing was found.  In both cases the history is left as it was. *)
Theorem search_without_request search_type query cursor max_pages tr :
  (~ In search_type search_types ->
   search_with_pagination environ_token http py_repr int_beyond search_type query cursor
     max_pages tr =
   (Val (JStr "Error: search_type must be one of: opinions, dockets, courts, people"),
    tr)) /\
  (forall n,
      In search_type search_types ->
      py_int int_beyond max_pages = Val n ->
      n <= 0 ->
      search_with_pagination environ_token http py_repr int_beyond search_type query cursor
        max_pages tr =
      (Val (JStr ("No " +++ search_type +++ " found")), tr)).
Proof.
  split.
  - apply unknown_type_refused.
  - intros n. apply no_page_no_request.
Qed.

(** X7. Every call of the request function made by a search goes to the
    endpoint named by the search type, with the default budget of three
    attempts, and with the parameters a search started at the cursor then
    held would send first; the first call is made with the cursor given.
    In those parameters the query, when there is one, stands under the
    key of the search type on every page, the cursor is present exactly
    when it is not empty, no value is empty and no key is repeated. *)
Theorem pages_request_like_fresh_search search_type query cursor max_pages tr :
  exists new,
    snd (search_with_pagination environ_token http py_repr int_beyond search_type query
           cursor max_pages tr) = tr ++ new /\
    Forall (fun call =>
              exists c,
                call = (search_type, initial_params search_type query c, 3) /\
                dict_get "cursor" (initial_params search_type query c) =
                  (if String.eqb c "" then None else Some c) /\
                dict_get (query_key search_type) (initial_params search_type query c) =
                  (if String.eqb query "" then None else Some query) /\
                no_empty_value (initial_params search_type query c) /\
                NoDup (keys (initial_params search_type query c)))
           (api_calls new) /\
    match api_calls new with
    | [] => True
    | first :: _ => first = (search_type, initial_params search_type query cursor, 3)
    end.
Proof.
  destruct (existsb (String.eqb search_type) search_types) eqn:E.
  2:{ exists []. unfold search_with_pagination. rewrite E. cbn [negb snd ret].
      rewrite app_nil_r. split; [reflexivity|]. split; [constructor|exact I]. }
  apply known_search_type in E. rewrite (search_run _ _ _ _ _ _ _ _ _ E). cbv zeta.
  set (c := match py_int int_beyond max_pages with Val n => Z.min n 10 | _ => 3 end).
  set (st0 := mkState (initial_params search_type query cursor) [] cursor 0).
  destruct (page_loop_run search_type query c (Z.to_nat c) st0 tr)
    as [new [Hsn [Hall [Hfirst [_ [_ [Hlen _]]]]]]].
  { unfold st0. cbn [pages_fetched]. lia. }
  { exists cursor. reflexivity. }
  { unfold st0. cbn [pages_fetched all_results List.length]. lia. }
  exists new. split.
  { destruct (page_loop environ_token http (Z.to_nat c) search_type c st0 tr)
      as [[ex|e|] tr']; exact Hsn. }
  split.
  - eapply Forall_impl; [|exact Hall]. intros call [c1 ->]. exists c1.
    split; [reflexivity|]. split; [apply initial_params_cursor|].
    split; [apply initial_params_query; exact E|].
    split; [apply initial_params_no_empty|apply initial_params_keys].
  - destruct (Z.lt_ge_cases 0 c) as [Hpos|Hle].
    + destruct (Hfirst Hpos) as [rest ->]. reflexivity.
    + destruct (api_calls new) as [|first rest] eqn:Ec; [exact I|].
      exfalso. unfold st0 in Hlen. cbn [pages_fetched List.length] in Hlen. lia.
Qed.

(** X8. What a search can return.  It is the refusal of an unknown type;
    or the [error] field of the result of its last request; or, after at
    most one request, the report that nothing was found; or a text that
    starts with the header of [n] items over [p] pages, where [p] is at
    least 1, at most the ceiling (itself at most 10) and at most [n], and
    where [p] or [p + 1] requests were made. *)
Theorem search_result_shapes search_type query cursor max_pages tr v tr' :
  search_with_pagination environ_token http py_repr int_beyond search_type query cursor
    max_pages tr = (Val v, tr') ->
  exists new,
    tr' = tr ++ new /\
    ((v = JStr "Error: search_type must be one of: opinions, dockets, courts, people"
      /\ new = []) \/
     (exists c before result,
        make_api_request environ_token http search_type
          (initial_params search_type query c) 3 before = (Val result, tr') /\
        field "error" result = Some v) \/
     (v = JStr ("No " +++ search_type +++ " found") /\
      (List.length (api_calls new) <= 1)%nat) \/
     (exists n p body ceiling,
        v = JStr (("Found " +++ str_of_int (Z.of_nat n) +++ " " +++ search_type
                   +++ " across " +++ str_of_int p +++ " pages:" +++ nl +++ nl)
                  +++ body) /\
        page_ceiling int_beyond max_pages = Val ceiling /\
        1 <= p <= ceiling /\ ceiling <= 10 /\ p <= Z.of_nat n /\
        p <= Z.of_nat (List.length (api_calls new)) <= p + 1)).
Proof.
  intros Hrun.
  destruct (existsb (String.eqb search_type) search_types) eqn:E.
  2:{ exists []. unfold search_with_pagination in Hrun. rewrite E in Hrun.
      cbn [negb ret] in Hrun. injection Hrun as <- <-.
      rewrite app_nil_r. split; [reflexivity|]. left. split; reflexivity. }
  apply known_search_type in E. rewrite (search_run _ _ _ _ _ _ _ _ _ E) in Hrun.
  cbv zeta in Hrun.
  assert (Hc10 := page_ceiling_le_10 int_beyond max_pages).
  assert (Hcv := page_ceiling_value int_beyond max_pages).
  set (c := match py_int int_beyond max_pages with Val n => Z.min n 10 | _ => 3 end) in *.
  set (st0 := mkState (initial_params search_type query cursor) [] cursor 0) in *.
  destruct (page_loop_run search_type query c (Z.to_nat c) st0 tr)
    as [new [Hsn [_ [_ [_ [_ [_ Hend]]]]]]].
  { unfold st0. cbn [pages_fetched]. lia. }
  { exists cursor. reflexivity. }
  { unfold st0. cbn [pages_fetched all_results List.length]. lia. }
  destruct (page_loop environ_token http (Z.to_nat c) search_type c st0 tr)
    as [[[w|st']|e|] tr1] eqn:Hloop; cbn [fst snd] in Hsn, Hend;
    try discriminate Hrun.
  - cbn [finish] in Hrun. injection Hrun as <- <-.
    exists new. split; [exact Hsn|]. right. left.
    apply (page_loop_returned search_type query c (Z.to_nat c) st0 tr w tr1);
      [exists cursor; reflexivity|exact Hloop].
  - destruct Hend as [H1 [H2 [H3 [_ [H5 H6]]]]].
    unfold st0 in H1, H2, H5, H6. cbn [pages_fetched all_results] in H1, H2, H5, H6.
    cbn [finish] in Hrun.
    destruct (all_results st') as [|item items] eqn:Ea.
    + injection Hrun as <- <-. exists new. split; [exact Hsn|].
      right. right. left. split; [reflexivity|]. cbn [List.length] in H3. lia.
    + destruct (render_items py_repr search_type 1 (item :: items)
                  (found_header (List.length (item :: items)) search_type
                                (pages_fetched st'))) as [s| |] eqn:Er;
        cbn [and_then] in Hrun; try discriminate Hrun.
      injection Hrun as <- <-.
      destruct (render_items_extends _ _ _ _ _ _ Er) as [body ->].
      exists new. split; [exact Hsn|]. right. right. right.
      exists (List.length (item :: items)), (pages_fetched st'), body, c.
      split; [reflexivity|]. split; [exact Hcv|].
      assert (Hp : 1 <= pages_fetched st').
      { destruct (Z.lt_ge_cases 0 (pages_fetched st')) as [|Hz]; [lia|].
        exfalso. assert (Hpz : pages_fetched st' = 0) by lia.
        specialize (H6 Hpz). discriminate H6. }
      split; [lia|]. split; [exact Hc10|]. split; [exact H3|lia].
Qed.

(** X9. One search sends at most three requests per page of its
    ceiling, hence at most 30 in all, and sleeps at most three seconds
    per page, hence at most 30 seconds. *)
Theorem search_http_budget search_type query cursor max_pages tr :
  exists new ceiling,
    snd (search_with_pagination environ_token http py_repr int_beyond search_type query
           cursor max_pages tr) = tr ++ new /\
    page_ceiling int_beyond max_pages = Val ceiling /\
    (gets_of new <= 3 * Z.to_nat ceiling)%nat /\
    (gets_of new <= 30)%nat /\
    0 <= total (sleeps_of new) <= 3 * Z.max 0 ceiling /\
    total (sleeps_of new) <= 30.
Proof.
  assert (Hc10 := page_ceiling_le_10 int_beyond max_pages).
  assert (Hcv := page_ceiling_value int_beyond max_pages).
  destruct (existsb (String.eqb search_type) search_types) eqn:E.
  2:{ exists [], match py_int int_beyond max_pages with Val n => Z.min n 10 | _ => 3 end.
      unfold search_with_pagination. rewrite E. cbn [negb snd ret].
      rewrite app_nil_r. unfold gets_of, total.
      cbn [filter sleeps_of fold_right List.length].
      split; [reflexivity|]. split; [exact Hcv|]. lia. }
  apply known_search_type in E. rewrite (search_run _ _ _ _ _ _ _ _ _ E). cbv zeta.
  set (c := match py_int int_beyond max_pages with Val n => Z.min n 10 | _ => 3 end) in *.
  set (st0 := mkState (initial_params search_type query cursor) [] cursor 0).
  destruct (page_loop_run search_type query c (Z.to_nat c) st0 tr)
    as [new [Hsn [_ [_ [Hg [Hs [Hlen _]]]]]]].
  { unfold st0. cbn [pages_fetched]. lia. }
  { exists cursor. reflexivity. }
  { unfold st0. cbn [pages_fetched all_results List.length]. lia. }
  unfold st0 in Hlen. cbn [pages_fetched] in Hlen.
  exists new, c. split.
  { destruct (page_loop environ_token http (Z.to_nat c) search_type c st0 tr)
      as [[ex|e|] tr']; exact Hsn. }
  split; [exact Hcv|]. lia.
Qed.

End Search.

(** A type in the singular is not one of the four; and a ceiling of
    minus two pages. *)
Lemma search_without_request_witness :
  ~ In "opinion" search_types /\
  search_with_pagination None always_timeout blank_repr plain_only "opinion" "privacy" "" "3" [] =
    (Val (JStr "Error: search_type must be one of: opinions, dockets, courts, people"),
     []) /\
  In "courts" search_types /\ py_int plain_only "-2" = Val (-2) /\ -2 <= 0 /\
  search_with_pagination None always_timeout blank_repr plain_only "courts" "appeals" "" "-2" [] =
    (Val (JStr "No courts found"), []).
Proof.
  assert (H : ~ In "opinion" search_types).
  { simpl. intros [H|[H|[H|[H|[]]]]]; discriminate H. }
  assert (H1 : In "courts" search_types) by (simpl; auto).
  assert (H2 : py_int plain_only "-2" = Val (-2)) by reflexivity.
  assert (H3 : -2 <= 0) by lia.
  split; [exact H|]. split.
  - exact (proj1 (search_without_request None always_timeout blank_repr plain_only
                    "opinion" "privacy" "" "3" []) H).
  - split; [exact H1|]. split; [exact H2|]. split; [exact H3|].
    exact (proj2 (search_without_request None always_timeout blank_repr plain_only
                    "courts" "appeals" "" "-2" []) (-2) H1 H2 H3).
Defined.

(** Two pages of the source of three. *)
Lemma search_result_shapes_witness :
  exists v tr',
    two_court_pages = (Val v, tr') /\
    exists new,
      tr' = [] ++ new /\
      ((v = JStr "Error: search_type must be one of: opinions, dockets, courts, people"
        /\ new = []) \/
       (exists c before result,
          make_api_request None three_pages "courts" (initial_params "courts" "" c) 3
            before = (Val result, tr') /\
          field "error" result = Some v) \/
       (v = JStr ("No " +++ "courts" +++ " found") /\
        (List.length (api_calls new) <= 1)%nat) \/
       (exists n p body ceiling,
          v = JStr (("Found " +++ str_of_int (Z.of_nat n) +++ " " +++ "courts"
                     +++ " across " +++ str_of_int p +++ " pages:" +++ nl +++ nl)
                    +++ body) /\
          page_ceiling plain_only "2" = Val ceiling /\
          1 <= p <= ceiling /\ ceiling <= 10 /\ p <= Z.of_nat n /\
          p <= Z.of_nat (List.length (api_calls new)) <= p + 1)).
Proof.
  eexists. eexists. split; [vm_compute; reflexivity|].
  apply (search_result_shapes None three_pages blank_repr plain_only "courts" "" "" "2" []).
  vm_compute. reflexivity.
Defined.

End PaginationFacts.

(* ====================================================================== *)
(** ** The tools *)

Module ToolFacts.
Import Py PyText Server ServerMore Tools PyFacts TextFacts ServerFacts RequestFacts.

(** *** Nothing here loops *)

Lemma py_len_total (v : json) : py_len v <> Diverge.
Proof. destruct v; discriminate. Qed.

Lemma py_slice_to_total (v : json) (n : Z) : py_slice_to v n <> Diverge.
Proof. destruct v; discriminate. Qed.

Lemma py_join_total (sep : string) (l : list json) : py_join sep l <> Diverge.
Proof. unfold py_join. destruct (all_str l); discriminate. Qed.

Lemma py_replace_total (v : json) (old new : string) : py_replace v old new <> Diverge.
Proof. destruct v; discriminate. Qed.

Lemma py_first_total (v : json) : py_first v <> Diverge.
Proof. destruct v as [| | |s|l|d]; try discriminate; [destruct s|destruct l]; discriminate. Qed.

Lemma py_add_str_total (v : json) (s : string) : py_add_str v s <> Diverge.
Proof. destruct v; discriminate. Qed.

Lemma each_total {A B} (f : A -> outcome B) (l : list A) :
  (forall x, f x <> Diverge) -> each f l <> Diverge.
Proof.
  intros Hf. induction l as [|x l IH]; cbn [each]; [discriminate|].
  apply and_then_total; [apply Hf|intros y].
  apply and_then_total; [exact IH|discriminate].
Qed.

Lemma shown_total (int_beyond : string -> option Z) (limit : string)
    (result : json) :
  shown int_beyond limit result <> Diverge.
Proof.
  unfold shown.
  destruct (py_int_cases int_beyond limit) as [[n ->]| ->].
  - apply and_then_total; [auto with total|intros r].
    apply and_then_total; [apply py_len_total|discriminate].
  - apply and_then_total; [auto with total|intros r]. apply py_len_total.
Qed.

#[export] Hint Resolve py_len_total py_slice_to_total py_join_total py_replace_total
  py_first_total py_add_str_total shown_total : total.

Section Lookup.
Variable environ_token : option string.
Variable http : trace -> string -> dict string -> dict string -> reply response.
Variable py_repr : json -> string.
Variable int_beyond : string -> option Z.

Lemma cite_of_total (cite : json) : cite_of cite <> Diverge.
Proof. unfold cite_of. auto with total. Qed.

Lemma cluster_entry_total i cluster output :
  cluster_entry py_repr i cluster output <> Diverge.
Proof.
  unfold cluster_entry.
  repeat (apply and_then_total; [solve [auto with total]|intros ?]; cbv zeta).
  apply and_then_total.
  { match goal with |- (if ?b then _ else _) <> _ => destruct b end; [|discriminate].
    apply and_then_total; [auto with total|intros listed].
    apply and_then_total; [auto with total|intros items].
    apply and_then_total; [apply each_total; apply cite_of_total|intros cites].
    apply and_then_total; [apply py_join_total|discriminate]. }
  intros output1. ends.
Qed.

Lemma cluster_entries_total clusters :
  forall i output, cluster_entries py_repr i clusters output <> Diverge.
Proof.
  induction clusters as [|c cs IH]; intros i output; cbn [cluster_entries];
    [discriminate|].
  apply and_then_total; [apply cluster_entry_total|intros o; apply IH].
Qed.

Lemma citation_report_total citation result :
  citation_report py_repr citation result <> Diverge.
Proof.
  unfold citation_report.
  apply and_then_total; [auto with total|intros status].
  destruct (py_eq_int status 404); [ends|].
  apply and_then_total; [auto with total|intros clusters].
  destruct (negb (truthy clusters)); [discriminate|]. cbv zeta.
  apply and_then_total; [auto with total|intros items].
  apply and_then_total; [apply cluster_entries_total|discriminate].
Qed.

(** The headers of the lookup are those of [make_api_request]. *)
Lemma lookup_headers :
  match get_api_token environ_token with
  | Some token =>
      dict_set "Authorization" ("Token " +++ token)
        [("Accept", "application/json"); ("Content-Type", "application/json")]
  | None => [("Accept", "application/json"); ("Content-Type", "application/json")]
  end = request_headers environ_token.
Proof. reflexivity. Qed.

(** The lookup, by what its one request comes back with. *)
Lemma lookup_citation_run citation tr :
  lookup_citation environ_token http py_repr citation tr =
  (match http tr (citation_url citation) (request_headers environ_token) [] with
   | Fails (Timeout msg) | Fails (RequestException msg) =>
       Val (JStr ("Citation lookup failed: " +++ msg))
   | Fails e => Exc e
   | Gives r =>
       if status_code r =? 429 then Val (JStr citation_rate_message)
       else if status_code r =? 404 then
         Val (JStr ("Citation '" +++ citation +++ "' not found in the database."))
       else
         match raise_for_status r with
         | Exc (RequestException msg) =>
             Val (JStr ("Citation lookup failed: " +++ msg))
         | Exc e => Exc e
         | Diverge => Diverge
         | Val _ =>
             match content r with
             | Json result => citation_report py_repr citation result
             | NotJson msg | DecoderRaises (Timeout msg)
             | DecoderRaises (RequestException msg) =>
                 Val (JStr ("Citation lookup failed: " +++ msg))
             | DecoderRaises e => Exc e
             end
         end
   end,
   tr ++ [HttpGet (citation_url citation) (request_headers environ_token) [] 30]).
Proof.
  unfold lookup_citation. cbv zeta. rewrite lookup_headers.
  unfold bind, try_except, requests_get, lift, ret.
  destruct (http tr (citation_url citation) (request_headers environ_token) [])
    as [r|e]; cbn [of_reply].
  - destruct (status_code r =? 429); [reflexivity|].
    destruct (status_code r =? 404); [reflexivity|].
    unfold raise_for_status.
    destruct ((400 <=? status_code r) && (status_code r <? 500))%bool; [reflexivity|].
    destruct ((500 <=? status_code r) && (status_code r <? 600))%bool; [reflexivity|].
    unfold response_json. destruct (content r) as [v|msg|e]; try reflexivity.
    destruct e; reflexivity.
  - destruct e; reflexivity.
Qed.

(** X13. A citation lookup makes exactly one request, whatever comes
    back: to the address of version 3 of the API made of the citation as
    given, with the headers of the other requests, no query parameters and
    a timeout of 30; it never sleeps, never tries again, and ends. *)
Theorem citation_lookup_one_request citation tr :
  snd (lookup_citation environ_token http py_repr citation tr) =
    tr ++ [HttpGet ("https://www.courtlistener.com/api/rest/v3/citations/"
                    +++ citation +++ "/")
                   (request_headers environ_token) [] 30] /\
  gets_of (snd (lookup_citation environ_token http py_repr citation tr)) =
    S (gets_of tr) /\
  sleeps_of (snd (lookup_citation environ_token http py_repr citation tr)) =
    sleeps_of tr /\
  api_calls (snd (lookup_citation environ_token http py_repr citation tr)) =
    api_calls tr /\
  fst (lookup_citation environ_token http py_repr citation tr) <> Diverge.
Proof.
  rewrite lookup_citation_run. cbn [fst snd].
  split; [reflexivity|].
  rewrite gets_of_app, sleeps_of_app, api_calls_app. unfold gets_of at 2.
  cbn [filter is_get List.length sleeps_of is_sleep api_calls flat_map].
  rewrite !app_nil_r.
  split; [lia|]. split; [reflexivity|]. split; [reflexivity|].
  destruct (http tr (citation_url citation) (request_headers environ_token) [])
    as [r|e].
  - destruct (status_code r =? 429); [discriminate|].
    destruct (status_code r =? 404); [discriminate|].
    unfold raise_for_status.
    destruct ((400 <=? status_code r) && (status_code r <? 500))%bool; [discriminate|].
    destruct ((500 <=? status_code r) && (status_code r <? 600))%bool; [discriminate|].
    destruct (content r) as [v|msg|e];
      [apply citation_report_total|discriminate|destruct e; discriminate].
  - destruct e; discriminate.
Qed.

(** X14. A failed lookup is reported at once and as text.  A request
    exception, an error status other than 429 and 404 (401 and the 5xx
    included) and a body that does not decode all give
    [Citation lookup failed:] followed by the text of the failure. *)
Theorem citation_failures_reported citation tr :
  (forall e, http tr (citation_url citation) (request_headers environ_token) []
             = Fails e ->
             retryable e = true ->
             exists msg,
               (e = Timeout msg \/ e = RequestException msg) /\
               fst (lookup_citation environ_token http py_repr citation tr) =
                 Val (JStr ("Citation lookup failed: " +++ msg))) /\
  (forall r, http tr (citation_url citation) (request_headers environ_token) []
             = Gives r ->
             400 <= status_code r < 600 ->
             status_code r <> 429 -> status_code r <> 404 ->
             exists msg,
               http_error_text r = Some msg /\
               fst (lookup_citation environ_token http py_repr citation tr) =
                 Val (JStr ("Citation lookup failed: " +++ msg))) /\
  (forall r msg, http tr (citation_url citation) (request_headers environ_token) []
                 = Gives r ->
                 status_code r < 400 \/ 600 <= status_code r ->
                 content r = NotJson msg ->
                 fst (lookup_citation environ_token http py_repr citation tr) =
                   Val (JStr ("Citation lookup failed: " +++ msg))).
Proof.
  split; [|split].
  - intros e He Hr. rewrite lookup_citation_run, He. cbn [fst].
    destruct e as [msg|msg| | | | | | | |]; try discriminate Hr;
      exists msg; (split; [auto|reflexivity]).
  - intros r Hg Hst H429 H404. rewrite lookup_citation_run, Hg. cbn [fst].
    replace (status_code r =? 429) with false by (symmetry; apply Z.eqb_neq; exact H429).
    replace (status_code r =? 404) with false by (symmetry; apply Z.eqb_neq; exact H404).
    unfold http_error_text, raise_for_status.
    destruct (Z.leb_spec 400 (status_code r)); [|lia].
    destruct (Z.ltb_spec (status_code r) 500); cbn [andb].
    + eexists. split; reflexivity.
    + destruct (Z.leb_spec 500 (status_code r)); [|lia].
      destruct (Z.ltb_spec (status_code r) 600); [|lia]. cbn [andb].
      eexists. split; reflexivity.
  - intros r msg Hg Hst Hc. rewrite lookup_citation_run, Hg. cbn [fst].
    replace (status_code r =? 429) with false by (symmetry; apply Z.eqb_neq; lia).
    replace (status_code r =? 404) with false by (symmetry; apply Z.eqb_neq; lia).
    unfold raise_for_status.
    destruct (Z.leb_spec 400 (status_code r)), (Z.ltb_spec (status_code r) 500);
      cbn [andb]; try lia;
      destruct (Z.leb_spec 500 (status_code r)), (Z.ltb_spec (status_code r) 600);
      cbn [andb]; try lia; rewrite Hc; reflexivity.
Qed.

(** X15. The answers of a lookup that finds nothing: a status 429 or 404
    gives its fixed text whatever the body; a decoded object whose
    [status] is 404 gives the [error_message] of the body; and a decoded
    object without [clusters], or with empty ones, gives
    [No cases found for citation:]. *)
Theorem citation_not_found_answers citation tr r :
  http tr (citation_url citation) (request_headers environ_token) [] = Gives r ->
  (status_code r = 429 ->
   fst (lookup_citation environ_token http py_repr citation tr) =
     Val (JStr citation_rate_message)) /\
  (status_code r = 404 ->
   fst (lookup_citation environ_token http py_repr citation tr) =
     Val (JStr ("Citation '" +++ citation +++ "' not found in the database."))) /\
  (forall d,
      status_code r < 400 \/ 600 <= status_code r ->
      content r = Json (JDict d) ->
      (dict_get "status" d = Some (JInt 404) ->
       fst (lookup_citation environ_token http py_repr citation tr) =
         Val (JStr ("Citation '" +++ citation +++ "' not found: "
                    +++ match dict_get "error_message" d with
                        | Some m => py_str py_repr m
                        | None => "Unknown error"
                        end))) /\
      (dict_get "status" d = None ->
       match dict_get "clusters" d with
       | Some v => truthy v = false
       | None => True
       end ->
       fst (lookup_citation environ_token http py_repr citation tr) =
         Val (JStr ("No cases found for citation: " +++ citation)))).
Proof.
  intros Hg. rewrite lookup_citation_run, Hg. cbn [fst].
  split; [intros ->; reflexivity|]. split; [intros ->; reflexivity|].
  intros d Hst Hc.
  replace (status_code r =? 429) with false by (symmetry; apply Z.eqb_neq; lia).
  replace (status_code r =? 404) with false by (symmetry; apply Z.eqb_neq; lia).
  assert (Hr : raise_for_status r = Val tt).
  { unfold raise_for_status.
    destruct (Z.leb_spec 400 (status_code r)), (Z.ltb_spec (status_code r) 500);
      cbn [andb]; try lia;
      destruct (Z.leb_spec 500 (status_code r)), (Z.ltb_spec (status_code r) 600);
      cbn [andb]; try lia; reflexivity. }
  rewrite Hr, Hc. unfold citation_report. cbn [py_get and_then].
  split.
  - intros ->. cbn [py_eq_int]. cbn [Z.eqb Pos.eqb and_then].
    destruct (dict_get "error_message" d); reflexivity.
  - intros -> Hcl. cbn [py_eq_int and_then].
    destruct (dict_get "clusters" d) as [v|]; [rewrite Hcl|]; reflexivity.
Qed.

(** X16. The code after the request reads the body with [get]: a
    decoded body that is not an object (an array, say) makes the lookup
    raise [AttributeError]. *)
Theorem citation_body_must_be_object citation tr r v :
  http tr (citation_url citation) (request_headers environ_token) [] = Gives r ->
  status_code r < 400 \/ 600 <= status_code r ->
  content r = Json v ->
  (forall d, v <> JDict d) ->
  fst (lookup_citation environ_token http py_repr citation tr) = Exc AttributeError.
Proof.
  intros Hg Hst Hc Hv. rewrite lookup_citation_run, Hg. cbn [fst].
  replace (status_code r =? 429) with false by (symmetry; apply Z.eqb_neq; lia).
  replace (status_code r =? 404) with false by (symmetry; apply Z.eqb_neq; lia).
  assert (Hr : raise_for_status r = Val tt).
  { unfold raise_for_status.
    destruct (Z.leb_spec 400 (status_code r)), (Z.ltb_spec (status_code r) 500);
      cbn [andb]; try lia;
      destruct (Z.leb_spec 500 (status_code r)), (Z.ltb_spec (status_code r) 600);
      cbn [andb]; try lia; reflexivity. }
  rewrite Hr, Hc. destruct v as [| b | n | s | l | d]; try reflexivity.
  exfalso. exact (Hv d eq_refl).
Qed.

End Lookup.

(** A 401 is told as a failed lookup, with the text of the HTTP error. *)
Lemma citation_failures_reported_witness :
  answers unauthorized [] (citation_url "410 U.S. 113") (request_headers None) []
    = Gives unauthorized /\
  400 <= status_code unauthorized < 600 /\
  exists msg,
    http_error_text unauthorized = Some msg /\
    fst (lookup_citation None (answers unauthorized) blank_repr "410 U.S. 113" []) =
      Val (JStr ("Citation lookup failed: " +++ msg)).
Proof.
  assert (H2 : 400 <= status_code unauthorized < 600) by (simpl; lia).
  split; [reflexivity|]. split; [exact H2|].
  refine (proj1 (proj2 (citation_failures_reported None (answers unauthorized)
                          blank_repr "410 U.S. 113" []))
            unauthorized eq_refl H2 _ _); simpl; discriminate.
Defined.

(** The body says 404 although the response is a 200. *)
Lemma citation_not_found_answers_witness :
  answers (ok_response no_match_body) [] (citation_url "1 U.S. 1")
    (request_headers None) [] = Gives (ok_response no_match_body) /\
  fst (lookup_citation None (answers (ok_response no_match_body)) blank_repr
         "1 U.S. 1" []) =
    Val (JStr "Citation '1 U.S. 1' not found: Citation not found: 1 U.S. 1").
Proof.
  split; [reflexivity|].
  refine (proj1 (proj2 (proj2 (citation_not_found_answers None
                                 (answers (ok_response no_match_body)) blank_repr
                                 "1 U.S. 1" [] (ok_response no_match_body) eq_refl))
                   _ _ eq_refl)
            eq_refl).
  left. simpl. lia.
Defined.

(** An array for a body. *)
Lemma citation_body_must_be_object_witness :
  answers (ok_response array_body) [] (citation_url "410 U.S. 113")
    (request_headers None) [] = Gives (ok_response array_body) /\
  fst (lookup_citation None (answers (ok_response array_body)) blank_repr
         "410 U.S. 113" []) = Exc AttributeError.
Proof.
  split; [reflexivity|].
  refine (citation_body_must_be_object None (answers (ok_response array_body))
            blank_repr "410 U.S. 113" [] (ok_response array_body) array_body
            eq_refl _ eq_refl _).
  - left. simpl. lia.
  - intros d. discriminate.
Defined.

(** *** [search_cases] *)

(** The query sent under [q], if any. *)
Lemma search_cases_params_cases query case_name court date_filed_after
    date_filed_before cited_gt judge highlight :
  search_cases_params query case_name court date_filed_after date_filed_before
                      cited_gt judge highlight =
  [("type", "o"); ("format", "json")]
  ++ (if String.eqb query "" then
        if String.eqb case_name "" then []
        else [("q", "caseName:" +++ dq +++ case_name +++ dq)]
      else
        if String.eqb case_name "" then [("q", query)]
        else [("q", query +++ " AND " +++ "caseName:" +++ dq +++ case_name +++ dq)])
  ++ (if String.eqb court "" then [] else [("court", court)])
  ++ (if String.eqb date_filed_after "" then []
      else [("filed_after", date_filed_after)])
  ++ (if String.eqb date_filed_before "" then []
      else [("filed_before", date_filed_before)])
  ++ (if String.eqb cited_gt "" then [] else [("cited_gt", cited_gt)])
  ++ (if String.eqb judge "" then [] else [("judge", judge)])
  ++ (if String.eqb highlight "" then [] else [("highlight", highlight)]).
Proof.
  unfold search_cases_params.
  destruct (String.eqb query ""), (String.eqb case_name ""),
    (String.eqb court ""), (String.eqb date_filed_after ""),
    (String.eqb date_filed_before ""), (String.eqb cited_gt ""),
    (String.eqb judge ""), (String.eqb highlight ""); reflexivity.
Qed.

Lemma dict_get_app {A} (k : string) (a b : dict A) :
  dict_get k (a ++ b) =
  match dict_get k a with
  | Some v => Some v
  | None => dict_get k b
  end.
Proof.
  induction a as [|[k' v'] a IH]; cbn [app dict_get]; [reflexivity|].
  destruct (String.eqb k' k); [reflexivity|exact IH].
Qed.

Lemma keys_app {A} (a b : dict A) : keys (a ++ b) = keys a ++ keys b.
Proof. unfold keys. apply map_app. Qed.

(** An optional key in front of keys that all come later in the order of
    the code. *)
Lemma nodup_optional (b : bool) (k : string) (v : string) (rest : dict string)
    (later : list string) :
  NoDup (keys rest) -> incl (keys rest) later -> ~ In k later ->
  NoDup (keys ((if b then [] else [(k, v)]) ++ rest)) /\
  incl (keys ((if b then [] else [(k, v)]) ++ rest)) (k :: later).
Proof.
  intros Hn Hi Hk. destruct b; cbn [app keys map fst].
  - split; [exact Hn|]. intros x Hx. right. apply Hi. exact Hx.
  - split.
    + constructor; [|exact Hn]. intros Hin. apply Hk. apply Hi. exact Hin.
    + intros x [<-|Hx]; [left; reflexivity|right; apply Hi; exact Hx].
Qed.

Lemma search_cases_params_keys query case_name court date_filed_after
    date_filed_before cited_gt judge highlight :
  NoDup (keys (search_cases_params query case_name court date_filed_after
                 date_filed_before cited_gt judge highlight)).
Proof.
  rewrite search_cases_params_cases.
  assert (H0 : NoDup (keys (@nil (string * string))) /\
               incl (keys (@nil (string * string))) []).
  { split; [constructor|intros x []]. }
  assert (H1 := nodup_optional (String.eqb highlight "") "highlight" highlight []
                  [] (proj1 H0) (proj2 H0) (fun H => H)).
  rewrite app_nil_r in H1.
  assert (H2 := nodup_optional (String.eqb judge "") "judge" judge _ _
                  (proj1 H1) (proj2 H1)).
  assert (H3 := fun H => nodup_optional (String.eqb cited_gt "") "cited_gt" cited_gt
                  _ _ (proj1 (H2 H)) (proj2 (H2 H))).
  assert (N2 : ~ In "judge" ["highlight"]) by (simpl; intuition discriminate).
  assert (N3 : ~ In "cited_gt" ["judge"; "highlight"])
    by (simpl; intuition discriminate).
  assert (N4 : ~ In "filed_before" ["cited_gt"; "judge"; "highlight"])
    by (simpl; intuition discriminate).
  assert (N5 : ~ In "filed_after" ["filed_before"; "cited_gt"; "judge"; "highlight"])
    by (simpl; intuition discriminate).
  assert (N6 : ~ In "court" ["filed_after"; "filed_before"; "cited_gt"; "judge";
                            "highlight"])
    by (simpl; intuition discriminate).
  assert (N7 : ~ In "q" ["court"; "filed_after"; "filed_before"; "cited_gt"; "judge";
                        "highlight"])
    by (simpl; intuition discriminate).
  assert (N8 : ~ In "format" ["q"; "court"; "filed_after"; "filed_before"; "cited_gt";
                             "judge"; "highlight"])
    by (simpl; intuition discriminate).
  assert (N9 : ~ In "type" ["format"; "q"; "court"; "filed_after"; "filed_before";
                           "cited_gt"; "judge"; "highlight"])
    by (simpl; intuition discriminate).
  specialize (H2 N2). specialize (H3 N2 N3). clear H0 H1.
  assert (H4 := nodup_optional (String.eqb date_filed_before "") "filed_before"
                  date_filed_before _ _ (proj1 H3) (proj2 H3) N4).
  assert (H5 := nodup_optional (String.eqb date_filed_after "") "filed_after"
                  date_filed_after _ _ (proj1 H4) (proj2 H4) N5).
  assert (H6 := nodup_optional (String.eqb court "") "court" court _ _
                  (proj1 H5) (proj2 H5) N6).
  assert (H7 : forall qv (b : bool),
             NoDup (keys ((if b then [] else [("q", qv)]) ++ _)) /\ _)
    by (intros qv b; exact (nodup_optional b "q" qv _ _ (proj1 H6) (proj2 H6) N7)).
  assert (H8 : forall rest : dict string,
             NoDup (keys rest) /\
             incl (keys rest) ["q"; "court"; "filed_after"; "filed_before"; "cited_gt";
                               "judge"; "highlight"] ->
             NoDup (keys ([("type", "o"); ("format", "json")] ++ rest))).
  { intros rest [Hn Hi]. cbn [app keys map fst].
    constructor.
    - intros [H|H]; [discriminate H|]. apply N9. right. apply Hi. exact H.
    - constructor; [|exact Hn]. intros H. apply N8. apply Hi. exact H. }
  apply H8.
  destruct (String.eqb query ""), (String.eqb case_name "").
  - exact (H7 "" true).
  - exact (H7 _ false).
  - exact (H7 _ false).
  - exact (H7 _ false).
Qed.

Lemma search_cases_params_no_empty query case_name court date_filed_after
    date_filed_before cited_gt judge highlight :
  no_empty_value (search_cases_params query case_name court date_filed_after
                    date_filed_before cited_gt judge highlight).
Proof.
  rewrite search_cases_params_cases. intros k v Hin.
  assert (Hopt : forall (x key : string),
             In (k, v) (if String.eqb x "" then [] else [(key, x)]) -> v <> "").
  { intros x key H. destruct (String.eqb_spec x "") as [|Hx]; [destruct H|].
    destruct H as [[= _ <-]|[]]. exact Hx. }
  repeat (apply in_app_or in Hin; destruct Hin as [Hin|Hin]);
    try (eapply Hopt; exact Hin).
  - destruct Hin as [[= _ <-]|[[= _ <-]|[]]]; discriminate.
  - destruct (String.eqb_spec query "") as [|Hq],
      (String.eqb_spec case_name "") as [|Hc]; try destruct Hin as [[= _ <-]|[]].
    + destruct Hin.
    + discriminate.
    + exact Hq.
    + destruct query; [congruence|discriminate].
Qed.

Section SearchCases.
Variable environ_token : option string.
Variable http : trace -> string -> dict string -> dict string -> reply response.
Variable py_repr : json -> string.
Variable int_beyond : string -> option Z.

(** X17. A case search makes one call of the request function, to the
    endpoint [search], with the default budget.  Its parameters always
    hold [type=o] and [format=json]; [q] holds the query, the quoted case
    name under [caseName:], or both joined by [AND], and is absent when
    both are empty; each filter is sent under its key exactly when it is
    not empty; no value is empty and no key is repeated. *)
Theorem search_cases_request query case_name court date_filed_after
    date_filed_before cited_gt judge highlight limit tr :
  let params := search_cases_params query case_name court date_filed_after
                                    date_filed_before cited_gt judge highlight in
  (exists new,
      snd (search_cases environ_token http py_repr int_beyond query case_name court
             date_filed_after date_filed_before cited_gt judge highlight limit tr)
        = tr ++ ApiCall "search" params 3 :: new /\
      api_calls new = []) /\
  dict_get "type" params = Some "o" /\
  dict_get "format" params = Some "json" /\
  dict_get "q" params =
    (if String.eqb query "" then
       if String.eqb case_name "" then None
       else Some ("caseName:" +++ dq +++ case_name +++ dq)
     else
       if String.eqb case_name "" then Some query
       else Some (query +++ " AND " +++ "caseName:" +++ dq +++ case_name +++ dq)) /\
  dict_get "court" params = (if String.eqb court "" then None else Some court) /\
  dict_get "filed_after" params =
    (if String.eqb date_filed_after "" then None else Some date_filed_after) /\
  dict_get "filed_before" params =
    (if String.eqb date_filed_before "" then None else Some date_filed_before) /\
  dict_get "cited_gt" params =
    (if String.eqb cited_gt "" then None else Some cited_gt) /\
  dict_get "judge" params = (if String.eqb judge "" then None else Some judge) /\
  dict_get "highlight" params =
    (if String.eqb highlight "" then None else Some highlight) /\
  no_empty_value params /\
  NoDup (keys params).
Proof.
  cbv zeta. split.
  { unfold search_cases, bind, lift.
    destruct (make_api_request_three environ_token http "search"
                (search_cases_params query case_name court date_filed_after
                   date_filed_before cited_gt judge highlight) tr)
      as [new [Htr [Hcalls _]]].
    exists new. split; [|exact Hcalls].
    destruct (make_api_request environ_token http "search" _ 3 tr) as [[v|e|] tr'];
      exact Htr. }
  split; [rewrite search_cases_params_cases; reflexivity|].
  split; [rewrite search_cases_params_cases; reflexivity|].
  assert (Hget : forall key,
    dict_get key (search_cases_params query case_name court date_filed_after
                    date_filed_before cited_gt judge highlight) =
    dict_get key
      ([("type", "o"); ("format", "json")]
       ++ (if String.eqb query "" then
             if String.eqb case_name "" then []
             else [("q", "caseName:" +++ dq +++ case_name +++ dq)]
           else
             if String.eqb case_name "" then [("q", query)]
             else [("q", query +++ " AND " +++ "caseName:" +++ dq +++ case_name
                                   +++ dq)])
       ++ (if String.eqb court "" then [] else [("court", court)])
       ++ (if String.eqb date_filed_after "" then []
           else [("filed_after", date_filed_after)])
       ++ (if String.eqb date_filed_before "" then []
           else [("filed_before", date_filed_before)])
       ++ (if String.eqb cited_gt "" then [] else [("cited_gt", cited_gt)])
       ++ (if String.eqb judge "" then [] else [("judge", judge)])
       ++ (if String.eqb highlight "" then [] else [("highlight", highlight)])))
    by (intros key; rewrite search_cases_params_cases; reflexivity).
  repeat (split; [rewrite Hget;
                  destruct (String.eqb query ""), (String.eqb case_name ""),
                    (String.eqb court ""), (String.eqb date_filed_after ""),
                    (String.eqb date_filed_before ""), (String.eqb cited_gt ""),
                    (String.eqb judge ""), (String.eqb highlight ""); reflexivity|]).
  split; [apply search_cases_params_no_empty|apply search_cases_params_keys].
Qed.

(** X18. How many cases a search lists.  On a result without [error]
    whose [results] is a list, the cases listed are the first [count] of
    the list and the header announces [label] of them, where: for a limit
    that is not an integer both are the length of the list; for a limit
    [n >= 0] both are [min n length]; and for a limit [n < 0] the header
    announces the negative number [n] while all cases but the last [-n]
    are listed. *)
Theorem cases_shown limit d items :
  dict_get "error" d = None ->
  dict_get "results" d = Some (JList items) ->
  exists label count,
    search_cases_report py_repr int_beyond limit (JDict d) =
      (let? output :=
         case_entries py_repr 1 (firstn count items)
           ("Found "
            +++ py_str py_repr match dict_get "count" d with
                               | Some c => c
                               | None => JInt 0
                               end
            +++ " cases (showing " +++ str_of_int label +++ "):" +++ nl +++ nl) in
       Val (JStr (if truthy match dict_get "next" d with
                            | Some u => u
                            | None => JNull
                            end
                  then output +++ "More results available. Use cursor pagination for additional pages." +++ nl
                  else output))) /\
    (count <= List.length items)%nat /\
    (py_int int_beyond limit = Exc ValueError ->
     label = Z.of_nat (List.length items) /\ count = List.length items) /\
    (forall n, py_int int_beyond limit = Val n -> 0 <= n ->
               label = Z.min n (Z.of_nat (List.length items)) /\
               Z.of_nat count = label) /\
    (forall n, py_int int_beyond limit = Val n -> n < 0 ->
               label = n /\
               Z.of_nat count = Z.max (Z.of_nat (List.length items) + n) 0).
Proof.
  intros He Hr.
  assert (Hrun : forall label,
    shown int_beyond limit (JDict d) = Val label ->
    search_cases_report py_repr int_beyond limit (JDict d) =
      (let? output :=
         case_entries py_repr 1
           (firstn (slice_stop label (Z.of_nat (List.length items))) items)
           ("Found "
            +++ py_str py_repr match dict_get "count" d with
                               | Some c => c
                               | None => JInt 0
                               end
            +++ " cases (showing " +++ str_of_int label +++ "):" +++ nl +++ nl) in
       Val (JStr (if truthy match dict_get "next" d with
                            | Some u => u
                            | None => JNull
                            end
                  then output +++ more_results_message +++ nl
                  else output)))).
  { intros label Hs. unfold search_cases_report.
    cbn [py_in py_getitem py_get and_then]. unfold dict_has. rewrite He, Hr.
    cbn [negb and_then]. rewrite Hs. cbn [and_then py_slice_to py_iter].
    destruct (case_entries py_repr 1 _ _); reflexivity. }
  assert (Hlen : (forall k, k <= List.length items ->
                            List.length (firstn k items) = k)%nat)
    by (intros k Hk; apply firstn_length_le; exact Hk).
  destruct (py_int_cases int_beyond limit) as [[n Hn]|Hn].
  - assert (Hs : shown int_beyond limit (JDict d) = Val (Z.min n (Z.of_nat (List.length items)))).
    { unfold shown. rewrite Hn. cbn [py_getitem]. rewrite Hr. reflexivity. }
    exists (Z.min n (Z.of_nat (List.length items))),
      (slice_stop (Z.min n (Z.of_nat (List.length items)))
                  (Z.of_nat (List.length items))).
    split; [exact (Hrun _ Hs)|].
    unfold slice_stop.
    destruct (Z.ltb_spec (Z.min n (Z.of_nat (List.length items))) 0) as [Hneg|Hpos].
    + split; [lia|]. split; [congruence|]. split.
      * intros n' Hn' H0. rewrite Hn in Hn'. injection Hn' as <-. lia.
      * intros n' Hn' H0. rewrite Hn in Hn'. injection Hn' as <-. lia.
    + split; [lia|]. split; [congruence|]. split.
      * intros n' Hn' H0. rewrite Hn in Hn'. injection Hn' as <-. lia.
      * intros n' Hn' H0. rewrite Hn in Hn'. injection Hn' as <-. lia.
  - assert (Hs : shown int_beyond limit (JDict d) = Val (Z.of_nat (List.length items))).
    { unfold shown. rewrite Hn. cbn [py_getitem]. rewrite Hr. reflexivity. }
    exists (Z.of_nat (List.length items)), (List.length items).
    split.
    { rewrite (Hrun _ Hs). unfold slice_stop.
      replace (Z.of_nat (List.length items) <? 0) with false
        by (symmetry; apply Z.ltb_ge; lia).
      rewrite Z.min_id, Nat2Z.id. reflexivity. }
    split; [lia|]. split; [intros _; split; reflexivity|].
    split; intros n' Hn'; congruence.
Qed.

(** X19. In the snippet line of a case the highlighting tags are gone:
    the text shown holds neither [<mark>] nor [</mark>], and a snippet
    without tags is shown as it is. *)
Theorem snippet_marks_replaced i f s output :
  dict_get "snippet" f = Some (JStr s) ->
  s <> "" ->
  exists lines shown_snippet,
    case_entry py_repr i (JDict f) output =
      Val (output +++ lines +++ "   Snippet: " +++ shown_snippet +++ nl +++ nl) /\
    contains "<mark>" shown_snippet = false /\
    contains "</mark>" shown_snippet = false /\
    (contains "<mark>" s = false -> contains "</mark>" s = false ->
     shown_snippet = s).
Proof.
  intros Hs Hne.
  exists (str_of_int i +++ ". "
          +++ py_str py_repr match dict_get "caseName" f with
                             | Some v => v | None => JStr "Unknown Case" end +++ nl
          +++ "   Court: "
          +++ py_str py_repr match dict_get "court" f with
                             | Some v => v | None => JStr "Unknown Court" end +++ nl
          +++ "   Date: "
          +++ py_str py_repr match dict_get "dateFiled" f with
                             | Some v => v | None => JStr "Unknown Date" end +++ nl
          +++ "   Docket: "
          +++ py_str py_repr match dict_get "docketNumber" f with
                             | Some v => v | None => JStr "N/A" end +++ nl
          +++ "   Citations: "
          +++ py_str py_repr match dict_get "citeCount" f with
                             | Some v => v | None => JInt 0 end +++ nl
          +++ match dict_get "status" f with
              | Some v => if truthy v
                          then "   Status: " +++ py_str py_repr v +++ nl else ""
              | None => ""
              end
          +++ match dict_get "absolute_url" f with
              | Some v => if truthy v
                          then "   URL: https://www.courtlistener.com"
                               +++ py_str py_repr v +++ nl
                          else ""
              | None => ""
              end),
    (str_replace "</mark>" "**" (str_replace "<mark>" "**" s)).
  split; [|split; [|split]].
  - unfold case_entry. cbn [py_get py_getitem and_then]. rewrite Hs.
    assert (Ht : truthy (JStr s) = true).
    { cbn [truthy]. destruct (String.eqb_spec s ""); [congruence|reflexivity]. }
    rewrite Ht. cbn [py_replace and_then].
    destruct (dict_get "status" f) as [st|]; cbn [truthy and_then];
      [destruct (truthy st); cbn [and_then]|];
      (destruct (dict_get "absolute_url" f) as [u|]; cbn [truthy and_then];
       [destruct (truthy u); cbn [and_then]|]);
      rewrite ?append_assoc, ?append_nil_r; cbn [String.append];
      rewrite ?append_assoc; reflexivity.
  - unfold str_replace.
    apply replace_keeps_absent; [discriminate|reflexivity|].
    apply replace_removes; [discriminate|discriminate|reflexivity|lia].
  - unfold str_replace at 1.
    apply replace_removes; [discriminate|discriminate|reflexivity|lia].
  - intros H1 H2. unfold str_replace.
    rewrite (replace_absent "<mark>" "**" s _ H1).
    apply replace_absent. exact H2.
Qed.

End SearchCases.

(** *** From the identifier to the opinion *)

Lemma before_slash_opinion (a : string) :
  before "/" (before "/opinion/" a) = before "/" a.
Proof.
  unfold before at 2. destruct (find "/opinion/" a) as [[b r]|] eqn:F; [|reflexivity].
  rewrite (find_cut _ _ _ _ F).
  destruct (contains "/" b) eqn:C.
  - symmetry. apply before_append. exact C.
  - rewrite (before_char_append "/"%char b _ C).
    change (before "/" ("/opinion/" +++ r)) with "".
    rewrite append_nil_r. unfold before, contains in *.
    destruct (find "/" b) as [[x y]|]; [discriminate C|reflexivity].
Qed.

Lemma id_of_url_found (s b a : string) :
  find "/opinion/" s = Some (b, a) ->
  id_of_url (JStr s) = Val (before "/" a).
Proof.
  intros F. unfold id_of_url, py_split, str_split.
  destruct (String.length s) as [|fuel] eqn:L.
  { destruct s; [discriminate F|discriminate L]. }
  cbn [and_then]. unfold list_index at 1.
  rewrite (split_fuel_second fuel _ _ _ _ F). cbn [and_then].
  unfold list_index. rewrite split_fuel_head. cbn [and_then].
  rewrite before_slash_opinion. reflexivity.
Qed.

Lemma id_of_url_missing (s : string) :
  find "/opinion/" s = None -> id_of_url (JStr s) = Exc IndexError.
Proof.
  intros F. unfold id_of_url, py_split, str_split. cbn [and_then].
  destruct (String.length s); cbn [split_fuel]; rewrite F; reflexivity.
Qed.

Lemma all_digits_append (a b : string) :
  all_digits (a +++ b) = (all_digits a && all_digits b)%bool.
Proof.
  induction a as [|c a IH]; simpl; [reflexivity|].
  rewrite IH. apply andb_assoc.
Qed.

(** Text with a slash in it is not a number. *)
Lemma slash_not_digits (s b a : string) :
  find "/opinion/" s = Some (b, a) -> str_isdigit s = false.
Proof.
  intros F. rewrite (find_cut _ _ _ _ F). unfold str_isdigit.
  destruct (b +++ "/opinion/" +++ a) eqn:E; [reflexivity|]. rewrite <- E.
  rewrite all_digits_append. simpl. apply andb_false_r.
Qed.

Lemma opinion_in_url (s b a : string) :
  find "/opinion/" s = Some (b, a) -> contains "opinion/" s = true.
Proof.
  intros F. apply contains_iff. exists (b +++ "/"), a.
  rewrite (find_cut _ _ _ _ F), append_assoc. reflexivity.
Qed.

Lemma isdigit_not_empty (s : string) : str_isdigit s = true -> s <> "".
Proof. intros H ->. discriminate H. Qed.

Section Summary.
Variable environ_token : option string.
Variable http : trace -> string -> dict string -> dict string -> reply response.
Variable py_repr : json -> string.
Variable int_beyond : string -> option Z.
Variable title : string -> string.

(** The summary once the opinion is known. *)
Lemma get_case_summary_opinion c summary_type max_text_length opinion_id tr tr1 :
  resolve environ_token http py_repr c tr = (Val (Opinion opinion_id), tr1) ->
  opinion_id <> "" ->
  get_case_summary environ_token http py_repr int_beyond title c summary_type max_text_length tr =
  match make_api_request environ_token http ("opinions/" +++ opinion_id)
          [("fields", opinion_fields)] 3 tr1 with
  | (Val result, tr2) =>
      (summary_report py_repr int_beyond title summary_type max_text_length opinion_id result, tr2)
  | (Exc e, tr2) => (Exc e, tr2)
  | (Diverge, tr2) => (Diverge, tr2)
  end.
Proof.
  intros Hr Hne. unfold get_case_summary, bind. rewrite Hr.
  destruct (String.eqb_spec opinion_id "") as [|_]; [congruence|].
  unfold lift.
  destruct (make_api_request environ_token http ("opinions/" +++ opinion_id) _ 3 tr1)
    as [[result|e|] tr2]; reflexivity.
Qed.

Lemma get_case_summary_fetch c summary_type max_text_length opinion_id tr tr1 :
  resolve environ_token http py_repr c tr = (Val (Opinion opinion_id), tr1) ->
  opinion_id <> "" ->
  exists new,
    snd (get_case_summary environ_token http py_repr int_beyond title c summary_type
           max_text_length tr) =
      tr1 ++ ApiCall ("opinions/" +++ opinion_id) [("fields", opinion_fields)] 3 :: new /\
    api_calls new = [] /\
    (gets_of new <= 3)%nat.
Proof.
  intros Hr Hne.
  rewrite (get_case_summary_opinion c summary_type max_text_length opinion_id tr tr1
             Hr Hne).
  destruct (make_api_request_three environ_token http ("opinions/" +++ opinion_id)
              [("fields", opinion_fields)] tr1) as [new [Htr [Hc [Hg _]]]].
  exists new. split; [|split; [exact Hc|lia]].
  destruct (make_api_request environ_token http ("opinions/" +++ opinion_id) _ 3 tr1)
    as [[result|e|] tr2]; exact Htr.
Qed.

Lemma resolve_digits c tr :
  str_isdigit c = true ->
  resolve environ_token http py_repr c tr = (Val (Opinion c), tr).
Proof. intros H. unfold resolve. rewrite H. reflexivity. Qed.

Lemma resolve_url c b a tr :
  find "/opinion/" c = Some (b, a) ->
  resolve environ_token http py_repr c tr = (Val (Opinion (before "/" a)), tr).
Proof.
  intros F. unfold resolve.
  rewrite (slash_not_digits _ _ _ F), (opinion_in_url _ _ _ F),
    (id_of_url_found _ _ _ F).
  reflexivity.
Qed.

(** X20. An identifier that is a number or holds [/opinion/] is resolved
    without a search.  A number is fetched as the opinion of that number;
    from a link the text between the first [/opinion/] and the next slash
    is taken, fetched when it is not empty and refused without a request
    when it is; and an identifier with [opinion/] but without [/opinion/]
    is refused without a request. *)
Theorem identifier_resolved_without_search c summary_type max_text_length tr :
  (str_isdigit c = true ->
   exists new,
     snd (get_case_summary environ_token http py_repr int_beyond title c summary_type
            max_text_length tr) =
       tr ++ ApiCall ("opinions/" +++ c) [("fields", opinion_fields)] 3 :: new /\
     api_calls new = []) /\
  (forall b a,
      find "/opinion/" c = Some (b, a) ->
      (before "/" a <> "" ->
       exists new,
         snd (get_case_summary environ_token http py_repr int_beyond title c summary_type
                max_text_length tr) =
           tr ++ ApiCall ("opinions/" +++ before "/" a)
                         [("fields", opinion_fields)] 3 :: new /\
         api_calls new = []) /\
      (before "/" a = "" ->
       get_case_summary environ_token http py_repr int_beyond title c summary_type
         max_text_length tr =
       (Val ("Error: Could not determine opinion ID from '" +++ c +++ "'"), tr))) /\
  (str_isdigit c = false ->
   contains "opinion/" c = true ->
   find "/opinion/" c = None ->
   get_case_summary environ_token http py_repr int_beyond title c summary_type
     max_text_length tr =
   (Val ("Error: Could not extract opinion ID from URL: " +++ c), tr)).
Proof.
  split; [|split].
  - intros Hd.
    destruct (get_case_summary_fetch c summary_type max_text_length c tr tr
                (resolve_digits c tr Hd) (isdigit_not_empty c Hd))
      as [new [Htr [Hc _]]].
    exists new. split; assumption.
  - intros b a F. split.
    + intros Hne.
      destruct (get_case_summary_fetch c summary_type max_text_length (before "/" a)
                  tr tr (resolve_url c b a tr F) Hne) as [new [Htr [Hc _]]].
      exists new. split; assumption.
    + intros He. unfold get_case_summary, bind.
      rewrite (resolve_url c b a tr F), He. reflexivity.
  - intros Hd Hc F. unfold get_case_summary, bind, resolve.
    rewrite Hd, Hc, (id_of_url_missing c F). reflexivity.
Qed.

Lemma resolve_by_name_run c tr :
  exists new,
    snd (resolve_by_name environ_token http py_repr c tr) =
      tr ++ ApiCall "search" [("type", "o"); ("q", dq +++ c +++ dq);
                              ("fields", "id,absolute_url")] 3 :: new /\
    api_calls new = [].
Proof.
  unfold resolve_by_name, bind, lift.
  destruct (make_api_request_three environ_token http "search"
              [("type", "o"); ("q", dq +++ c +++ dq); ("fields", "id,absolute_url")]
              tr) as [new [Htr [Hc _]]].
  exists new. split; [|exact Hc].
  destruct (make_api_request environ_token http "search" _ 3 tr) as [[v|e|] tr'];
    exact Htr.
Qed.

(** X21. An ASCII identifier that is neither a number nor holds
    [opinion/] is searched for first: the first call of the request
    function is a search for opinions whose query is the identifier
    between double quotes, asking for [id] and [absolute_url]; at most one
    more call follows, the fetch of an opinion with a non-empty
    identifier. *)
Theorem name_is_searched_first c summary_type max_text_length tr :
  is_ascii c = true ->
  str_isdigit c = false ->
  contains "opinion/" c = false ->
  exists new,
    snd (get_case_summary environ_token http py_repr int_beyond title c summary_type
           max_text_length tr) =
      tr ++ ApiCall "search" [("type", "o"); ("q", dq +++ c +++ dq);
                              ("fields", "id,absolute_url")] 3 :: new /\
    (api_calls new = [] \/
     exists opinion_id,
       opinion_id <> "" /\
       api_calls new = [("opinions/" +++ opinion_id, [("fields", opinion_fields)], 3)]).
Proof.
  intros _ Hd Hc.
  assert (Hres : resolve environ_token http py_repr c tr =
                 resolve_by_name environ_token http py_repr c tr).
  { unfold resolve. rewrite Hd, Hc. reflexivity. }
  destruct (resolve_by_name_run c tr) as [new1 [Htr1 Hc1]].
  destruct (resolve_by_name environ_token http py_repr c tr) as [[[t|id]|e|] tr1] eqn:R;
    cbn [snd] in Htr1.
  - exists new1. unfold get_case_summary, bind. rewrite Hres.
    split; [exact Htr1|left; exact Hc1].
  - destruct (String.eqb_spec id "") as [->|Hne].
    + exists new1. unfold get_case_summary, bind. rewrite Hres.
      split; [exact Htr1|left; exact Hc1].
    + destruct (get_case_summary_fetch c summary_type max_text_length id tr tr1
                  Hres Hne) as [new2 [Htr2 [Hc2 _]]].
      exists (new1 ++ ApiCall ("opinions/" +++ id) [("fields", opinion_fields)] 3
                   :: new2).
      split.
      * rewrite Htr2, Htr1, <- app_assoc. reflexivity.
      * right. exists id. split; [exact Hne|].
        change (ApiCall ("opinions/" +++ id) [("fields", opinion_fields)] 3 :: new2)
          with ([ApiCall ("opinions/" +++ id) [("fields", opinion_fields)] 3] ++ new2).
        rewrite !api_calls_app, Hc1, Hc2. reflexivity.
  - exists new1. unfold get_case_summary, bind. rewrite Hres.
    split; [exact Htr1|left; exact Hc1].
  - exists new1. unfold get_case_summary, bind. rewrite Hres.
    split; [exact Htr1|left; exact Hc1].
Qed.

End Summary.

(** *** Errors that pass for summaries *)

Lemma digit_not_in_marker (x : ascii) :
  is_digit x = true -> has_char x "Error:" = false.
Proof.
  intros Hx. cbn [has_char].
  repeat match goal with
         | |- context [Ascii.eqb x ?l] =>
             destruct (Ascii.eqb_spec x l) as [->|_]; [discriminate Hx|]
         end.
  reflexivity.
Qed.

Lemma digits_share_nothing (c : string) :
  all_digits c = true -> shares_char c "Error:" = false.
Proof.
  induction c as [|x c IH]; [reflexivity|].
  cbn [all_digits shares_char]. intros H. apply andb_true_iff in H.
  destruct H as [Hx Hc]. rewrite (digit_not_in_marker x Hx), (IH Hc). reflexivity.
Qed.

(** The text of a failed fetch holds [Error:] only if the message of the
    failure does. *)
Lemma fetch_error_unmarked (c msg : string) :
  str_isdigit c = true ->
  contains "Error:" msg = false ->
  contains "Error:" ("Error fetching opinion " +++ c +++ ": " +++ msg) = false.
Proof.
  intros Hd Hm.
  assert (Hne : c <> "") by (apply isdigit_not_empty; exact Hd).
  assert (Hall : all_digits c = true).
  { unfold str_isdigit in Hd. destruct c; [discriminate Hd|exact Hd]. }
  destruct (contains "Error:" ("Error fetching opinion " +++ c +++ ": " +++ msg)) eqn:E;
    [|reflexivity].
  destruct (occurrence_avoids "Error:" "Error fetching opinion " c (": " +++ msg)
              Hne (digits_share_nothing c Hall) E) as [H|H].
  - discriminate H.
  - exfalso. unfold contains in H, Hm. simpl in H.
    destruct (find "Error:" msg) as [[x y]|]; [discriminate Hm|discriminate H].
Qed.

Section Impact.
Variable environ_token : option string.
Variable http : trace -> string -> dict string -> dict string -> reply response.
Variable py_repr : json -> string.
Variable int_beyond : string -> option Z.
Variable title : string -> string.

(** X22. A failed fetch is not always taken for an error by the tools
    built on the summary.  When the fetch of a numbered opinion returns an
    error whose message does not hold [Error:], the summary is the text
    [Error fetching opinion ...], and [analyze_case_impact], which looks
    for [Error:], wraps that text into its prompt instead of returning
    it.  The messages of the statuses 429, 401 and 404, of a timeout and
    of a missing budget are of this kind. *)
Theorem fetch_failure_not_recognised c analysis_depth d msg tr tr' :
  str_isdigit c = true ->
  make_api_request environ_token http ("opinions/" +++ c)
    [("fields", opinion_fields)] 3 tr = (Val (JDict d), tr') ->
  dict_get "error" d = Some (JStr msg) ->
  contains "Error:" msg = false ->
  get_case_summary environ_token http py_repr int_beyond title c "legal_analysis" "12000" tr =
    (Val ("Error fetching opinion " +++ c +++ ": " +++ msg), tr') /\
  analyze_case_impact environ_token http py_repr int_beyond title c analysis_depth tr =
    (Val (impact_prompt title analysis_depth
            ("Error fetching opinion " +++ c +++ ": " +++ msg)), tr') /\
  contains "Error:" rate_limit_message = false /\
  contains "Error:" auth_message = false /\
  contains "Error:" not_found_message = false /\
  contains "Error:" (timeout_message 3) = false /\
  contains "Error:" "Maximum retries exceeded" = false.
Proof.
  intros Hd Hreq He Hm.
  assert (Hsum : get_case_summary environ_token http py_repr int_beyond title c
                   "legal_analysis" "12000" tr =
                 (Val ("Error fetching opinion " +++ c +++ ": " +++ msg), tr')).
  { rewrite (get_case_summary_opinion environ_token http py_repr int_beyond title c
               "legal_analysis" "12000" c tr tr
               (resolve_digits environ_token http py_repr c tr Hd)
               (isdigit_not_empty c Hd)).
    rewrite Hreq. unfold summary_report. cbn [py_in py_getitem and_then].
    unfold dict_has. rewrite He. reflexivity. }
  split; [exact Hsum|]. split.
  - unfold analyze_case_impact, bind. rewrite Hsum.
    rewrite (fetch_error_unmarked c msg Hd Hm). reflexivity.
  - repeat split; reflexivity.
Qed.

(** X23. [compare_cases] gets both summaries before it looks at either:
    when the first one already holds [Error:], the second case is fetched
    all the same, and only then is the error of the first returned. *)
Theorem second_case_fetched_after_failure c1 c2 comparison_focus s1 tr tr1 :
  str_isdigit c2 = true ->
  get_case_summary environ_token http py_repr int_beyond title c1 "overview" "8000" tr =
    (Val s1, tr1) ->
  contains "Error:" s1 = true ->
  (exists new,
      snd (compare_cases environ_token http py_repr int_beyond title c1 c2 comparison_focus tr) =
        tr1 ++ ApiCall ("opinions/" +++ c2) [("fields", opinion_fields)] 3 :: new /\
      api_calls new = [] /\ (1 <= gets_of new <= 3)%nat) /\
  (forall s2 tr2,
      get_case_summary environ_token http py_repr int_beyond title c2 "overview" "8000" tr1 =
        (Val s2, tr2) ->
      compare_cases environ_token http py_repr int_beyond title c1 c2 comparison_focus tr =
        (Val ("Case 1 Error: " +++ s1), tr2)).
Proof.
  intros Hd Hs1 He.
  assert (Hsnd : snd (compare_cases environ_token http py_repr int_beyond title c1 c2
                        comparison_focus tr) =
                 snd (get_case_summary environ_token http py_repr int_beyond title c2
                        "overview" "8000" tr1)).
  { unfold compare_cases, bind. rewrite Hs1, He.
    destruct (get_case_summary environ_token http py_repr int_beyond title c2 "overview" "8000"
                tr1) as [[s2|e|] tr2]; reflexivity. }
  split.
  - rewrite Hsnd.
    rewrite (get_case_summary_opinion environ_token http py_repr int_beyond title c2
               "overview" "8000" c2 tr1 tr1
               (resolve_digits environ_token http py_repr c2 tr1 Hd)
               (isdigit_not_empty c2 Hd)).
    destruct (make_api_request_three environ_token http ("opinions/" +++ c2)
                [("fields", opinion_fields)] tr1) as [new [Htr [Hc [Hg _]]]].
    exists new. split; [|split; [exact Hc|exact Hg]].
    destruct (make_api_request environ_token http ("opinions/" +++ c2) _ 3 tr1)
      as [[result|e|] tr2]; exact Htr.
  - intros s2 tr2 Hs2. unfold compare_cases, bind. rewrite Hs1, Hs2, He. reflexivity.
Qed.

End Impact.

(** *** The text of the opinion *)

(** X24. How the text of an opinion is limited.  With a maximum [n >= 0]
    a text of at most [n] characters is left as it is and a longer one is
    cut to its first [n] characters, with the marker of truncation after
    them; a negative maximum cuts every text, dropping its last [-n]
    characters, and marks it; and a maximum that is not an integer cuts
    to 10000 characters without a marker. *)
Theorem summary_text_limit (int_beyond : string -> option Z) max_text_length s :
  (forall n, py_int int_beyond max_text_length = Val n -> 0 <= n ->
             Z.of_nat (char_count s) <= n ->
             limit_text int_beyond max_text_length (JStr s) = Val (JStr s)) /\
  (forall n, py_int int_beyond max_text_length = Val n -> 0 <= n ->
             n < Z.of_nat (char_count s) ->
             limit_text int_beyond max_text_length (JStr s) =
               Val (JStr (take_chars (Z.to_nat n) s
                          +++ "\n\n[TEXT TRUNCATED FOR ANALYSIS]")) /\
             Z.of_nat (char_count (take_chars (Z.to_nat n) s
                                   +++ "\n\n[TEXT TRUNCATED FOR ANALYSIS]"))
               = n + 33) /\
  (forall n, py_int int_beyond max_text_length = Val n -> n < 0 ->
             limit_text int_beyond max_text_length (JStr s) =
               Val (JStr (take_chars (Z.to_nat (Z.of_nat (char_count s) + n)) s
                          +++ "\n\n[TEXT TRUNCATED FOR ANALYSIS]"))) /\
  (py_int int_beyond max_text_length = Exc ValueError ->
   limit_text int_beyond max_text_length (JStr s) = Val (JStr (take_chars (Z.to_nat 10000) s)) /\
   Z.of_nat (char_count (take_chars (Z.to_nat 10000) s)) <= 10000 /\
   (Z.of_nat (char_count s) <= 10000 -> take_chars (Z.to_nat 10000) s = s)).
Proof.
  split; [|split; [|split]].
  - intros n Hn H0 Hle. unfold limit_text. rewrite Hn. cbn [py_len and_then].
    replace (n <? Z.of_nat (char_count s)) with false
      by (symmetry; apply Z.ltb_ge; exact Hle).
    reflexivity.
  - intros n Hn H0 Hlt. unfold limit_text. rewrite Hn. cbn [py_len and_then].
    replace (n <? Z.of_nat (char_count s)) with true
      by (symmetry; apply Z.ltb_lt; exact Hlt).
    cbn [py_slice_to and_then py_add_str]. unfold slice_stop.
    replace (n <? 0) with false by (symmetry; apply Z.ltb_ge; exact H0).
    replace (Z.min n (Z.of_nat (char_count s))) with n by lia.
    split; [reflexivity|].
    rewrite char_count_append, char_count_take.
    change (char_count "\n\n[TEXT TRUNCATED FOR ANALYSIS]") with 33%nat. lia.
  - intros n Hn Hneg. unfold limit_text. rewrite Hn. cbn [py_len and_then].
    replace (n <? Z.of_nat (char_count s)) with true
      by (symmetry; apply Z.ltb_lt; lia).
    cbn [py_slice_to and_then py_add_str]. unfold slice_stop.
    replace (n <? 0) with true by (symmetry; apply Z.ltb_lt; exact Hneg).
    replace (Z.to_nat (Z.max (Z.of_nat (char_count s) + n) 0))
      with (Z.to_nat (Z.of_nat (char_count s) + n)) by lia.
    reflexivity.
  - intros Hn. unfold limit_text. rewrite Hn. cbn [py_slice_to]. unfold slice_stop.
    cbn [Z.ltb Z.compare].
    split; [|split].
    + destruct (Z.le_gt_cases 10000 (Z.of_nat (char_count s))) as [Hbig|Hsmall].
      * replace (Z.min 10000 (Z.of_nat (char_count s))) with 10000 by lia.
        reflexivity.
      * replace (Z.min 10000 (Z.of_nat (char_count s)))
          with (Z.of_nat (char_count s)) by lia.
        rewrite Nat2Z.id, (take_chars_all (char_count s) s) by lia.
        rewrite (take_chars_all (Z.to_nat 10000) s) by lia. reflexivity.
    + rewrite char_count_take. lia.
    + intros Hle. apply take_chars_all. lia.
Qed.

Section Citations.
Variable environ_token : option string.
Variable http : trace -> string -> dict string -> dict string -> reply response.
Variable py_repr : json -> string.
Variable int_beyond : string -> option Z.
Variable title : string -> string.

(** X25. A [cluster] that is a link, not an object.  The summary guards
    its reading of the cluster and falls back on [Unknown Case]; the
    extraction of citations and the details of an opinion do not, and
    raise [AttributeError]. *)
Theorem cluster_link_breaks_citation_extraction c citation_type d link tr tr' :
  str_isdigit c = true ->
  make_api_request environ_token http ("opinions/" +++ c)
    [("fields", "id,cluster,plain_text,html")] 3 tr = (Val (JDict d), tr') ->
  dict_get "error" d = None ->
  dict_get "cluster" d = Some (JStr link) ->
  extract_case_citations environ_token http py_repr title c citation_type tr =
    (Exc AttributeError, tr') /\
  (forall opinion_id include_text,
      opinion_report py_repr opinion_id include_text (JDict d) = Exc AttributeError) /\
  case_information py_repr (JDict d) =
    Val (JStr "Unknown Case", JStr "Unknown Date", JStr "Unknown Court",
         match dict_get "author_str" d with
         | Some a => a
         | None => JStr "Unknown Author"
         end).
Proof.
  intros Hd Hreq He Hc. split; [|split].
  - unfold extract_case_citations, bind, lift, citation_opinion_id. rewrite Hd.
    destruct (String.eqb_spec c "") as [->|_]; [discriminate Hd|].
    rewrite Hreq. unfold citations_report. cbn [py_in py_get and_then].
    unfold dict_has. rewrite He, Hc. reflexivity.
  - intros opinion_id include_text. unfold opinion_report.
    cbn [py_in py_get and_then]. unfold dict_has. rewrite He, Hc. reflexivity.
  - unfold case_information. cbn [py_get and_then]. rewrite Hc. reflexivity.
Qed.

(** X26. The extraction of citations never searches by name: an
    identifier that is not a number and does not hold [/opinion/] is
    refused before any request. *)
Theorem citations_never_search c citation_type tr :
  is_ascii c = true ->
  str_isdigit c = false ->
  find "/opinion/" c = None ->
  extract_case_citations environ_token http py_repr title c citation_type tr =
    (Val (JStr ("Error: Could not determine opinion ID from '" +++ c +++ "'")), tr).
Proof.
  intros _ Hd F. unfold extract_case_citations, bind, lift, citation_opinion_id.
  rewrite Hd. destruct (contains "opinion/" c); [|reflexivity].
  unfold str_split. cbn [and_then].
  destruct (String.length c); cbn [split_fuel]; rewrite F; reflexivity.
Qed.

(** X27. The search by name never reports
    [Could not extract opinion ID from search result]: when the link of
    the first result holds [/opinion/], cutting it there cannot fail with
    [IndexError]. *)
Theorem search_result_id_always_extracted c tr :
  fst (resolve_by_name environ_token http py_repr c tr) <>
    Val (Report "Error: Could not extract opinion ID from search result").
Proof.
  unfold resolve_by_name, bind, lift.
  destruct (make_api_request environ_token http "search" _ 3 tr) as [[v|e|] tr'];
    cbn [fst]; [|discriminate|discriminate].
  destruct (py_in "error" v) as [[|]| |]; cbn [and_then]; try discriminate.
  { destruct (py_getitem v "error"); cbn [and_then]; discriminate. }
  destruct (py_get v "results" (JList [])) as [results| |]; cbn [and_then];
    try discriminate.
  destruct (negb (truthy results)); [discriminate|].
  destruct (py_first results) as [first_result| |]; cbn [and_then]; try discriminate.
  destruct (py_get first_result "absolute_url" (JStr "")) as [u| |]; cbn [and_then];
    try discriminate.
  destruct u as [| b | n | s | l | f]; cbn [py_in and_then]; try discriminate.
  - destruct (contains "/opinion/" s) eqn:C; [|discriminate].
    unfold contains in C.
    destruct (find "/opinion/" s) as [[x y]|] eqn:F; [|discriminate C].
    rewrite (id_of_url_found _ _ _ F). discriminate.
  - destruct (existsb (is_str "/opinion/") l); [|discriminate].
    cbn. discriminate.
  - destruct (dict_has "/opinion/" f); [|discriminate].
    cbn. discriminate.
Qed.

End Citations.

(** *** The details of an opinion and the other listings *)

Lemma dict_get_del_other {A} (k k' : string) (d : dict A) :
  k <> k' -> dict_get k (dict_del k' d) = dict_get k d.
Proof.
  intros Hne. induction d as [|[k0 v0] d IH]; [reflexivity|].
  cbn [dict_del dict_get]. destruct (String.eqb_spec k0 k') as [->|Hk].
  - destruct (String.eqb_spec k' k) as [E|_]; [congruence|reflexivity].
  - cbn [dict_get]. destruct (String.eqb k0 k); [reflexivity|exact IH].
Qed.

Lemma dict_get_set_other {A} (k k' : string) (v : A) (d : dict A) :
  k <> k' -> dict_get k (dict_set k' v d) = dict_get k d.
Proof.
  intros Hne. induction d as [|[k0 v0] d IH]; cbn [dict_set dict_get].
  - destruct (String.eqb_spec k' k) as [E|_]; [congruence|reflexivity].
  - destruct (String.eqb_spec k0 k') as [->|Hk]; cbn [dict_get].
    + destruct (String.eqb_spec k' k) as [E|_]; [congruence|reflexivity].
    + destruct (String.eqb k0 k); [reflexivity|exact IH].
Qed.

Lemma dict_get_set_same {A} (k : string) (v : A) (d : dict A) :
  dict_get k (dict_set k v d) = Some v.
Proof.
  induction d as [|[k0 v0] d IH]; cbn [dict_set dict_get].
  - rewrite String.eqb_refl. reflexivity.
  - destruct (String.eqb k0 k) eqn:E; cbn [dict_get]; rewrite E; [reflexivity|exact IH].
Qed.

Lemma take_chars_min (n : nat) (s : string) :
  take_chars (Nat.min n (char_count s)) s = take_chars n s.
Proof.
  destruct (Nat.le_gt_cases n (char_count s)) as [H|H].
  - rewrite Nat.min_l by exact H. reflexivity.
  - rewrite Nat.min_r by lia. rewrite !take_chars_all by lia. reflexivity.
Qed.

(** The filters of a request: none is empty, none is repeated. *)
Lemma optional_no_empty (base : dict string) (filters : list (string * string)) :
  no_empty_value base -> no_empty_value (base ++ flat_map optional filters).
Proof.
  intros Hb k v Hin. apply in_app_or in Hin. destruct Hin as [Hin|Hin].
  - exact (Hb k v Hin).
  - apply in_flat_map in Hin. destruct Hin as [[k' v'] [_ Hin]].
    unfold optional in Hin. cbn [snd] in Hin.
    destruct (String.eqb_spec v' "") as [|Hv]; [destruct Hin|].
    destruct Hin as [[= _ <-]|[]]. exact Hv.
Qed.

Lemma optional_keys_sub (filters : list (string * string)) (k : string) :
  In k (keys (flat_map optional filters)) -> In k (map fst filters).
Proof.
  induction filters as [|[k' v'] filters IH]; [intros []|].
  cbn [flat_map]. rewrite keys_app. intros Hin. apply in_app_or in Hin.
  destruct Hin as [Hin|Hin].
  - unfold optional in Hin. cbn [snd] in Hin.
    destruct (String.eqb v' ""); [destruct Hin|].
    destruct Hin as [<-|[]]. left. reflexivity.
  - right. apply IH. exact Hin.
Qed.

Lemma optional_nodup (filters : list (string * string)) :
  NoDup (map fst filters) -> NoDup (keys (flat_map optional filters)).
Proof.
  induction filters as [|[k v] filters IH]; intros Hn; [constructor|].
  cbn [flat_map map fst] in *. inversion Hn as [|? ? Hk Hrest]; subst.
  rewrite keys_app. unfold optional at 1. cbn [snd].
  destruct (String.eqb v ""); cbn [keys map fst app]; [exact (IH Hrest)|].
  constructor; [|exact (IH Hrest)].
  intros Hin. apply Hk. apply optional_keys_sub. exact Hin.
Qed.

Lemma optional_chain_nodup (field_list : string) (filters : list (string * string)) :
  NoDup ("fields" :: map fst filters) ->
  NoDup (keys ([("fields", field_list)] ++ flat_map optional filters)).
Proof.
  intros Hn. inversion Hn as [|? ? Hk Hrest]; subst.
  cbn [app keys map fst]. constructor; [|exact (optional_nodup filters Hrest)].
  intros Hin. apply Hk. apply optional_keys_sub. exact Hin.
Qed.

Section ListingFacts.
Variable environ_token : option string.
Variable http : trace -> string -> dict string -> dict string -> reply response.
Variable py_repr : json -> string.
Variable int_beyond : string -> option Z.

Lemma one_call endpoint params (report : json -> outcome json) tr :
  exists new,
    snd ((result <- make_api_request environ_token http endpoint params 3 ;;
          lift (report result)) tr) =
      tr ++ ApiCall endpoint params 3 :: new /\
    api_calls new = [].
Proof.
  unfold bind, lift.
  destruct (make_api_request_three environ_token http endpoint params tr)
    as [new [Htr [Hc _]]].
  exists new. split; [|exact Hc].
  destruct (make_api_request environ_token http endpoint params 3 tr)
    as [[v|e|] tr']; exact Htr.
Qed.

(** X28. The text of an opinion is asked for and shown only on request.
    [get_opinion_by_id] makes one call, for the opinion named, and asks
    for [plain_text] exactly when [include_text] is [yes] in any case of
    letters; otherwise the [plain_text] of the result has no influence
    on the report; and when the text is asked for and there, what is
    shown is its first 2000 characters, always followed by three dots. *)
Theorem opinion_text_only_on_request opinion_id include_text tr :
  (exists new,
      snd (get_opinion_by_id environ_token http py_repr opinion_id include_text tr) =
        tr ++ ApiCall ("opinions/" +++ opinion_id)
                      [("fields", opinion_detail_fields include_text)] 3 :: new /\
      api_calls new = []) /\
  contains "plain_text" (opinion_detail_fields include_text) =
    String.eqb (str_lower include_text) "yes" /\
  (String.eqb (str_lower include_text) "yes" = false ->
   forall d,
     opinion_report py_repr opinion_id include_text (JDict (dict_del "plain_text" d)) =
     opinion_report py_repr opinion_id include_text (JDict d)) /\
  (String.eqb (str_lower include_text) "yes" = true ->
   forall d s,
     dict_get "error" d = None ->
     match dict_get "cluster" d with
     | None | Some (JDict _) => True
     | _ => False
     end ->
     dict_get "plain_text" d = Some (JStr s) ->
     s <> "" ->
     exists head tail,
       opinion_report py_repr opinion_id include_text (JDict d) =
         Val (JStr (head +++ nl +++ "Opinion Text (first 2000 chars):" +++ nl
                         +++ take_chars (Z.to_nat 2000) s +++ "..." +++ nl +++ tail)) /\
       Z.of_nat (char_count (take_chars (Z.to_nat 2000) s)) <= 2000).
Proof.
  split; [|split; [|split]].
  - unfold get_opinion_by_id. cbv zeta. apply one_call.
  - unfold opinion_detail_fields.
    destruct (String.eqb (str_lower include_text) "yes"); reflexivity.
  - intros Hno d. unfold opinion_report. rewrite Hno.
    cbn [py_in py_get py_getitem]. unfold dict_has.
    rewrite !dict_get_del_other by (intros E; discriminate E). reflexivity.
  - intros Hyes d s He Hcl Hp Hne. unfold opinion_report. rewrite Hyes.
    cbn [py_in py_get py_getitem and_then]. unfold dict_has. rewrite He, Hp.
    cbn [and_then].
    assert (Ht : truthy (JStr s) = true).
    { cbn [truthy]. destruct (String.eqb_spec s ""); [congruence|reflexivity]. }
    rewrite Ht. cbn [py_slice_to and_then py_str]. unfold slice_stop.
    cbn [Z.ltb Z.compare].
    assert (Hcut : take_chars (Z.to_nat (Z.min 2000 (Z.of_nat (char_count s)))) s =
                   take_chars (Z.to_nat 2000) s).
    { rewrite Z2Nat.inj_min, Nat2Z.id. apply take_chars_min. }
    rewrite Hcut.
    assert (Hlen : Z.of_nat (char_count (take_chars (Z.to_nat 2000) s)) <= 2000)
      by (rewrite char_count_take; lia).
    destruct (dict_get "cluster" d) as [[| | | | |f]|]; try destruct Hcl;
      cbn [py_get and_then];
      (destruct (dict_get "download_url" d) as [u|]; cbn [truthy and_then];
       [destruct (truthy u); cbn [and_then]|]);
      eexists; eexists; (split; [|exact Hlen]);
      apply f_equal; apply f_equal; rewrite append_assoc; apply f_equal;
      unfold nl; cbn [String.append]; rewrite ?append_assoc; cbn [String.append];
      reflexivity.
Qed.

Lemma search_dockets_params_cases case_name docket_number court date_filed_after
    date_filed_before nature_of_suit :
  search_dockets_params case_name docket_number court date_filed_after
                        date_filed_before nature_of_suit =
  [("fields",
    "id,case_name,docket_number,court,date_filed,nature_of_suit,absolute_url")]
  ++ flat_map optional
       [("case_name__icontains", case_name);
        ("docket_number__icontains", docket_number);
        ("court", court);
        ("date_filed__gte", date_filed_after);
        ("date_filed__lte", date_filed_before);
        ("nature_of_suit__icontains", nature_of_suit)].
Proof.
  unfold search_dockets_params, optional. cbn [flat_map snd].
  destruct (String.eqb case_name ""), (String.eqb docket_number ""),
    (String.eqb court ""), (String.eqb date_filed_after ""),
    (String.eqb date_filed_before ""), (String.eqb nature_of_suit ""); reflexivity.
Qed.

Lemma search_courts_params_cases name jurisdiction :
  search_courts_params name jurisdiction =
  [("fields",
    "id,full_name,short_name,jurisdiction,start_date,end_date,absolute_url")]
  ++ flat_map optional
       [("full_name__icontains", name); ("jurisdiction", jurisdiction)].
Proof.
  unfold search_courts_params, optional. cbn [flat_map snd].
  destruct (String.eqb name ""), (String.eqb jurisdiction ""); reflexivity.
Qed.

Lemma search_people_params_cases name court position_type :
  search_people_params name court position_type =
  [("fields", "id,name_full,positions,absolute_url")]
  ++ flat_map optional
       [("name_full__icontains", name);
        ("positions__court", court);
        ("positions__position_type", position_type)].
Proof.
  unfold search_people_params, optional. cbn [flat_map snd].
  destruct (String.eqb name ""), (String.eqb court ""),
    (String.eqb position_type ""); reflexivity.
Qed.

Lemma fields_no_empty (field_list : string) :
  field_list <> "" -> no_empty_value [("fields", field_list)].
Proof. intros Hne k v [[= _ <-]|[]]. exact Hne. Qed.

(** X29. The requests of the three listings.  [search_dockets],
    [search_courts] and [search_people] each make one call of the
    request function, to their own endpoint, with the default budget.
    The parameters are the fixed list of fields followed by the filters
    that are not empty, each under its key of the API and in the order
    of the code; no value is empty and no key is repeated. *)
Theorem listing_requests case_name docket_number court date_filed_after
    date_filed_before nature_of_suit name jurisdiction position_type limit tr :
  let docket_params :=
    [("fields",
      "id,case_name,docket_number,court,date_filed,nature_of_suit,absolute_url")]
    ++ flat_map optional
         [("case_name__icontains", case_name);
          ("docket_number__icontains", docket_number);
          ("court", court);
          ("date_filed__gte", date_filed_after);
          ("date_filed__lte", date_filed_before);
          ("nature_of_suit__icontains", nature_of_suit)] in
  let court_params :=
    [("fields",
      "id,full_name,short_name,jurisdiction,start_date,end_date,absolute_url")]
    ++ flat_map optional
         [("full_name__icontains", name); ("jurisdiction", jurisdiction)] in
  let people_params :=
    [("fields", "id,name_full,positions,absolute_url")]
    ++ flat_map optional
         [("name_full__icontains", name);
          ("positions__court", court);
          ("positions__position_type", position_type)] in
  (exists new,
      snd (search_dockets environ_token http py_repr int_beyond case_name docket_number court
             date_filed_after date_filed_before nature_of_suit limit tr) =
        tr ++ ApiCall "dockets" docket_params 3 :: new /\
      api_calls new = []) /\
  (exists new,
      snd (search_courts environ_token http py_repr name jurisdiction tr) =
        tr ++ ApiCall "courts" court_params 3 :: new /\
      api_calls new = []) /\
  (exists new,
      snd (search_people environ_token http py_repr int_beyond name court position_type limit tr) =
        tr ++ ApiCall "people" people_params 3 :: new /\
      api_calls new = []) /\
  no_empty_value docket_params /\ NoDup (keys docket_params) /\
  no_empty_value court_params /\ NoDup (keys court_params) /\
  no_empty_value people_params /\ NoDup (keys people_params).
Proof.
  cbv zeta.
  split; [|split; [|split]].
  - unfold search_dockets. cbv zeta. rewrite search_dockets_params_cases.
    apply one_call.
  - unfold search_courts. cbv zeta. rewrite search_courts_params_cases.
    apply one_call.
  - unfold search_people. cbv zeta. rewrite search_people_params_cases.
    apply one_call.
  - split; [apply optional_no_empty, fields_no_empty; discriminate|].
    split.
    { apply optional_chain_nodup. cbn [map fst].
      repeat (constructor; [simpl; intuition discriminate|]). constructor. }
    split; [apply optional_no_empty, fields_no_empty; discriminate|].
    split.
    { apply optional_chain_nodup. cbn [map fst].
      repeat (constructor; [simpl; intuition discriminate|]). constructor. }
    split; [apply optional_no_empty, fields_no_empty; discriminate|].
    apply optional_chain_nodup. cbn [map fst].
    repeat (constructor; [simpl; intuition discriminate|]). constructor.
Qed.

(** X30. At most three positions of a person are read: the positions
    after the third have no influence on the entry of the person. *)
Theorem positions_capped_at_three i f l output :
  dict_get "positions" f = Some (JList l) ->
  person_entry py_repr i (JDict (dict_set "positions" (JList (firstn 3 l)) f)) output =
  person_entry py_repr i (JDict f) output.
Proof.
  intros Hp. unfold person_entry. cbn [py_get and_then].
  rewrite (dict_get_set_other "name_full" "positions") by (intros E; discriminate E).
  rewrite (dict_get_set_other "absolute_url" "positions")
    by (intros E; discriminate E).
  rewrite dict_get_set_same, Hp. cbn [and_then].
  destruct l as [|p1 [|p2 [|p3 l]]]; try reflexivity.
  cbn [truthy firstn py_slice_to List.length and_then py_iter].
  unfold slice_stop. cbn [Z.ltb Z.compare].
  replace (Z.to_nat (Z.min 3 (Z.of_nat (S (S (S (List.length l))))))) with 3%nat by lia.
  reflexivity.
Qed.

End ListingFacts.

(** *** Examples *)

(** A limit of minus one on two cases: the header announces -1 and one
    case is listed. *)
Lemma cases_shown_witness :
  dict_get "error" two_cases = None /\
  exists label count,
    fst (search_cases None (answers (ok_response (JDict two_cases))) blank_repr plain_only
           "visa" "" "" "" "" "" "" "on" "-1" []) =
      Val (JStr ("Found 2 cases (showing " +++ str_of_int label +++ "):" +++ nl +++ nl
                 +++ "1. First v. Second" +++ nl
                 +++ "   Court: Unknown Court" +++ nl
                 +++ "   Date: Unknown Date" +++ nl
                 +++ "   Docket: N/A" +++ nl
                 +++ "   Citations: 0" +++ nl +++ nl)) /\
    label = -1 /\ count = 1%nat.
Proof.
  assert (H1 : dict_get "error" two_cases = None) by reflexivity.
  split; [exact H1|].
  destruct (cases_shown blank_repr plain_only "-1" two_cases _ H1 eq_refl)
    as [label [count [_ [_ [_ [_ Hneg]]]]]].
  destruct (Hneg (-1) eq_refl ltac:(lia)) as [Hl Hc].
  exists label, count. rewrite Hl. split; [reflexivity|]. split; [reflexivity|].
  simpl in Hc. lia.
Defined.

(** The highlighted snippet loses its tags. *)
Lemma snippet_marks_replaced_witness :
  dict_get "snippet" marked_case = Some (JStr "an <mark>F-1</mark> student") /\
  exists lines shown_snippet,
    case_entry blank_repr 1 (JDict marked_case) "" =
      Val ("" +++ lines +++ "   Snippet: " +++ shown_snippet +++ nl +++ nl) /\
    contains "<mark>" shown_snippet = false /\
    contains "</mark>" shown_snippet = false.
Proof.
  split; [reflexivity|].
  destruct (snippet_marks_replaced blank_repr 1 marked_case
              "an <mark>F-1</mark> student" "" eq_refl ltac:(discriminate))
    as [lines [shown_snippet [H1 [H2 [H3 _]]]]].
  exists lines, shown_snippet. split; [exact H1|]. split; [exact H2|exact H3].
Defined.

(** A link to an opinion: the number after [/opinion/] is fetched. *)
Lemma identifier_resolved_without_search_witness :
  find "/opinion/" "https://www.courtlistener.com/opinion/118395/roe-v-wade/" =
    Some ("https://www.courtlistener.com", "118395/roe-v-wade/") /\
  before "/" "118395/roe-v-wade/" = "118395" /\
  exists new,
    snd (get_case_summary None always_timeout blank_repr plain_only plain_title
           "https://www.courtlistener.com/opinion/118395/roe-v-wade/"
           "overview" "10000" []) =
      [] ++ ApiCall ("opinions/" +++ before "/" "118395/roe-v-wade/")
                    [("fields", opinion_fields)] 3 :: new /\
    api_calls new = [].
Proof.
  split; [reflexivity|]. split; [reflexivity|].
  refine (proj1 (proj1 (proj2 (identifier_resolved_without_search None always_timeout
                                 blank_repr plain_only plain_title
                                 "https://www.courtlistener.com/opinion/118395/roe-v-wade/"
                                 "overview" "10000" []))
                   "https://www.courtlistener.com" "118395/roe-v-wade/" eq_refl) _).
  discriminate.
Defined.

(** A case name is searched for. *)
Lemma name_is_searched_first_witness :
  is_ascii "Roe v. Wade" = true /\ str_isdigit "Roe v. Wade" = false /\
  contains "opinion/" "Roe v. Wade" = false /\
  exists new,
    snd (get_case_summary None always_timeout blank_repr plain_only plain_title "Roe v. Wade"
           "overview" "10000" []) =
      [] ++ ApiCall "search" [("type", "o"); ("q", dq +++ "Roe v. Wade" +++ dq);
                              ("fields", "id,absolute_url")] 3 :: new /\
    (api_calls new = [] \/
     exists opinion_id,
       opinion_id <> "" /\
       api_calls new = [("opinions/" +++ opinion_id, [("fields", opinion_fields)], 3)]).
Proof.
  split; [reflexivity|]. split; [reflexivity|]. split; [reflexivity|].
  exact (name_is_searched_first None always_timeout blank_repr plain_only plain_title
           "Roe v. Wade" "overview" "10000" [] eq_refl eq_refl eq_refl).
Defined.

(** A 404 on the fetch: the impact analysis wraps the error text. *)
Lemma fetch_failure_not_recognised_witness :
  str_isdigit "118395" = true /\
  contains "Error:" not_found_message = false /\
  fst (analyze_case_impact None (answers (status_response 404)) blank_repr plain_only
         plain_title "118395" "basic" []) =
    Val (impact_prompt plain_title "basic"
           ("Error fetching opinion " +++ "118395" +++ ": " +++ not_found_message)).
Proof.
  split; [reflexivity|]. split; [reflexivity|].
  refine (f_equal fst
            (proj1 (proj2 (fetch_failure_not_recognised None
                             (answers (status_response 404)) blank_repr plain_only
                             plain_title "118395" "basic" [("error", JStr not_found_message)]
                             not_found_message [] _ eq_refl _ eq_refl eq_refl)))).
  vm_compute. reflexivity.
Defined.

(** Two opinions without text: the second is fetched although the first
    summary is already an error. *)
Lemma second_case_fetched_after_failure_witness :
  str_isdigit "2" = true /\
  exists s1 tr1,
    get_case_summary None (answers (ok_response (JDict []))) blank_repr plain_only plain_title
      "1" "overview" "8000" [] = (Val s1, tr1) /\
    contains "Error:" s1 = true /\
    exists new,
      snd (compare_cases None (answers (ok_response (JDict []))) blank_repr plain_only
             plain_title "1" "2" "holdings" []) =
        tr1 ++ ApiCall ("opinions/" +++ "2") [("fields", opinion_fields)] 3 :: new /\
      api_calls new = [] /\ (1 <= gets_of new <= 3)%nat.
Proof.
  split; [reflexivity|].
  eexists. eexists. split; [vm_compute; reflexivity|]. split; [vm_compute; reflexivity|].
  refine (proj1 (second_case_fetched_after_failure None
                   (answers (ok_response (JDict []))) blank_repr plain_only
                   plain_title "1" "2" "holdings" _ [] _ eq_refl _ _)).
  - vm_compute. reflexivity.
  - vm_compute. reflexivity.
Defined.

(** The opinion whose cluster is a link. *)
Lemma cluster_link_breaks_citation_extraction_witness :
  str_isdigit "1" = true /\
  dict_get "cluster" linked_opinion =
    Some (JStr "https://www.courtlistener.com/api/rest/v4/clusters/1/") /\
  fst (extract_case_citations None (answers (ok_response (JDict linked_opinion)))
         blank_repr plain_title "1" "all" []) = Exc AttributeError.
Proof.
  split; [reflexivity|]. split; [reflexivity|].
  refine (f_equal fst
            (proj1 (cluster_link_breaks_citation_extraction None
                      (answers (ok_response (JDict linked_opinion))) blank_repr
                      plain_title "1" "all" linked_opinion
                      "https://www.courtlistener.com/api/rest/v4/clusters/1/"
                      [] _ eq_refl _ eq_refl eq_refl))).
  vm_compute. reflexivity.
Defined.

(** A case name: no request at all. *)
Lemma citations_never_search_witness :
  is_ascii "Roe v. Wade" = true /\ str_isdigit "Roe v. Wade" = false /\
  find "/opinion/" "Roe v. Wade" = None /\
  extract_case_citations None always_timeout blank_repr plain_title "Roe v. Wade"
    "all" [] =
    (Val (JStr ("Error: Could not determine opinion ID from '" +++ "Roe v. Wade"
                +++ "'")), []).
Proof.
  split; [reflexivity|]. split; [reflexivity|]. split; [reflexivity|].
  exact (citations_never_search None always_timeout blank_repr plain_title
           "Roe v. Wade" "all" [] eq_refl eq_refl eq_refl).
Defined.

(** Eight characters cut to five. *)
Lemma summary_text_limit_witness :
  py_int plain_only "5" = Val 5 /\ 5 < Z.of_nat (char_count "abcdefgh") /\
  limit_text plain_only "5" (JStr "abcdefgh") =
    Val (JStr ("abcde" +++ "\n\n[TEXT TRUNCATED FOR ANALYSIS]")).
Proof.
  assert (H : 5 < Z.of_nat (char_count "abcdefgh")) by (simpl; lia).
  split; [reflexivity|]. split; [exact H|].
  exact (proj1 (proj1 (proj2 (summary_text_limit plain_only "5" "abcdefgh")) 5 eq_refl
                  ltac:(lia) H)).
Defined.

(** The text is asked for with [Yes] and shown. *)
Lemma opinion_text_only_on_request_witness :
  String.eqb (str_lower "Yes") "yes" = true /\
  dict_get "plain_text" short_opinion = Some (JStr "It is so ordered.") /\
  exists head tail,
    opinion_report blank_repr "7" "Yes" (JDict short_opinion) =
      Val (JStr (head +++ nl +++ "Opinion Text (first 2000 chars):" +++ nl
                      +++ take_chars (Z.to_nat 2000) "It is so ordered." +++ "..."
                      +++ nl +++ tail)) /\
    Z.of_nat (char_count (take_chars (Z.to_nat 2000) "It is so ordered.")) <= 2000.
Proof.
  split; [reflexivity|]. split; [reflexivity|].
  refine (proj2 (proj2 (proj2 (opinion_text_only_on_request None always_timeout
                                 blank_repr "7" "Yes" [])))
            eq_refl short_opinion "It is so ordered." eq_refl _ eq_refl _).
  - exact I.
  - discriminate.
Defined.

(** The fourth position of a judge is not read. *)
Lemma positions_capped_at_three_witness :
  dict_get "positions" busy_judge = Some (JList four_positions) /\
  person_entry blank_repr 1
    (JDict (dict_set "positions" (JList (firstn 3 four_positions)) busy_judge)) "" =
  person_entry blank_repr 1 (JDict busy_judge) "".
Proof.
  split; [reflexivity|].
  exact (positions_capped_at_three blank_repr 1 busy_judge four_positions ""
           eq_refl).
Defined.

End ToolFacts.

(* ====================================================================== *)
(** ** More on the cycle of the client *)

Module CycleFacts.
Import Py Client ClientMore ClientFacts.

Lemma model_requests_app (a b : trace) :
  model_requests (a ++ b) = model_requests a ++ model_requests b.
Proof. unfold model_requests. apply flat_map_app. Qed.

Lemma prints_no_request (extra : trace) :
  forallb is_print extra = true -> model_requests extra = [].
Proof.
  induction extra as [|e extra IH]; intros H; [reflexivity|].
  simpl in H. apply andb_true_iff in H. destruct H as [He H].
  destruct e; try discriminate He. simpl. exact (IH H).
Qed.

Lemma preamble_no_request resources : model_requests (preamble resources) = [].
Proof.
  unfold preamble. rewrite !model_requests_app. simpl.
  rewrite prints_no_request; [reflexivity|].
  induction resources as [|r rs IH]; [reflexivity|exact IH].
Qed.

(** The turn of a listable tool goes through. *)
Lemma listable_turn (t : tool) :
  listable t = true ->
  exists v, (let? _ := printed_name t in
             let? _ := printed_properties t in converted t) = Val v /\
            converted t = Val v.
Proof.
  destruct t as [[[n|] d [s|]]|]; try discriminate.
  - destruct s as [| b | k | x | l | f]; try discriminate. intros _.
    destruct d as [d|]; [|exists JNull; split; reflexivity].
    unfold printed_name, printed_properties, converted, schema_properties.
    cbn [name inputSchema attribute py_get and_then].
    destruct (truthy (JDict f)); [|eexists; split; reflexivity].
    cbn [py_in and_then py_getitem]. unfold dict_has.
    destruct (dict_get "properties" f); eexists; split; reflexivity.
  - intros _. destruct d as [d|]; eexists; split; reflexivity.
Qed.

(** The turn of any other tool raises [AttributeError]. *)
Lemma unlistable_turn (t : tool) :
  listable t = false ->
  (let? _ := printed_name t in
   let? _ := printed_properties t in converted t) = Exc AttributeError.
Proof.
  destruct t as [[[n|] d [s|]]|]; try discriminate; try reflexivity.
  destruct s as [| b | k | x | l | f]; try discriminate; reflexivity.
Qed.

Lemma collect_functions_listable (ts : list tool) :
  forallb listable ts = true ->
  forall functions tr, exists extra,
    collect_functions ts functions tr =
      (Val (functions ++ flat_map contribution ts), tr ++ extra) /\
    forallb is_print extra = true.
Proof.
  induction ts as [|t ts IH]; intros Hall functions tr.
  - exists []. simpl. rewrite !app_nil_r. split; reflexivity.
  - simpl in Hall. apply andb_true_iff in Hall. destruct Hall as [Ht Hall].
    rewrite collect_functions_cons.
    destruct (listable_turn t Ht) as [v [-> Hv]].
    destruct (IH Hall (if truthy v then functions ++ [v] else functions)
                 (tr ++ tool_lines t)) as [extra [-> Hpr]].
    exists (tool_lines t ++ extra). rewrite <- app_assoc.
    split; [|rewrite forallb_app, tool_lines_prints; exact Hpr].
    cbn [flat_map]. unfold contribution at 2. rewrite Hv.
    destruct (truthy v); [rewrite <- app_assoc|]; reflexivity.
Qed.

Lemma collect_functions_unlistable (ts : list tool) :
  existsb (fun t => negb (listable t)) ts = true ->
  forall functions tr, exists extra,
    collect_functions ts functions tr = (Exc AttributeError, tr ++ extra) /\
    forallb is_print extra = true.
Proof.
  induction ts as [|t ts IH]; intros Hex functions tr; [discriminate Hex|].
  rewrite collect_functions_cons.
  destruct (listable t) eqn:Ht.
  - simpl in Hex. rewrite Ht in Hex. simpl in Hex.
    destruct (listable_turn t Ht) as [v [-> Hv]].
    destruct (IH Hex (if truthy v then functions ++ [v] else functions)
                 (tr ++ tool_lines t)) as [extra [-> Hpr]].
    exists (tool_lines t ++ extra). rewrite <- app_assoc.
    split; [reflexivity|rewrite forallb_app, tool_lines_prints; exact Hpr].
  - rewrite (unlistable_turn t Ht). exists (tool_lines t).
    split; [reflexivity|apply tool_lines_prints].
Qed.

(** Parsing a response whose argument strings are all JSON. *)
Lemma parse_calls_well_formed (calls : list tool_call) :
  Forall (fun c => well_formed c = true) calls ->
  forall acc tr,
    parse_calls calls acc tr =
      (Val (acc ++ map entry calls),
       tr ++ map (fun c => Printed (ToolCallLine c)) calls).
Proof.
  induction 1 as [|c calls Hc _ IH]; intros acc tr.
  - simpl. rewrite !app_nil_r. reflexivity.
  - cbn [parse_calls]. unfold bind at 1. unfold emit at 1. unfold bind at 1.
    unfold lift at 1. unfold well_formed in Hc.
    assert (He : forall v, function_arguments c = Encodes v ->
                 entry c = JDict [("name", JStr (function_name c)); ("args", v)]).
    { intros v Hv. unfold entry, decoded. rewrite Hv. reflexivity. }
    destruct (function_arguments c) as [v|]; [|discriminate Hc].
    cbn [json_loads map]. rewrite IH, (He v eq_refl), <- !app_assoc. reflexivity.
Qed.

Section Cycle.
Variable environ_openai_key : option string.
Variable llm : trace -> string -> list json -> reply (option (list tool_call)).
Variable resources : list json.
Variable tools : list tool.
Variable call_tool : trace -> json -> json -> reply json.

(** One turn of the loop over the parsed calls. *)
Lemma dispatch_entry (c : tool_call) (rest : list json) tr :
  dispatch call_tool (entry c :: rest) tr =
  match call_tool tr (JStr (function_name c)) (decoded c) with
  | Gives result =>
      dispatch call_tool rest
        (tr ++ [CallTool (JStr (function_name c)) (decoded c);
                Printed (ToolsResult result)])
  | Fails e => (Exc e, tr ++ [CallTool (JStr (function_name c)) (decoded c)])
  end.
Proof.
  cbn [dispatch]. unfold bind, lift, emit, entry. cbn [py_getitem dict_get].
  cbn [String.eqb Ascii.eqb Bool.eqb]. cbn [py_getitem dict_get].
  destruct (call_tool tr (JStr (function_name c)) (decoded c)) as [result|e];
    cbn [of_reply]; [rewrite <- app_assoc|]; reflexivity.
Qed.

Lemma dispatch_entries (calls : list tool_call) :
  (forall h c, In c calls ->
               exists r, call_tool h (JStr (function_name c)) (decoded c) = Gives r) ->
  forall rest tr, exists extra,
    dispatch call_tool (map entry calls ++ rest) tr =
      dispatch call_tool rest (tr ++ extra) /\
    invoked extra = map invocation calls /\
    model_requests extra = [].
Proof.
  induction calls as [|c calls IH]; intros Hok rest tr.
  - exists []. rewrite app_nil_r. split; [reflexivity|split; reflexivity].
  - cbn [map app]. rewrite dispatch_entry.
    destruct (Hok tr c (or_introl eq_refl)) as [r ->].
    destruct (IH (fun h c' Hin => Hok h c' (or_intror Hin)) rest
                 (tr ++ [CallTool (JStr (function_name c)) (decoded c);
                         Printed (ToolsResult r)])) as [extra [-> [Hinv Hreq]]].
    exists ([CallTool (JStr (function_name c)) (decoded c); Printed (ToolsResult r)]
            ++ extra).
    rewrite <- app_assoc. split; [reflexivity|].
    rewrite invoked_app, model_requests_app, Hinv, Hreq. split; reflexivity.
Qed.

Lemma dispatch_no_request (fs : list json) :
  forall tr, exists extra,
    snd (dispatch call_tool fs tr) = tr ++ extra /\ model_requests extra = [].
Proof.
  induction fs as [|f fs IH]; intros tr.
  - exists []. simpl. rewrite app_nil_r. split; reflexivity.
  - cbn [dispatch]. unfold bind at 1. unfold lift at 1.
    destruct (py_getitem f "name") as [n| |];
      [|exists []; rewrite app_nil_r; split; reflexivity
       |exists []; rewrite app_nil_r; split; reflexivity].
    unfold bind at 1. unfold lift at 1.
    destruct (py_getitem f "args") as [a| |];
      [|exists []; rewrite app_nil_r; split; reflexivity
       |exists []; rewrite app_nil_r; split; reflexivity].
    unfold bind at 1.
    destruct (call_tool tr n a) as [result|e]; cbn [of_reply].
    + unfold bind at 1. unfold emit at 1.
      destruct (IH ((tr ++ [CallTool n a]) ++ [Printed (ToolsResult result)]))
        as [extra [Htr Hs]].
      exists ([CallTool n a; Printed (ToolsResult result)] ++ extra).
      rewrite Htr, <- !app_assoc. split; [reflexivity|exact Hs].
    + exists [CallTool n a]. split; reflexivity.
Qed.

(** With listable tools of which one at least is converted, and a model
    whose response is well formed, the cycle comes to the loop over the
    parsed calls having made its one request and no invocation. *)
Lemma run_to_dispatch (calls : list tool_call) tr :
  environ_openai_key <> None ->
  forallb listable tools = true ->
  flat_map contribution tools <> [] ->
  (forall h p fs, llm h p fs = Gives (Some calls)) ->
  Forall (fun c => well_formed c = true) calls ->
  exists tr2,
    run environ_openai_key llm resources tools call_tool tr = dispatch call_tool (map entry calls) tr2 /\
    invoked tr2 = invoked tr /\
    model_requests tr2 =
      model_requests tr
      ++ [(system_message, the_prompt, flat_map contribution tools)].
Proof.
  intros Hkey Hlist Hne Hllm Hwf.
  destruct (collect_functions_listable tools Hlist [] (tr ++ preamble resources))
    as [extra [Hcol Hpr]].
  destruct (prints_silent _ Hpr) as [_ Hinv].
  assert (Hreq := prints_no_request _ Hpr).
  destruct (preamble_silent resources) as [_ Hpre].
  rewrite run_turn, Hcol. cbn [app].
  destruct (flat_map contribution tools) as [|f fs] eqn:Ef; [congruence|].
  rewrite call_llm_run.
  destruct environ_openai_key as [key|]; [|congruence].
  cbv zeta. rewrite Hllm.
  set (tr1 := (((tr ++ preamble resources) ++ extra)
               ++ [Printed (ValidFunctionsCount (List.length (f :: fs)))])
              ++ [Printed CallingLlm; LlmRequest system_message the_prompt (f :: fs)]).
  assert (H1 : invoked tr1 = invoked tr).
  { unfold tr1. rewrite !invoked_app, Hinv, Hpre. simpl. rewrite !app_nil_r.
    reflexivity. }
  assert (H2 : model_requests tr1 =
               model_requests tr ++ [(system_message, the_prompt, f :: fs)]).
  { unfold tr1. rewrite !model_requests_app, Hreq, preamble_no_request. simpl.
    rewrite !app_nil_r. reflexivity. }
  destruct calls as [|c rest].
  - exists tr1. split; [reflexivity|]. split; [exact H1|exact H2].
  - rewrite (parse_calls_well_formed (c :: rest) Hwf). cbn [app].
    assert (Hp : forallb is_print
                   (map (fun c0 => Printed (ToolCallLine c0)) (c :: rest)) = true).
    { clear. induction (c :: rest) as [|x l IH]; [reflexivity|exact IH]. }
    destruct (prints_silent _ Hp) as [_ Hi].
    eexists. split; [reflexivity|].
    rewrite invoked_app, model_requests_app, Hi, (prints_no_request _ Hp), H1, H2,
      !app_nil_r.
    split; reflexivity.
Qed.

(** X10. A tool that is [None], has no [name] attribute, or whose
    [inputSchema] is not a dict ends the cycle in [AttributeError] while
    the tools are listed: the model is not contacted and no tool is
    invoked, whatever the other tools are. *)
Theorem unlistable_tool_aborts_cycle tr :
  existsb (fun t => negb (listable t)) tools = true ->
  fst (run environ_openai_key llm resources tools call_tool tr) = Exc AttributeError /\
  model_requests (snd (run environ_openai_key llm resources tools call_tool tr)) = model_requests tr /\
  invoked (snd (run environ_openai_key llm resources tools call_tool tr)) = invoked tr.
Proof.
  intros Hex.
  destruct (collect_functions_unlistable tools Hex [] (tr ++ preamble resources))
    as [extra [Hcol Hpr]].
  destruct (prints_silent _ Hpr) as [_ Hinv].
  destruct (preamble_silent resources) as [_ Hpre].
  rewrite run_turn, Hcol. cbn [fst snd]. split; [reflexivity|].
  rewrite !model_requests_app, !invoked_app, (prints_no_request _ Hpr),
    preamble_no_request, Hinv, Hpre, !app_nil_r.
  split; reflexivity.
Qed.

(** X11. A cycle makes at most one request to the model; the request
    carries the fixed system message, the fixed prompt, and the schemas
    of the tools that were not turned down, in the order of the listing.
    With a key for the client in the environment, it is made whenever all
    tools are listable and one at least is converted.  Without one, no
    request is made and no tool is invoked: with such tools the cycle
    ends in the error of the client library. *)
Theorem one_request_with_all_schemas tr :
  (model_requests (snd (run environ_openai_key llm resources tools call_tool tr))
     = model_requests tr \/
   model_requests (snd (run environ_openai_key llm resources tools call_tool tr)) =
     model_requests tr
     ++ [("You are a helpful legal assistant that can call tools to perform tasks.",
          "I want to get some real cases of starting businesses with F-1 visa in the US. Can you help me with that? Please also give me the summary based on the opnion ID",
          flat_map contribution tools)]) /\
  (environ_openai_key <> None ->
   forallb listable tools = true ->
   flat_map contribution tools <> [] ->
   model_requests (snd (run environ_openai_key llm resources tools call_tool tr)) =
     model_requests tr
     ++ [("You are a helpful legal assistant that can call tools to perform tasks.",
          "I want to get some real cases of starting businesses with F-1 visa in the US. Can you help me with that? Please also give me the summary based on the opnion ID",
          flat_map contribution tools)]) /\
  (environ_openai_key = None ->
   model_requests (snd (run environ_openai_key llm resources tools call_tool tr))
     = model_requests tr /\
   invoked (snd (run environ_openai_key llm resources tools call_tool tr))
     = invoked tr /\
   (forallb listable tools = true ->
    flat_map contribution tools <> [] ->
    fst (run environ_openai_key llm resources tools call_tool tr)
      = Exc OpenAIError)).
Proof.
  change ("You are a helpful legal assistant that can call tools to perform tasks.")
    with system_message.
  change ("I want to get some real cases of starting businesses with F-1 visa in the US. Can you help me with that? Please also give me the summary based on the opnion ID")
    with the_prompt.
  assert (Hgen : forall f fs tr1,
    model_requests tr1 = model_requests tr ->
    model_requests
      (snd (match call_llm environ_openai_key llm the_prompt (f :: fs)
                    (tr1 ++ [Printed (ValidFunctionsCount (List.length (f :: fs)))]) with
            | (Val functions_to_call, tr2) => dispatch call_tool functions_to_call tr2
            | (Exc e, tr2) => (Exc e, tr2)
            | (Diverge, tr2) => (Diverge, tr2)
            end)) =
    model_requests tr
    ++ match environ_openai_key with
       | Some _ => [(system_message, the_prompt, f :: fs)]
       | None => []
       end).
  { intros f fs tr1 H1. rewrite call_llm_run.
    set (tr2 := tr1 ++ [Printed (ValidFunctionsCount (List.length (f :: fs)))]).
    destruct environ_openai_key as [key|].
    2:{ cbn [snd]. unfold tr2. rewrite model_requests_app, H1. reflexivity. }
    cbv zeta.
    assert (H2 : model_requests
                   (tr2 ++ [Printed CallingLlm;
                            LlmRequest system_message the_prompt (f :: fs)]) =
                 model_requests tr ++ [(system_message, the_prompt, f :: fs)]).
    { unfold tr2. rewrite !model_requests_app, H1. simpl. rewrite app_nil_r.
      reflexivity. }
    destruct (llm (tr2 ++ [Printed CallingLlm]) the_prompt (f :: fs))
      as [[[|c rest]|]|e]; try exact H2.
    destruct (parse_calls_prints (c :: rest) []
                (tr2 ++ [Printed CallingLlm;
                         LlmRequest system_message the_prompt (f :: fs)]))
      as [extra2 [Htr2 Hpr2]].
    assert (Hr2 := prints_no_request _ Hpr2).
    destruct (parse_calls (c :: rest) [] _) as [[ftc|e|] tr3]; cbn [snd] in Htr2;
      subst tr3.
    - destruct (dispatch_no_request ftc
                  ((tr2 ++ [Printed CallingLlm;
                            LlmRequest system_message the_prompt (f :: fs)])
                   ++ extra2)) as [extra3 [-> Hr3]].
      rewrite (model_requests_app _ extra3), (model_requests_app _ extra2),
        H2, Hr2, Hr3, !app_nil_r. reflexivity.
    - cbn [snd]. rewrite (model_requests_app _ extra2), H2, Hr2, app_nil_r.
      reflexivity.
    - cbn [snd]. rewrite (model_requests_app _ extra2), H2, Hr2, app_nil_r.
      reflexivity. }
  destruct (collect_functions_run tools [] (tr ++ preamble resources))
    as [extra [Htr [Hpr Hout]]].
  assert (Hreq := prints_no_request _ Hpr).
  destruct (prints_silent _ Hpr) as [_ Hinv].
  destruct (preamble_silent resources) as [_ Hpre].
  assert (Hsame : model_requests ((tr ++ preamble resources) ++ extra) =
                  model_requests tr).
  { rewrite !model_requests_app, Hreq, preamble_no_request, !app_nil_r. reflexivity. }
  assert (Hsame' : invoked ((tr ++ preamble resources) ++ extra) = invoked tr).
  { rewrite !invoked_app, Hinv, Hpre, !app_nil_r. reflexivity. }
  split; [|split].
  - rewrite run_turn.
    destruct (collect_functions tools [] (tr ++ preamble resources))
      as [[[|f fs]|e|] tr1]; cbn [snd] in Htr; subst tr1.
    + left. cbn [snd]. rewrite model_requests_app, Hsame. simpl.
      apply app_nil_r.
    + rewrite (Hgen f fs _ Hsame).
      assert (Ho := Hout (f :: fs) eq_refl). cbn [app] in Ho. rewrite <- Ho.
      destruct environ_openai_key; [right; reflexivity|left; apply app_nil_r].
    + left. exact Hsame.
    + left. exact Hsame.
  - intros Hkey Hlist Hne.
    destruct (collect_functions_listable tools Hlist [] (tr ++ preamble resources))
      as [extra' [Hcol _]].
    rewrite Hcol in Htr. cbn [snd] in Htr.
    rewrite run_turn, Hcol. cbn [app].
    destruct (flat_map contribution tools) as [|f fs]; [congruence|].
    rewrite (Hgen f fs _ (eq_trans (f_equal model_requests Htr) Hsame)).
    destruct environ_openai_key; [reflexivity|congruence].
  - intros Hkey. rewrite run_turn.
    destruct (collect_functions tools [] (tr ++ preamble resources))
      as [[[|f fs]|e|] tr1] eqn:Hcol; cbn [snd] in Htr; subst tr1.
    + cbn [fst snd]. rewrite model_requests_app, invoked_app, Hsame, Hsame'. simpl.
      rewrite !app_nil_r. split; [reflexivity|]. split; [reflexivity|].
      intros Hlist Hne.
      destruct (collect_functions_listable tools Hlist [] (tr ++ preamble resources))
        as [extra' [Hcol' _]].
      rewrite Hcol in Hcol'. injection Hcol' as Hf _. cbn [app] in Hf. congruence.
    + rewrite call_llm_run, Hkey. cbn [fst snd].
      rewrite model_requests_app, invoked_app, Hsame, Hsame'. simpl.
      rewrite !app_nil_r. split; [reflexivity|]. split; [reflexivity|].
      intros _ _. reflexivity.
    + cbn [fst snd]. split; [exact Hsame|]. split; [exact Hsame'|].
      intros Hlist Hne.
      destruct (collect_functions_listable tools Hlist [] (tr ++ preamble resources))
        as [extra' [Hcol' _]].
      rewrite Hcol in Hcol'. discriminate Hcol'.
    + cbn [fst snd]. split; [exact Hsame|]. split; [exact Hsame'|].
      intros Hlist Hne.
      destruct (collect_functions_listable tools Hlist [] (tr ++ preamble resources))
        as [extra' [Hcol' _]].
      rewrite Hcol in Hcol'. discriminate Hcol'.
Qed.

(** When the tools are listable and one at least is converted, the
    argument strings of the model's calls all decode, and the session
    answers every call, the cycle completes and invokes exactly the calls
    of the model, each with its name and decoded arguments, in the
    model's order. *)
Lemma all_calls_invoked (calls : list tool_call) tr :
  environ_openai_key <> None ->
  forallb listable tools = true ->
  flat_map contribution tools <> [] ->
  (forall h p fs, llm h p fs = Gives (Some calls)) ->
  Forall (fun c => well_formed c = true) calls ->
  (forall h n a, exists r, call_tool h n a = Gives r) ->
  fst (run environ_openai_key llm resources tools call_tool tr) = Val tt /\
  invoked (snd (run environ_openai_key llm resources tools call_tool tr)) =
    invoked tr ++ map invocation calls.
Proof.
  intros Hkey Hlist Hne Hllm Hwf Hok.
  destruct (run_to_dispatch calls tr Hkey Hlist Hne Hllm Hwf) as [tr2 [-> [Hinv _]]].
  destruct (dispatch_entries calls (fun h c _ => Hok h _ _) [] tr2)
    as [extra [Hrun [Hi _]]].
  rewrite app_nil_r in Hrun. rewrite Hrun. cbn [dispatch ret fst snd].
  split; [reflexivity|]. rewrite invoked_app, Hinv, Hi. reflexivity.
Qed.

(** When the session fails on one of the calls, the cycle ends in
    that exception: the calls before it have been invoked in order, the
    failing one has been attempted, and none of the calls after it is. *)
Lemma failed_call_stops (before after : list tool_call) (c : tool_call)
    (e : exn) tr :
  environ_openai_key <> None ->
  forallb listable tools = true ->
  flat_map contribution tools <> [] ->
  (forall h p fs, llm h p fs = Gives (Some (before ++ c :: after))) ->
  Forall (fun c' => well_formed c' = true) (before ++ c :: after) ->
  (forall h c', In c' before ->
     exists r, call_tool h (JStr (function_name c')) (decoded c') = Gives r) ->
  (forall h, call_tool h (JStr (function_name c)) (decoded c) = Fails e) ->
  fst (run environ_openai_key llm resources tools call_tool tr) = Exc e /\
  invoked (snd (run environ_openai_key llm resources tools call_tool tr)) =
    invoked tr ++ map invocation (before ++ [c]).
Proof.
  intros Hkey Hlist Hne Hllm Hwf Hok Hfail.
  destruct (run_to_dispatch (before ++ c :: after) tr Hkey Hlist Hne Hllm Hwf)
    as [tr2 [-> [Hinv _]]].
  rewrite map_app.
  destruct (dispatch_entries before Hok (map entry (c :: after)) tr2)
    as [extra [-> [Hi _]]].
  cbn [map]. rewrite dispatch_entry, Hfail. cbn [fst snd].
  split; [reflexivity|].
  rewrite !invoked_app, Hinv, Hi, map_app, <- app_assoc. reflexivity.
Qed.

(** X12. The calls of the model are invoked in the model's order, until
    one fails.  When the client has its key, the tools are listable and
    one at least is converted, and the argument strings of the model's
    calls all decode:
    if the session answers every call, the cycle completes and invokes
    exactly the calls of the model, each with its name and decoded
    arguments, in order; and if the session fails on one of them, the
    cycle ends in that exception after the calls before it and the
    failing one, none of the calls after it being attempted. *)
Theorem calls_invoked_until_failure (calls : list tool_call) tr :
  environ_openai_key <> None ->
  forallb listable tools = true ->
  flat_map contribution tools <> [] ->
  (forall h p fs, llm h p fs = Gives (Some calls)) ->
  Forall (fun c => well_formed c = true) calls ->
  ((forall h n a, exists r, call_tool h n a = Gives r) ->
   fst (run environ_openai_key llm resources tools call_tool tr) = Val tt /\
   invoked (snd (run environ_openai_key llm resources tools call_tool tr)) =
     invoked tr ++ map invocation calls) /\
  (forall before c after e,
      calls = before ++ c :: after ->
      (forall h c', In c' before ->
         exists r, call_tool h (JStr (function_name c')) (decoded c') = Gives r) ->
      (forall h, call_tool h (JStr (function_name c)) (decoded c) = Fails e) ->
      fst (run environ_openai_key llm resources tools call_tool tr) = Exc e /\
      invoked (snd (run environ_openai_key llm resources tools call_tool tr)) =
        invoked tr ++ map invocation (before ++ [c])).
Proof.
  intros Hkey Hlist Hne Hllm Hwf. split.
  - intros Hok. exact (all_calls_invoked calls tr Hkey Hlist Hne Hllm Hwf Hok).
  - intros before c after e -> Hok Hfail.
    exact (failed_call_stops before after c e tr Hkey Hlist Hne Hllm Hwf Hok Hfail).
Qed.

End Cycle.

(** A tool without a name after a good one: the listing stops there. *)
Lemma unlistable_tool_aborts_cycle_witness :
  existsb (fun t => negb (listable t)) [search_tool; unnamed_tool] = true /\
  fst (run some_key silent_model [] [search_tool; unnamed_tool] echo_session [])
    = Exc AttributeError /\
  model_requests (snd (run some_key silent_model [] [search_tool; unnamed_tool] echo_session []))
    = model_requests [] /\
  invoked (snd (run some_key silent_model [] [search_tool; unnamed_tool] echo_session []))
    = invoked [].
Proof.
  split; [reflexivity|].
  exact (unlistable_tool_aborts_cycle some_key silent_model []
           [search_tool; unnamed_tool] echo_session [] eq_refl).
Defined.

(** Two calls: both answered by a session that echoes; and the first
    failing, after which the second is never attempted. *)
Lemma calls_invoked_until_failure_witness :
  some_key <> None /\
  forallb listable [search_tool] = true /\
  flat_map contribution [search_tool] <> [] /\
  Forall (fun c => well_formed c = true) two_calls /\
  (fst (run some_key asks_two_calls [] [search_tool] echo_session []) = Val tt /\
   invoked (snd (run some_key asks_two_calls [] [search_tool] echo_session [])) =
     invoked [] ++ map invocation two_calls) /\
  (fst (run some_key asks_two_calls [] [search_tool] search_fails []) = Exc ValueError /\
   invoked (snd (run some_key asks_two_calls [] [search_tool] search_fails [])) =
     [(JStr "search_cases", JDict [("query", JStr "F-1 visa")])]).
Proof.
  assert (H0 : some_key <> None) by discriminate.
  assert (H1 : forallb listable [search_tool] = true) by reflexivity.
  assert (H2 : flat_map contribution [search_tool] <> []) by discriminate.
  assert (H4 : Forall (fun c => well_formed c = true) two_calls).
  { repeat constructor. }
  split; [exact H0|].
  split; [exact H1|]. split; [exact H2|]. split; [exact H4|]. split.
  - exact (proj1 (calls_invoked_until_failure some_key asks_two_calls []
                    [search_tool] echo_session two_calls [] H0 H1 H2
                    (fun _ _ _ => eq_refl) H4)
             (fun _ _ a => ex_intro _ a eq_refl)).
  - exact (proj2 (calls_invoked_until_failure some_key asks_two_calls []
                    [search_tool] search_fails two_calls [] H0 H1 H2
                    (fun _ _ _ => eq_refl) H4)
             [] (mkCall "search_cases" (Encodes (JDict [("query", JStr "F-1 visa")])))
             [mkCall "get_case_summary"
                (Encodes (JDict [("case_identifier", JStr "118395")]))]
             ValueError eq_refl
             (fun _ _ (H : False) => match H with end)
             (fun _ => eq_refl)).
Defined.

(** One tool and a silent model: with a key the schema of the tool is
    submitted once; without one the cycle ends in the error of the client
    library and nothing is submitted. *)
Lemma one_request_with_all_schemas_witness :
  some_key <> None /\
  forallb listable [search_tool] = true /\
  flat_map contribution [search_tool] <> [] /\
  model_requests (snd (run some_key silent_model [] [search_tool] echo_session [])) =
    model_requests []
    ++ [("You are a helpful legal assistant that can call tools to perform tasks.",
         "I want to get some real cases of starting businesses with F-1 visa in the US. Can you help me with that? Please also give me the summary based on the opnion ID",
         flat_map contribution [search_tool])] /\
  flat_map contribution [search_tool] =
    [JDict [("type", JStr "function");
            ("function",
             JDict [("name", JStr "search_cases");
                    ("description",
                     JStr "Search cases using the unified search API (v4).");
                    ("parameters",
                     JDict [("type", JStr "object");
                            ("properties",
                             JDict [("query", JDict [("type", JStr "string")])])])])]] /\
  (model_requests (snd (run None silent_model [] [search_tool] echo_session []))
     = model_requests [] /\
   invoked (snd (run None silent_model [] [search_tool] echo_session []))
     = invoked [] /\
   fst (run None silent_model [] [search_tool] echo_session []) = Exc OpenAIError).
Proof.
  assert (H0 : some_key <> None) by discriminate.
  assert (H1 : forallb listable [search_tool] = true) by reflexivity.
  assert (H2 : flat_map contribution [search_tool] <> []) by discriminate.
  split; [exact H0|]. split; [exact H1|]. split; [exact H2|]. split.
  - exact (proj1 (proj2 (one_request_with_all_schemas some_key silent_model []
                           [search_tool] echo_session [])) H0 H1 H2).
  - split; [reflexivity|].
    destruct (proj2 (proj2 (one_request_with_all_schemas None silent_model []
                              [search_tool] echo_session [])) eq_refl)
      as [Ha [Hb Hc]].
    split; [exact Ha|]. split; [exact Hb|]. exact (Hc H1 H2).
Defined.

End CycleFacts.
